(** * Libre Network: the consensus core, embedded and checked against its specification

    The development follows the Python sources file by file:

    - [Py]          the pieces of the Python runtime the code calls
                    ([int(s, 16)], [str(n)], [random], [hashlib], [json]);
    - [Consensus]   consensus.py;
    - [Storage]     storage.py (the SQLite tables, as finite maps on their primary key);
    - [Blockchain]  blockchain.py;
    - [Gui]         libre_network_gui.py (the file-backed node: executor, group
                    rotation, committee selection, signature collection, installation);
    - [Spec]        the committee selection and the sampling of a large pool as
                    the specification words them, to compare the code with;
    - [Fixtures]    the inputs of the examples;
    - [Checks]      relations and decision procedures used in the statements;
    - [Proposal]    the validation of a proposed state (consensus.py and
                    libre_network_gui.py);
    - [Ledger]      blockchain.py: [verify_chain], [get_height];
    - [Tables]      storage.py: the users table and the generated keys;
    - [Config]      config.py;
    - [P2P]         p2p_network.py (and the peers table of storage.py);
    - [Network]     network.py;
    - [Node]        main.py;
    - [Wallet]      libre_network_gui.py: submitting, gossiping, signing, the
                    mining buttons and timers;
    - [Views]       relations and inputs used in the further properties.

    Conventions.  A Python [dict] whose iteration order is observable (the
    transaction pool, the miner pool, a group's roster) is an association list in
    insertion order; a dict or table that is only looked up and updated by key is
    a [gmap].  Amounts are exact rationals: the code's [float] arithmetic is
    idealised, only [+], [-] and [>=] are used on them.  Every read of the clock
    ([int(time.time())]) inside one call is the argument [now].  An uncaught
    Python exception is the result [None]. *)

From Stdlib Require Import ZArith QArith Lqa String Ascii List Bool Lia Permutation.
From Stdlib Require Import DecimalString OrderedTypeEx.
From Stdlib Require DecimalPos DecimalZ.
From stdpp Require Import gmap strings list fin_maps.
Import ListNotations.

#[local] Set Warnings "-register-all".
Open Scope string_scope.
Open Scope Z_scope.

(** ** The Python runtime *)

Module Py.

(** An insertion-ordered dict with string keys. *)
Definition odict (V : Type) : Type := list (string * V).

Definition keys {V} (d : odict V) : list string := map fst d.

Definition contains {V} (k : string) (d : odict V) : bool :=
  existsb (String.eqb k) (keys d).

Fixpoint get {V} (k : string) (d : odict V) : option V :=
  match d with
  | [] => None
  | (k', v) :: d' => if String.eqb k k' then Some v else get k d'
  end.

(** [d[k] = v]: an existing key keeps its position, a new key goes last. *)
Fixpoint put {V} (k : string) (v : V) (d : odict V) : odict V :=
  match d with
  | [] => [(k, v)]
  | (k', v') :: d' =>
      if String.eqb k k' then (k, v) :: d' else (k', v') :: put k v d'
  end.

(** [int(c, 16)] of one character. *)
Definition hex_digit (c : ascii) : option Z :=
  let n := Z.of_N (N_of_ascii c) in
  if (48 <=? n) && (n <=? 57) then Some (n - 48)
  else if (97 <=? n) && (n <=? 102) then Some (n - 87)
  else if (65 <=? n) && (n <=? 70) then Some (n - 55)
  else None.

Fixpoint int16_from (acc : Z) (s : string) : option Z :=
  match s with
  | EmptyString => Some acc
  | String c s' =>
      match hex_digit c with
      | Some d => int16_from (16 * acc + d) s'
      | None => None
      end
  end.

(** [int(s, 16)] on a string of hexadecimal digits; the empty string and a
    string with any other character raise [ValueError].  (Signs, a [0x]
    prefix, underscores and surrounding blanks, which Python also accepts, do
    not occur in a hex digest and are not modelled.) *)
Definition int16 (s : string) : option Z :=
  match s with
  | EmptyString => None
  | _ => int16_from 0 s
  end.

(** A hex digest: a non-empty string of hexadecimal digits. *)
Fixpoint all_hex (s : string) : bool :=
  match s with
  | EmptyString => true
  | String c s' => match hex_digit c with Some _ => all_hex s' | None => false end
  end.

Definition hexdigest (s : string) : bool :=
  match s with EmptyString => false | _ => all_hex s end.

(** [str(n)] *)
Definition str (n : Z) : string := NilZero.string_of_int (Z.to_int n).

(** JSON values, as [json.load] returns them and [json.dumps] takes them. *)
Inductive json : Type :=
| JNull
| JInt (n : Z)
| JNum (q : Q)
| JStr (s : string)
| JList (items : list json)
| JObj (fields : list (string * json)).

(** The keys of a JSON object. *)
Definition json_keys (j : json) : list string :=
  match j with
  | JObj fields => map fst fields
  | _ => []
  end.

(** [hashlib.sha256(s.encode()).hexdigest()] and
    [json.dumps(x, sort_keys=True)], taken as given. *)
Class Hashing := {
  sha256_hexdigest : string -> string;
  json_dumps_sorted : json -> string
}.

(** The [random] module.  Its hidden state is [rng]; [random.seed(a)]
    replaces it.  [random.sample(population, k)] picks by position: which
    positions are picked depends on the state, on [len(population)] and on
    [k] only, and for [k <= len(population)] they are [k] distinct positions of
    the population. *)
Class Random := {
  rng : Type;
  rng_seed : Z -> rng;
  rng_positions : rng -> nat -> nat -> list nat * rng;
  rng_positions_ok : forall g n k, (k <= n)%nat ->
    length (rng_positions g n k).1 = k /\
    NoDup (rng_positions g n k).1 /\
    Forall (fun i => (i < n)%nat) (rng_positions g n k).1
}.

(** [random.sample(population, k)]; [ValueError] when the sample is larger
    than the population. *)
Definition sample `{R : Random} (g : rng) (population : list string) (k : nat)
  : option (list string * rng) :=
  if (k <=? length population)%nat then
    let '(positions, g') := rng_positions g (length population) k in
    Some (map (fun i => nth i population "") positions, g')
  else None.

End Py.

(** ** consensus.py *)

Module Consensus.
Import Py.

Record Signature := {
  sig_state_hash : string;
  signer : string;
  signature : string
}.

(** [Consensus.get_selected_miners].  The generator is seeded before the
    size of the roster is looked at. *)
Definition get_selected_miners `{R : Random} (g : rng) (state_hash : string)
    (group_miners_dict : odict Z) : option (list string * rng) :=
  match int16 (substring 0 16 state_hash) with
  | None => None
  | Some seed =>
      let g1 := rng_seed seed in
      let miner_addresses := keys group_miners_dict in
      if (length miner_addresses <=? 100)%nat then Some (miner_addresses, g1)
      else sample g1 miner_addresses 100
  end.

(** [Consensus.verify_state_signature] *)
Definition verify_state_signature (address state_hash signature : string) : bool :=
  true.

(** One turn of the loop of [verify_aggregated_signature]. *)
Definition count_signature (state_hash : string) (selected_miners : list string)
    (acc : nat * gset string) (sig_obj : Signature) : nat * gset string :=
  let '(valid_count, seen_signers) := acc in
  if existsb (String.eqb (signer sig_obj)) selected_miners
     && negb (bool_decide (signer sig_obj ∈ seen_signers)) then
    if verify_state_signature (signer sig_obj) state_hash (signature sig_obj) then
      (S valid_count, {[signer sig_obj]} ∪ seen_signers)
    else acc
  else acc.

(** [Consensus.verify_aggregated_signature]: the boolean of the pair it returns. *)
Definition verify_aggregated_signature (signatures : list Signature)
    (state_hash : string) (selected_miners : list string) : bool :=
  if (length signatures <? 100)%nat then false
  else
    let '(valid_count, _) :=
      fold_left (count_signature state_hash selected_miners) signatures (0%nat, ∅) in
    (100 <=? valid_count)%nat.

End Consensus.

(** ** The records the code passes around as dicts *)

Module Data.
Import Py.

(** A user, [{"address", "balance", "nonce", "life"}]. *)
Record User := {
  u_address : string;
  balance : Q;
  nonce : Z;
  life : Z
}.

(** A pooled transaction. *)
Record Tx := {
  tx_id : string;
  tx_type : string;
  tx_from : string;
  tx_to : string;
  amount : Q;
  fee : Q;
  tx_nonce : Z;
  timestamp : Z;
  tx_signature : string
}.

(** An entry of [tx_executed]: a pooled transaction, or the reward
    [{"tx_id", "type": "reward", "to", "amount"}] the executor adds. *)
Inductive Executed : Type :=
| Pooled (tx : Tx)
| Reward (reward_id : string) (to : string) (reward_amount : Z).

(** The current group, [{"group_id", "miners", "created_at", "updates"}]. *)
Record Group := {
  group_id : Z;
  miners : odict Z;
  created_at : Z;
  updates : Z
}.

(** A proposed state, [{"users", "miner_pool", "current_group", "tx_executed"}]. *)
Record State := {
  users : gmap string User;
  miner_pool : odict Z;
  current_group : Group;
  tx_executed : odict Executed
}.

Definition user_json (u : User) : json :=
  JObj [("address", JStr (u_address u)); ("balance", JNum (balance u));
        ("nonce", JInt (nonce u)); ("life", JInt (life u))].

Definition users_json (us : gmap string User) : json :=
  JObj (map (fun kv => (kv.1, user_json kv.2)) (map_to_list us)).

Definition pool_json (p : odict Z) : json :=
  JObj (map (fun kv => (kv.1, JInt kv.2)) p).

Definition tx_json (tx : Tx) : json :=
  JObj [("tx_id", JStr (tx_id tx)); ("type", JStr (tx_type tx));
        ("from", JStr (tx_from tx)); ("to", JStr (tx_to tx));
        ("amount", JNum (amount tx)); ("fee", JNum (fee tx));
        ("nonce", JInt (tx_nonce tx)); ("timestamp", JInt (timestamp tx));
        ("signature", JStr (tx_signature tx))].

Definition executed_json (e : Executed) : json :=
  match e with
  | Pooled tx => tx_json tx
  | Reward rid to amt =>
      JObj [("tx_id", JStr rid); ("type", JStr "reward"); ("to", JStr to);
            ("amount", JInt amt)]
  end.

Definition group_json (g : Group) : json :=
  JObj [("group_id", JInt (group_id g)); ("miners", pool_json (miners g));
        ("created_at", JInt (created_at g)); ("updates", JInt (updates g))].

(** The dict that is hashed each round. *)
Definition state_json (st : State) : json :=
  JObj [("users", users_json (users st));
        ("miner_pool", pool_json (miner_pool st));
        ("current_group", group_json (current_group st));
        ("tx_executed",
          JObj (map (fun kv => (kv.1, executed_json kv.2)) (tx_executed st)))].

End Data.

(** ** storage.py *)

Module Storage.
Import Py Data.

(** A row of [groups]; the key is [group_id]. *)
Record GroupRow := {
  row_miners : odict Z;
  row_created_at : Z
}.

(** A block, [{"block_number", "prev_hash", "state_hash", "combined_hash",
    "group_id", "miner", "timestamp", "executed_tx_count", "signatures"}]. *)
Record Block := {
  block_number : Z;
  prev_hash : string;
  state_hash : string;
  combined_hash : string;
  block_group_id : Z;
  miner : string;
  block_timestamp : Z;
  executed_tx_count : Z;
  signatures : list Consensus.Signature
}.

(** A row of [blocks], without its key [block_number]. *)
Record BlockRow := {
  row_prev_hash : string;
  row_state_hash : string;
  row_combined_hash : string;
  row_group_id : Z;
  row_miner : string;
  row_timestamp : Z;
  row_executed_tx_count : Z;
  row_signatures : list Consensus.Signature
}.

Definition row_of_block (b : Block) : BlockRow :=
  {| row_prev_hash := prev_hash b; row_state_hash := state_hash b;
     row_combined_hash := combined_hash b; row_group_id := block_group_id b;
     row_miner := miner b; row_timestamp := block_timestamp b;
     row_executed_tx_count := executed_tx_count b;
     row_signatures := signatures b |}.

Definition block_of_row (kv : Z * BlockRow) : Block :=
  {| block_number := kv.1; prev_hash := row_prev_hash kv.2;
     state_hash := row_state_hash kv.2; combined_hash := row_combined_hash kv.2;
     block_group_id := row_group_id kv.2; miner := row_miner kv.2;
     block_timestamp := row_timestamp kv.2;
     executed_tx_count := row_executed_tx_count kv.2;
     signatures := row_signatures kv.2 |}.

(** The database: each table a finite map on its primary key. *)
Record Db := {
  users_table : gmap string User;
  miner_pool_table : gmap string Z;
  groups_table : gmap Z GroupRow;
  blocks_table : gmap Z BlockRow
}.

(** [SELECT ... ORDER BY key DESC LIMIT 1] *)
Definition later {V} (kv : Z * V) (best : option (Z * V)) : option (Z * V) :=
  match best with
  | None => Some kv
  | Some kv' => if kv'.1 <? kv.1 then Some kv else best
  end.

Definition last_row {V} (t : gmap Z V) : option (Z * V) :=
  foldr later None (map_to_list t).

Definition get_all_users (db : Db) : gmap string User := users_table db.

Definition get_miner_pool (db : Db) : gmap string Z := miner_pool_table db.

Definition get_latest_group (db : Db) : option (Z * GroupRow) :=
  last_row (groups_table db).

(** [Storage.save_group]: [INSERT OR REPLACE INTO groups]. *)
Definition save_group (gid : Z) (miners_dict : odict Z) (created : Z) (db : Db) : Db :=
  {| users_table := users_table db;
     miner_pool_table := miner_pool_table db;
     groups_table :=
       <[gid := {| row_miners := miners_dict; row_created_at := created |}]>
         (groups_table db);
     blocks_table := blocks_table db |}.

(** [Storage.save_block]: [INSERT OR REPLACE INTO blocks]. *)
Definition save_block (block_data : Block) (db : Db) : Db :=
  {| users_table := users_table db;
     miner_pool_table := miner_pool_table db;
     groups_table := groups_table db;
     blocks_table :=
       <[block_number block_data := row_of_block block_data]> (blocks_table db) |}.

Definition get_block (n : Z) (db : Db) : option Block :=
  (fun row => block_of_row (n, row)) <$> blocks_table db !! n.

Definition get_latest_block (db : Db) : option Block :=
  block_of_row <$> last_row (blocks_table db).

Definition get_block_count (db : Db) : nat := size (blocks_table db).

Definition zeros64 : string :=
  "0000000000000000000000000000000000000000000000000000000000000000".

Definition group_row_json (g : option (Z * GroupRow)) : json :=
  match g with
  | None => JNull
  | Some (gid, row) =>
      JObj [("group_id", JInt gid); ("miners", pool_json (row_miners row));
            ("created_at", JInt (row_created_at row))]
  end.

(** The dict [state] that [Storage.compute_state_hash] builds. *)
Definition state_document (db : Db) : json :=
  JObj [("users", users_json (get_all_users db));
        ("miner_pool",
          JObj (map (fun kv => (kv.1, JInt kv.2)) (map_to_list (get_miner_pool db))));
        ("latest_group", group_row_json (get_latest_group db));
        ("latest_block_hash",
          JStr (match get_latest_block db with
                | Some b => state_hash b
                | None => zeros64
                end))].

(** [Storage.compute_state_hash] *)
Definition compute_state_hash `{H : Hashing} (db : Db) : string :=
  sha256_hexdigest (json_dumps_sorted (state_document db)).

End Storage.

(** ** blockchain.py *)

Module Blockchain.
Import Py Data Storage.

(** The [genesis_block] of [ensure_genesis]. *)
Definition ensure_genesis_block (now : Z) : Block :=
  {| block_number := 0; prev_hash := zeros64; state_hash := zeros64;
     combined_hash := zeros64; block_group_id := 0;
     Storage.miner := "GENESIS"; block_timestamp := now;
     executed_tx_count := 0; Storage.signatures := [] |}.

(** [Blockchain.ensure_genesis] *)
Definition ensure_genesis (now : Z) (db : Db) : Db :=
  if (get_block_count db =? 0)%nat then
    save_block (ensure_genesis_block now) (save_group 0 [] now db)
  else db.

(** The header fields that [combined_hash] covers. *)
Definition block_content (number : Z) (prev state : string) (gid : Z)
    (miner : string) (ts : Z) : json :=
  JObj [("block_number", JInt number); ("prev_hash", JStr prev);
        ("state_hash", JStr state); ("group_id", JInt gid);
        ("miner", JStr miner); ("timestamp", JInt ts)].

(** [Blockchain.create_block].  The block's [state_hash] is recomputed from
    the database; of [state] only the number of executed transactions is
    used.  With no block stored, [latest["block_number"]] raises. *)
Definition create_block `{H : Hashing} (now : Z) (state : State) (miner : string)
    (signatures : list Consensus.Signature) (group_id : Z) (db : Db)
  : option (Block * Db) :=
  match get_latest_block db with
  | None => None
  | Some latest =>
      let number := block_number latest + 1 in
      let state_hash := compute_state_hash db in
      let combined :=
        sha256_hexdigest
          (json_dumps_sorted
             (block_content number (Storage.state_hash latest) state_hash
                group_id miner now)) in
      let block_data :=
        {| block_number := number;
           prev_hash := Storage.state_hash latest;
           state_hash := state_hash;
           combined_hash := combined;
           block_group_id := group_id;
           Storage.miner := miner;
           block_timestamp := now;
           executed_tx_count := Z.of_nat (length (tx_executed state));
           Storage.signatures := signatures |} in
      Some (block_data, save_block block_data db)
  end.

End Blockchain.

(** ** libre_network_gui.py *)

Module Gui.
Import Py Data.
Export Consensus (Signature, sig_state_hash, signer, signature).

Definition DEFAULT_LIFE : Z := 20000000.

(** A block file, [{"block_number", "state_hash", "signatures", "timestamp"}]. *)
Record BlockFile := {
  file_block_number : Z;
  file_state_hash : string;
  file_signatures : list Signature;
  file_timestamp : Z
}.

(** The files under [libre_data]; the two directories by file name. *)
Record Files := {
  USERS_FILE : gmap string User;
  TX_POOL_FILE : odict Tx;
  TX_EXECUTED_FILE : odict Executed;
  MINER_POOL_FILE : odict Z;
  CURRENT_GROUP_FILE : Group;
  GROUPS_DIR : gmap string Group;
  BLOCKS_DIR : gmap string BlockFile
}.

(** [write_json(PATH, data)], one function per path. *)
Definition write_users (data : gmap string User) (fs : Files) : Files :=
  {| USERS_FILE := data; TX_POOL_FILE := TX_POOL_FILE fs;
     TX_EXECUTED_FILE := TX_EXECUTED_FILE fs; MINER_POOL_FILE := MINER_POOL_FILE fs;
     CURRENT_GROUP_FILE := CURRENT_GROUP_FILE fs; GROUPS_DIR := GROUPS_DIR fs;
     BLOCKS_DIR := BLOCKS_DIR fs |}.

Definition write_tx_pool (data : odict Tx) (fs : Files) : Files :=
  {| USERS_FILE := USERS_FILE fs; TX_POOL_FILE := data;
     TX_EXECUTED_FILE := TX_EXECUTED_FILE fs; MINER_POOL_FILE := MINER_POOL_FILE fs;
     CURRENT_GROUP_FILE := CURRENT_GROUP_FILE fs; GROUPS_DIR := GROUPS_DIR fs;
     BLOCKS_DIR := BLOCKS_DIR fs |}.

Definition write_tx_executed (data : odict Executed) (fs : Files) : Files :=
  {| USERS_FILE := USERS_FILE fs; TX_POOL_FILE := TX_POOL_FILE fs;
     TX_EXECUTED_FILE := data; MINER_POOL_FILE := MINER_POOL_FILE fs;
     CURRENT_GROUP_FILE := CURRENT_GROUP_FILE fs; GROUPS_DIR := GROUPS_DIR fs;
     BLOCKS_DIR := BLOCKS_DIR fs |}.

Definition write_miner_pool (data : odict Z) (fs : Files) : Files :=
  {| USERS_FILE := USERS_FILE fs; TX_POOL_FILE := TX_POOL_FILE fs;
     TX_EXECUTED_FILE := TX_EXECUTED_FILE fs; MINER_POOL_FILE := data;
     CURRENT_GROUP_FILE := CURRENT_GROUP_FILE fs; GROUPS_DIR := GROUPS_DIR fs;
     BLOCKS_DIR := BLOCKS_DIR fs |}.

Definition write_current_group (data : Group) (fs : Files) : Files :=
  {| USERS_FILE := USERS_FILE fs; TX_POOL_FILE := TX_POOL_FILE fs;
     TX_EXECUTED_FILE := TX_EXECUTED_FILE fs; MINER_POOL_FILE := MINER_POOL_FILE fs;
     CURRENT_GROUP_FILE := data; GROUPS_DIR := GROUPS_DIR fs;
     BLOCKS_DIR := BLOCKS_DIR fs |}.

Definition write_group_file (name : string) (data : Group) (fs : Files) : Files :=
  {| USERS_FILE := USERS_FILE fs; TX_POOL_FILE := TX_POOL_FILE fs;
     TX_EXECUTED_FILE := TX_EXECUTED_FILE fs; MINER_POOL_FILE := MINER_POOL_FILE fs;
     CURRENT_GROUP_FILE := CURRENT_GROUP_FILE fs;
     GROUPS_DIR := <[name := data]> (GROUPS_DIR fs);
     BLOCKS_DIR := BLOCKS_DIR fs |}.

Definition write_block_file (name : string) (data : BlockFile) (fs : Files) : Files :=
  {| USERS_FILE := USERS_FILE fs; TX_POOL_FILE := TX_POOL_FILE fs;
     TX_EXECUTED_FILE := TX_EXECUTED_FILE fs; MINER_POOL_FILE := MINER_POOL_FILE fs;
     CURRENT_GROUP_FILE := CURRENT_GROUP_FILE fs; GROUPS_DIR := GROUPS_DIR fs;
     BLOCKS_DIR := <[name := data]> (BLOCKS_DIR fs) |}.

(** What the four state files hold, as one state. *)
Definition stored_state (fs : Files) : State :=
  {| users := USERS_FILE fs;
     miner_pool := MINER_POOL_FILE fs;
     current_group := CURRENT_GROUP_FILE fs;
     tx_executed := TX_EXECUTED_FILE fs |}.

(** [hashlib.sha256(json.dumps(state, sort_keys=True).encode()).hexdigest()] *)
Definition hash_state `{H : Hashing} (state : State) : string :=
  sha256_hexdigest (json_dumps_sorted (state_json state)).

(** [compute_state_hash] *)
Definition compute_state_hash `{H : Hashing} (fs : Files) : string :=
  hash_state (stored_state fs).

(** [verify_state_signature] *)
Definition verify_state_signature (public_key state_hash signature : string) : bool :=
  true.

(** [get_selected_miners]: here the seed is the whole hash. *)
Definition get_selected_miners `{R : Random} (g : rng) (state_hash : string)
    (current_group_miners : odict Z) : option (list string * rng) :=
  match int16 state_hash with
  | None => None
  | Some seed =>
      let g1 := rng_seed seed in
      let miner_addresses := keys current_group_miners in
      if (length miner_addresses <=? 100)%nat then Some (miner_addresses, g1)
      else sample g1 miner_addresses 100
  end.

Definition get_group (fs : Files) : Group := CURRENT_GROUP_FILE fs.

(** [selected_miners[m] = pool[m]]; [KeyError] for an address not in the pool. *)
Definition pick_miner (pool : odict Z) (acc : option (odict Z)) (m : string)
  : option (odict Z) :=
  match acc, get m pool with
  | Some selected, Some joined => Some (put m joined selected)
  | _, _ => None
  end.

(** The loop over [lucky_miners]. *)
Definition pick_miners (pool : odict Z) (lucky_miners : list string) : option (odict Z) :=
  fold_left (pick_miner pool) lucky_miners (Some []).

(** [create_group].  The result is the returned boolean, the generator and
    the files. *)
Definition create_group `{R : Random} (now : Z) (g : rng) (fs : Files)
  : option (bool * rng * Files) :=
  let current := get_group fs in
  let pool := MINER_POOL_FILE fs in
  let miner_addresses := keys pool in
  if Z.of_nat (length miner_addresses) <? 1000 then Some (false, g, fs)
  else
    let gid := group_id current + 1 in
    let chosen :=
      if 100000 <? Z.of_nat (length miner_addresses) then
        match sample (rng_seed gid) miner_addresses (Z.to_nat 100000) with
        | Some (lucky_miners, g2) =>
            match pick_miners pool lucky_miners with
            | Some selected => Some (selected, g2)
            | None => None
            end
        | None => None
        end
      else Some (pool, g) in
    match chosen with
    | None => None
    | Some (selected_miners, g') =>
        let group :=
          {| group_id := gid; miners := selected_miners;
             created_at := now; updates := 0 |} in
        let fs1 := write_current_group group fs in
        let fs2 := write_group_file ("group_" ++ str gid ++ ".json") group fs1 in
        let fs3 := write_miner_pool [] fs2 in
        Some (true, g', fs3)
    end.

Definition set_balance (b : Q) (u : User) : User :=
  {| u_address := u_address u; balance := b; nonce := nonce u; life := life u |}.

Definition debit (x : Q) (u : User) : User := set_balance (balance u - x) u.

Definition credit (x : Q) (u : User) : User := set_balance (balance u + x) u.

Definition bump_nonce (u : User) : User :=
  {| u_address := u_address u; balance := balance u; nonce := nonce u + 1; life := life u |}.

Definition age (u : User) : User :=
  {| u_address := u_address u; balance := balance u; nonce := nonce u; life := life u - 1 |}.

(** [decrease_life]: every user loses one life, the users left with none are
    removed, and the result is written back to [USERS_FILE]. *)
Definition decrease_life (fs : Files) : Files :=
  write_users (filter (fun kv => 0 < life kv.2) (age <$> USERS_FILE fs)) fs.

Definition has_user (a : string) (us : gmap string User) : bool :=
  bool_decide (is_Some (us !! a)).

(** One turn of the loop of [execute_transactions] over the pool. *)
Definition execute_one (now : Z)
    (acc : gmap string User * odict Z * odict Executed) (entry : string * Tx)
  : gmap string User * odict Z * odict Executed :=
  let '(users, miner_pool, executed) := acc in
  let '(txid, tx) := entry in
  let t := tx_type tx in
  let sender := tx_from tx in
  match users !! sender with
  | None => acc
  | Some s =>
      let '(users1, miner_pool1, valid) :=
        if String.eqb t "transfer" then
          if has_user (tx_to tx) users && Qle_bool (amount tx + fee tx) (balance s) then
            (alter (credit (amount tx)) (tx_to tx)
               (alter (debit (amount tx + fee tx)) sender users),
             miner_pool, true)
          else (users, miner_pool, false)
        else if String.eqb t "new_account" then
          if negb (has_user (tx_to tx) users) && Qle_bool (fee tx) (balance s) then
            (<[tx_to tx := {| u_address := tx_to tx; balance := 0; nonce := 0;
                              life := DEFAULT_LIFE |}]>
               (alter (debit (fee tx)) sender users),
             miner_pool, true)
          else (users, miner_pool, false)
        else if String.eqb t "join_pool" then
          if Qle_bool (fee tx) (balance s) then
            (alter (debit (fee tx)) sender users,
             if contains sender miner_pool then miner_pool
             else put sender now miner_pool,
             true)
          else (users, miner_pool, false)
        else (users, miner_pool, false) in
      if valid then
        (alter bump_nonce sender users1, miner_pool1, put txid (Pooled tx) executed)
      else (users1, miner_pool1, executed)
  end.

(** [execute_transactions]: the proposed state ([None] where the code
    returns [None]) and the files as the call leaves them. *)
Definition execute_transactions (now : Z) (miner : string) (fs : Files)
  : option State * Files :=
  if negb (has_user miner (USERS_FILE fs)) then (None, fs)
  else
    let group := get_group fs in
    if negb (contains miner (miners group)) then (None, fs)
    else
      let fs1 := decrease_life fs in
      let users := USERS_FILE fs1 in
      if negb (has_user miner users) then (None, fs1)
      else
        let pool := TX_POOL_FILE fs1 in
        let miner_pool := MINER_POOL_FILE fs1 in
        let '(users1, miner_pool1, executed) :=
          fold_left (execute_one now) pool (users, miner_pool, []) in
        let reward_id := "reward_" ++ str now in
        let users2 := alter (credit 100) miner users1 in
        let executed1 := put reward_id (Reward reward_id miner 100) executed in
        (Some {| users := users2; miner_pool := miner_pool1;
                 current_group := group; tx_executed := executed1 |},
         fs1).

(** What [mine] returns, [{"state", "state_hash"}]. *)
Record Update := {
  upd_state : State;
  upd_state_hash : string
}.

(** [mine] *)
Definition mine `{H : Hashing} (now : Z) (miner : string) (fs : Files)
  : option Update * Files :=
  match execute_transactions now miner fs with
  | (None, fs1) => (None, fs1)
  | (Some state, fs1) =>
      (Some {| upd_state := state; upd_state_hash := hash_state state |}, fs1)
  end.

(** The envelopes the node broadcasts, by type and payload. *)
Inductive Message : Type :=
| UPDATE_REQUEST (state : State) (state_hash miner : string) (miner_port : Z)
| FINAL_UPDATE (state : State) (state_hash : string) (signatures : list Signature).

(** The consensus fields of the class [Main], with the files it works on
    and the envelopes it has broadcast, oldest first.  A timer is [Some ms]
    while armed. *)
Record Main := {
  addr : string;
  port : Z;
  pending_updates : gmap string Update;
  collected_signatures : gmap string (list Signature);
  is_mining : bool;
  mine_wait : Z;
  signature_timer : option Z;
  rebuild_timer : option Z;
  broadcasts : list Message;
  files : Files
}.

Definition with_files (fs : Files) (self : Main) : Main :=
  {| addr := addr self; port := port self;
     pending_updates := pending_updates self;
     collected_signatures := collected_signatures self;
     is_mining := is_mining self; mine_wait := mine_wait self;
     signature_timer := signature_timer self;
     rebuild_timer := rebuild_timer self;
     broadcasts := broadcasts self; files := fs |}.

Definition with_timers (sig_t rebuild_t : option Z) (self : Main) : Main :=
  {| addr := addr self; port := port self;
     pending_updates := pending_updates self;
     collected_signatures := collected_signatures self;
     is_mining := is_mining self; mine_wait := mine_wait self;
     signature_timer := sig_t; rebuild_timer := rebuild_t;
     broadcasts := broadcasts self; files := files self |}.

Definition with_rounds (pending : gmap string Update)
    (collected : gmap string (list Signature)) (self : Main) : Main :=
  {| addr := addr self; port := port self;
     pending_updates := pending; collected_signatures := collected;
     is_mining := is_mining self; mine_wait := mine_wait self;
     signature_timer := signature_timer self;
     rebuild_timer := rebuild_timer self;
     broadcasts := broadcasts self; files := files self |}.

(** [self.p2p.broadcast(env)] *)
Definition broadcast (m : Message) (self : Main) : Main :=
  {| addr := addr self; port := port self;
     pending_updates := pending_updates self;
     collected_signatures := collected_signatures self;
     is_mining := is_mining self; mine_wait := mine_wait self;
     signature_timer := signature_timer self;
     rebuild_timer := rebuild_timer self;
     broadcasts := (broadcasts self ++ [m])%list; files := files self |}.

(** [Main.trigger_rebuild] *)
Definition trigger_rebuild (self : Main) : Main :=
  if negb (is_mining self) then self
  else with_timers None (Some 1500) self.

(** [Main.apply_final_state] *)
Definition apply_final_state `{H : Hashing} (now : Z) (state : State)
    (signatures : list Signature) (self : Main) : Main :=
  let fs := files self in
  let fs1 := write_users (users state) fs in
  let fs2 := write_miner_pool (miner_pool state) fs1 in
  let fs3 := write_current_group (current_group state) fs2 in
  let number := Z.of_nat (size (BLOCKS_DIR fs3)) + 1 in
  let block_data :=
    {| file_block_number := number; file_state_hash := hash_state state;
       file_signatures := signatures; file_timestamp := now |} in
  let fs4 := write_block_file ("block_" ++ str number ++ ".json") block_data fs3 in
  let fs5 := write_tx_executed (tx_executed state) fs4 in
  let fs6 := write_tx_pool [] fs5 in
  let self1 := with_files fs6 self in
  if is_mining self1 then trigger_rebuild self1 else self1.

(** [Main.on_receive_signature] *)
Definition on_receive_signature `{H : Hashing} (now : Z) (self : Main)
    (sig_data : Signature) : Main :=
  let state_hash := sig_state_hash sig_data in
  match collected_signatures self !! state_hash with
  | None => self
  | Some collected =>
      let collected1 := (collected ++ [sig_data])%list in
      let self1 :=
        with_rounds (pending_updates self)
          (<[state_hash := collected1]> (collected_signatures self)) self in
      if (100 <=? length collected1)%nat then
        match pending_updates self1 !! state_hash with
        | None => self1
        | Some update =>
            let self2 :=
              broadcast (FINAL_UPDATE (upd_state update) state_hash collected1) self1 in
            let self3 := apply_final_state now (upd_state update) collected1 self2 in
            with_rounds (delete state_hash (pending_updates self3))
              (delete state_hash (collected_signatures self3)) self3
        end
      else self1
  end.

(** [Main.on_receive_final_update]: [None] where [int(state_hash, 16)]
    raises, else the node and the generator afterwards. *)
Definition on_receive_final_update `{H : Hashing} `{R : Random} (now : Z) (g : rng)
    (state : State) (state_hash : string) (signatures : list Signature)
    (self : Main) : option (Main * rng) :=
  if (length signatures <? 100)%nat then Some (self, g)
  else
    let group := get_group (files self) in
    match get_selected_miners g state_hash (miners group) with
    | None => None
    | Some (selected, g1) =>
        if forallb (fun sig => existsb (String.eqb (signer sig)) selected) signatures
        then Some (apply_final_state now state signatures self, g1)
        else Some (self, g1)
    end.

(** [Main.mine_cycle] *)
Definition mine_cycle `{H : Hashing} (now : Z) (self : Main) : Main :=
  if negb (is_mining self) then self
  else
    let self1 := with_timers None None self in
    match mine now (addr self1) (files self1) with
    | (Some update_data, fs1) =>
        let state_hash := upd_state_hash update_data in
        let self2 :=
          with_rounds (<[state_hash := update_data]> (pending_updates self1))
            (<[state_hash := []]> (collected_signatures self1))
            (with_files fs1 self1) in
        let self3 :=
          broadcast (UPDATE_REQUEST (upd_state update_data) state_hash
                       (addr self2) (port self2)) self2 in
        with_timers (Some (mine_wait self3 * 1000)) None self3
    | (None, fs1) => with_timers None (Some 5000) (with_files fs1 self1)
    end.

End Gui.

(** ** The selection and the rotation as the specification words them *)

Module Spec.
Import Py Data Gui.

Fixpoint insert_address (a : string) (l : list string) : list string :=
  match l with
  | [] => [a]
  | b :: l' => if String.leb a b then a :: l else b :: insert_address a l'
  end.

(** Addresses in ascending order. *)
Definition sort_addresses (l : list string) : list string :=
  foldr insert_address [] l.

(** Section 4.6: the whole roster when it has at most 100 addresses;
    otherwise 100 addresses drawn, with the generator seeded by the first 16
    hex characters of the hash, from the roster sorted in ascending order. *)
Definition select `{R : Random} (g : rng) (state_hash : string) (roster : odict Z)
  : option (list string * rng) :=
  match int16 (substring 0 16 state_hash) with
  | None => None
  | Some seed =>
      if (length (keys roster) <=? 100)%nat then Some (keys roster, rng_seed seed)
      else sample (rng_seed seed) (sort_addresses (keys roster)) 100
  end.

(** Section 4.11: the members of the new group, for a pool of more than
    100,000 entries: 100,000 addresses drawn, with the generator seeded by
    the group id, from the addresses sorted in ascending order. *)
Definition rotate_large_pool `{R : Random} (gid : Z) (pool : odict Z)
  : option (list string * rng) :=
  sample (rng_seed gid) (sort_addresses (keys pool)) (Z.to_nat 100000).

End Spec.

(** ** Inputs used in the examples *)

Module Fixtures.
Import Py Data Gui.

Definition hex_char (d : N) : ascii :=
  nth (N.to_nat d)
    ["0"; "1"; "2"; "3"; "4"; "5"; "6"; "7"; "8"; "9"; "a"; "b"; "c"; "d"; "e"; "f"]%char
    "0"%char.

Fixpoint hex_fixed (width : nat) (n : N) (tail : string) : string :=
  match width with
  | O => tail
  | S w => hex_fixed w (n / 16) (String (hex_char (n mod 16)) tail)
  end.

(** The [i]-th address: 16 hex characters, ascending with [i]. *)
Definition address (i : N) : string :=
  hex_fixed 5 i "00000000000".

Fixpoint addresses_from (i : N) (n : nat) : list string :=
  match n with
  | O => []
  | S n' => address i :: addresses_from (N.succ i) n'
  end.

(** [n] addresses in ascending order. *)
Definition ascending (n : nat) : list string := addresses_from 0 n.

(** The same addresses, the smallest moved to the end. *)
Definition rotated (n : nat) : list string :=
  (addresses_from 1 (n - 1) ++ [address 0])%list.

(** A miner pool or roster with the given addresses, all joined at 0. *)
Definition pool_of (addresses : list string) : odict Z :=
  map (fun a => (a, 0)) addresses.

Definition hash_ab : string :=
  "abababababababababababababababababababababababababababababababab".

(** A generator that picks the first [k] positions after a rotation by the
    state, and whose state counts the draws. *)
Definition rotating_positions (g : Z) (n k : nat) : list nat * Z :=
  (take k (rotate (Z.to_nat (Z.abs g)) (seq 0 n)), g + 1).

(** A stand-in for [hashlib] and [json]: the hash of a document is the list
    of its top-level keys. *)
Definition keys_hashing : Hashing :=
  {| sha256_hexdigest := fun s => s;
     json_dumps_sorted := fun j => String.concat "," (json_keys j) |}.

(** An empty database, and the database of a node that has just started. *)
Definition db_empty : Storage.Db :=
  {| Storage.users_table := ∅; Storage.miner_pool_table := ∅;
     Storage.groups_table := ∅; Storage.blocks_table := ∅ |}.

Definition db_genesis : Storage.Db := Blockchain.ensure_genesis 0 db_empty.

(** A block that does not extend [db_genesis]: number 7, and a previous
    hash that is not the genesis state hash. *)
Definition stray_block : Storage.Block :=
  {| Storage.block_number := 7; Storage.prev_hash := hash_ab;
     Storage.state_hash := hash_ab; Storage.combined_hash := "";
     Storage.block_group_id := 0; Storage.miner := "M";
     Storage.block_timestamp := 0; Storage.executed_tx_count := 0;
     Storage.signatures := [] |}.

(** The files as [ensure] creates them, with the given users, pools and
    roster. *)
Definition files_with (us : list (string * User)) (txs : odict Tx)
    (pool : odict Z) (roster : odict Z) : Files :=
  {| USERS_FILE := list_to_map us; TX_POOL_FILE := txs; TX_EXECUTED_FILE := [];
     MINER_POOL_FILE := pool;
     CURRENT_GROUP_FILE :=
       {| group_id := 1; miners := roster; created_at := 0; updates := 0 |};
     GROUPS_DIR := ∅; BLOCKS_DIR := ∅ |}.

Definition files_initial : Files := files_with [] [] [] [].

Definition user (a : string) (b : Q) (l : Z) : string * User :=
  (a, {| u_address := a; balance := b; nonce := 0; life := l |}).

(** One user, who is the only member of the current group. *)
Definition files_one_miner : Files :=
  files_with [user "M" 0 1000] [] [] [("M", 0)].

Definition transfer (id sender receiver : string) (value charge : Q) : string * Tx :=
  (id, {| tx_id := id; tx_type := "transfer"; tx_from := sender; tx_to := receiver;
          amount := value; fee := charge; tx_nonce := 0; timestamp := 0;
          tx_signature := "" |}).

(** Three users with nothing, and a pooled transfer of -5 from ["A"] to
    ["B"], as a peer can gossip it. *)
Definition files_overdraw : Files :=
  files_with [user "M" 0 1000; user "A" 0 1000; user "B" 0 1000]
    [transfer "t1" "A" "B" (-5) 0] [] [("M", 0)].

Definition join_pool (id sender : string) (charge : Q) : string * Tx :=
  (id, {| tx_id := id; tx_type := "join_pool"; tx_from := sender; tx_to := "";
          amount := 0; fee := charge; tx_nonce := 0; timestamp := 0;
          tx_signature := "" |}).

(** A miner pool of 999 entries, and the pooled request of ["M"] to join it. *)
Definition files_pool_filling : Files :=
  files_with [user "M" 0 1000] [join_pool "j1" "M" 0]
    (pool_of (ascending 999)) [("M", 0)].

(** A miner pool of 1000 entries. *)
Definition files_full_pool : Files :=
  files_with [] [] (pool_of (ascending 1000)) [].

(** 100,001 addresses. *)
Definition large : nat := S (Z.to_nat 100000).

(** A miner pool of 100,001 entries, stored with the smallest address last. *)
Definition files_large_pool : Files :=
  files_with [] [] (pool_of (rotated large)) [].

(** A node whose wallet is ["M"], mining switched on, nothing in flight. *)
Definition node_idle : Main :=
  {| addr := "M"; port := 5000; pending_updates := ∅;
     collected_signatures := ∅; is_mining := true; mine_wait := 60;
     signature_timer := None; rebuild_timer := None; broadcasts := [];
     files := files_one_miner |}.

(** A signature message for [state_hash] from ["EVE"], who is in no roster. *)
Definition eve_signature (state_hash : string) : Signature :=
  {| sig_state_hash := state_hash; signer := "EVE"; signature := "" |}.

Definition roster_ascending : odict Z := pool_of (ascending 101).

Definition roster_rotated : odict Z := pool_of (rotated 101).

End Fixtures.

(** ** Relations and checks used in the statements *)

Module Checks.
Import Py.

(** Two results of a selection name the same members: both raise, or both
    return and every address of one committee is in the other. *)
Definition same_committee `{R : Random} (a b : option (list string * rng)) : Prop :=
  option_Forall2 (fun x y => forall m : string, m ∈ x.1 <-> m ∈ y.1) a b.

(** The two lists differ at every position they share. *)
Fixpoint differ_everywhere (l1 l2 : list string) : bool :=
  match l1, l2 with
  | a :: l1', b :: l2' => negb (String.eqb a b) && differ_everywhere l1' l2'
  | _, _ => true
  end.

(** Each element is strictly below the next, in the order of [str]. *)
Fixpoint strictly_ascending (l : list string) : bool :=
  match l with
  | a :: (b :: _) as l' => String.ltb a b && strictly_ascending l'
  | _ => true
  end.

(** The user [a] is in [us] with the life [l]. *)
Definition has_life (a : string) (l : Z) (us : gmap string Data.User) : Prop :=
  exists u, us !! a = Some u /\ Data.life u = l.

(** No balance is negative. *)
Definition Nonneg (us : gmap string Data.User) : Prop :=
  map_Forall (fun _ u => (0 <= Data.balance u)%Q) us.

Definition balances_nonneg (us : gmap string Data.User) : bool :=
  forallb (fun kv => Qle_bool 0 (Data.balance kv.2)) (map_to_list us).

(** The balance of [a] in a proposal. *)
Definition balance_in (a : string) (r : option Data.State) : option Q :=
  match r with
  | Some st => Data.balance <$> Data.users st !! a
  | None => None
  end.

(** Whether the proposal records [txid] as executed. *)
Definition executed_in (txid : string) (r : option Data.State) : bool :=
  match r with
  | Some st => contains txid (Data.tx_executed st)
  | None => false
  end.

(** The two lists are equal. *)
Fixpoint same_list (l1 l2 : list string) : bool :=
  match l1, l2 with
  | [], [] => true
  | a :: l1', b :: l2' => String.eqb a b && same_list l1' l2'
  | _, _ => false
  end.

(** The group id and the size of the miner pool in a proposal. *)
Definition rotation_in (r : option Data.State) : option (Z * nat) :=
  match r with
  | Some st => Some (Data.group_id (Data.current_group st), length (Data.miner_pool st))
  | None => None
  end.

(** What the large-pool example rests on, for [n + 1] addresses [rot] and
    [asc]: both lists have that length, [asc] ascends strictly, the lists
    differ at every position, and [rot] sorted is [asc]. *)
Definition rotation_checks (n : nat) (rot asc : list string) : bool :=
  Nat.eqb (length rot) (S n) && Nat.eqb (length asc) (S n)
  && strictly_ascending asc && differ_everywhere rot asc
  && same_list (Spec.sort_addresses rot) asc.

(** The files after [create_group] has formed a group of [members]. *)
Definition rotated_files (now : Z) (members : odict Z) (fs : Gui.Files) : Gui.Files :=
  let gid := Data.group_id (Gui.CURRENT_GROUP_FILE fs) + 1 in
  let group :=
    {| Data.group_id := gid; Data.miners := members;
       Data.created_at := now; Data.updates := 0 |} in
  Gui.write_miner_pool []
    (Gui.write_group_file ("group_" ++ str gid ++ ".json") group
       (Gui.write_current_group group fs)).

(** The roster of the current group after [create_group], with the
    generator. *)
Definition new_roster `{R : Random} (r : option (bool * rng * Gui.Files))
  : option (list string * rng) :=
  match r with
  | Some (_, g', fs') => Some (keys (Data.miners (Gui.CURRENT_GROUP_FILE fs')), g')
  | None => None
  end.

(** A signature with its bytes replaced by the empty string. *)
Definition blank (s : Consensus.Signature) : Consensus.Signature :=
  {| Consensus.sig_state_hash := Consensus.sig_state_hash s;
     Consensus.signer := Consensus.signer s;
     Consensus.signature := "" |}.

End Checks.

(** ** Validation of a proposed state (consensus.py, libre_network_gui.py) *)

Module Proposal.
Import Py Data.

(** [tx.get("type")], [tx.get("to")] and [tx.get("amount")] of an entry of
    [tx_executed]. *)
Definition entry_type (e : Executed) : string :=
  match e with
  | Pooled tx => tx_type tx
  | Reward _ _ _ => "reward"
  end.

Definition entry_to (e : Executed) : string :=
  match e with
  | Pooled tx => tx_to tx
  | Reward _ to _ => to
  end.

Definition entry_amount (e : Executed) : Q :=
  match e with
  | Pooled tx => amount tx
  | Reward _ _ reward_amount => inject_Z reward_amount
  end.

(** [[tx for tx in executed.values() if tx.get("type") == "reward"]] *)
Definition reward_txs (executed : odict Executed) : list Executed :=
  List.filter (fun tx => String.eqb (entry_type tx) "reward") (map snd executed).

(** [Consensus.validate_proposed_state]; its last two arguments are not
    looked at (main.py passes [None] for both). *)
Definition validate_proposed_state {U P : Type} (miner : string)
    (proposed_state : State) (current_users : U) (current_miner_pool : P)
  : bool * string :=
  match reward_txs (tx_executed proposed_state) with
  | [reward] =>
      if negb (String.eqb (entry_to reward) miner)
         || negb (Qeq_bool (entry_amount reward) 100)
      then (false, "Invalid reward details")
      else (true, "Valid")
  | _ => (false, "Invalid reward count")
  end.

(** [verify_proposed_state] of libre_network_gui.py.  A group read from a
    proposal is a dict with its four keys, so [if not group] never fires. *)
Definition verify_proposed_state (miner : string) (proposed_state : State) : bool :=
  match reward_txs (tx_executed proposed_state) with
  | [reward] =>
      if negb (String.eqb (entry_to reward) miner) then false
      else if negb (Qeq_bool (entry_amount reward) 100) then false
      else
        let group := current_group proposed_state in
        if negb (contains miner (miners group)) then false
        else true
  | _ => false
  end.

End Proposal.

(** ** blockchain.py: checking the stored chain *)

Module Ledger.
Import Py Data Storage Blockchain.

(** One turn of the loop of [verify_chain] at index [i]: [Some true] where
    the loop goes on, [Some false] where it returns [False], [None] where
    indexing a block that is not stored raises [TypeError]. *)
Definition verify_link `{H : Hashing} (db : Db) (i : nat) : option bool :=
  let prev := get_block (Z.of_nat i - 1) db in
  let curr := get_block (Z.of_nat i) db in
  match curr, prev with
  | Some curr, Some prev =>
      if negb (String.eqb (prev_hash curr) (state_hash prev)) then Some false
      else
        let computed_combined :=
          sha256_hexdigest
            (json_dumps_sorted
               (block_content (block_number curr) (prev_hash curr) (state_hash curr)
                  (block_group_id curr) (Storage.miner curr) (block_timestamp curr))) in
        if negb (String.eqb computed_combined (combined_hash curr)) then Some false
        else Some true
  | _, _ => None
  end.

(** The loop [for i in range(1, count)]. *)
Fixpoint verify_links `{H : Hashing} (db : Db) (range : list nat) : option bool :=
  match range with
  | [] => Some true
  | i :: rest =>
      match verify_link db i with
      | Some true => verify_links db rest
      | verdict => verdict
      end
  end.

(** [Blockchain.verify_chain] *)
Definition verify_chain `{H : Hashing} (db : Db) : option bool :=
  let count := get_block_count db in
  if (count <=? 1)%nat then Some true
  else verify_links db (seq 1 (count - 1)).

(** [Blockchain.get_height] *)
Definition get_height (db : Db) : Z := Z.of_nat (get_block_count db) - 1.

(** One call of [create_block], as [LibreNode.finalize_block] makes it. *)
Record Round := {
  round_time : Z;
  round_state : State;
  round_miner : string;
  round_signatures : list Consensus.Signature;
  round_group_id : Z
}.

(** [create_block] once per round, in order; [None] where a call raises. *)
Fixpoint create_blocks `{H : Hashing} (rounds : list Round) (db : Db) : option Db :=
  match rounds with
  | [] => Some db
  | r :: rest =>
      match create_block (round_time r) (round_state r) (round_miner r)
              (round_signatures r) (round_group_id r) db with
      | Some (_, db') => create_blocks rest db'
      | None => None
      end
  end.

End Ledger.

(** ** storage.py: the users table, the generated keys *)

Module Tables.
Import Py Data Storage.

(** [Storage.get_user] *)
Definition get_user (address : string) (db : Db) : option User :=
  users_table db !! address.

(** [Storage.upsert_user] *)
Definition upsert_user (address : string) (balance : Q) (nonce life : Z) (db : Db) : Db :=
  {| users_table :=
       <[address := {| u_address := address; Data.balance := balance;
                       Data.nonce := nonce; Data.life := life |}]>
         (users_table db);
     miner_pool_table := miner_pool_table db;
     groups_table := groups_table db;
     blocks_table := blocks_table db |}.

(** A generated key, [{"private_key", "public_key", "address", "created_at"}]. *)
Record Key := {
  private_key : string;
  public_key : string;
  address : string;
  key_created_at : Z
}.

(** The file [libre_data/keys.json]: not there, there with text that
    [json.load] raises on, or holding a list of keys. *)
Inductive KeysFile : Type :=
| NoKeysFile
| BrokenKeysFile
| KeysIn (keys : list Key).

(** [Storage._load_keys_from_json] *)
Definition _load_keys_from_json (file : KeysFile) : list Key :=
  match file with
  | KeysIn keys => keys
  | NoKeysFile | BrokenKeysFile => []
  end.

(** [Storage._save_keys_to_json] *)
Definition _save_keys_to_json (keys : list Key) (file : KeysFile) : KeysFile :=
  KeysIn keys.

(** [Storage.save_generated_key] *)
Definition save_generated_key (now : Z) (private_key public_key address : string)
    (file : KeysFile) : KeysFile :=
  let keys := _load_keys_from_json file in
  let new_key :=
    {| private_key := private_key; public_key := public_key; address := address;
       key_created_at := now |} in
  _save_keys_to_json (new_key :: keys) file.

(** [Storage.get_all_generated_keys] *)
Definition get_all_generated_keys (file : KeysFile) : list Key :=
  _load_keys_from_json file.

(** [Storage.delete_generated_key]: the returned boolean and the file. *)
Definition delete_generated_key (addr : string) (file : KeysFile) : bool * KeysFile :=
  let keys := _load_keys_from_json file in
  let updated_keys := List.filter (fun k => negb (String.eqb (address k) addr)) keys in
  if negb (length keys =? length updated_keys)%nat then
    (true, _save_keys_to_json updated_keys file)
  else (false, file).

End Tables.

(** ** config.py *)

Module Config.
Import Py.

(** The file [config.json]: not there, there with text that [json.load]
    raises on, or holding a JSON object.  (A file holding JSON that is not
    an object is not modelled.) *)
Inductive ConfigFile : Type :=
| NoConfigFile
| BrokenConfigFile
| ConfigIn (content : odict json).

(** [self.config] and the file at [self.config_path]. *)
Record Config := {
  config : odict json;
  config_path : ConfigFile
}.

(** The [default_config] of [load_config]; [fresh_id] is [str(uuid.uuid4())]. *)
Definition default_config (fresh_id : string) : odict json :=
  [("node_id", JStr fresh_id); ("port", JInt 5000); ("known_peers", JList []);
   ("language", JStr "en"); ("logo_path", JStr "")].

(** [Config.save_config]: a non-empty [config] replaces [self.config];
    the file is written (the write is taken to succeed). *)
Definition save_config (new : option (odict json)) (self : Config) : Config :=
  let current :=
    match new with
    | Some (entry :: rest) => entry :: rest
    | _ => config self
    end in
  {| config := current; config_path := ConfigIn current |}.

(** The loop of [load_config] that fills the missing keys. *)
Definition fill_missing (loaded : odict json) (entry : string * json) : odict json :=
  if negb (contains entry.1 loaded) then put entry.1 entry.2 loaded else loaded.

(** [Config.load_config], which [__init__] stores in [self.config]. *)
Definition load_config (fresh_id : string) (file : ConfigFile) : Config :=
  let default_config := default_config fresh_id in
  match file with
  | ConfigIn loaded =>
      {| config := fold_left fill_missing default_config loaded; config_path := file |}
  | NoConfigFile | BrokenConfigFile =>
      save_config (Some default_config) {| config := []; config_path := file |}
  end.

(** [Config.get] *)
Definition get_ (key : string) (default : json) (self : Config) : json :=
  match get key (config self) with
  | Some value => value
  | None => default
  end.

(** [Config.set] *)
Definition set (key : string) (value : json) (self : Config) : Config :=
  save_config None {| config := put key value (config self);
                      config_path := config_path self |}.

(** The properties [node_id], [port] and [known_peers], and the setter of [port]. *)
Definition node_id (self : Config) : json := get_ "node_id" JNull self.

Definition port (self : Config) : json := get_ "port" JNull self.

Definition set_port (value : Z) (self : Config) : Config := set "port" (JInt value) self.

Definition known_peers (self : Config) : json := get_ "known_peers" (JList []) self.

(** [j == s] for a string [s], and [j == n] for an integer [n]. *)
Definition eq_str (j : json) (s : string) : bool :=
  match j with
  | JStr s' => String.eqb s' s
  | _ => false
  end.

Definition eq_int (j : json) (n : Z) : bool :=
  match j with
  | JInt n' => n' =? n
  | JNum q => Qeq_bool q (inject_Z n)
  | _ => false
  end.

(** [any(p["ip"] == ip and p["port"] == port for p in peers)]; [None] where
    a subscript raises. *)
Fixpoint any_peer (ip : string) (port : Z) (peers : list json) : option bool :=
  match peers with
  | [] => Some false
  | JObj p :: rest =>
      match get "ip" p with
      | None => None
      | Some p_ip =>
          if eq_str p_ip ip then
            match get "port" p with
            | None => None
            | Some p_port =>
                if eq_int p_port port then Some true else any_peer ip port rest
            end
          else any_peer ip port rest
      end
  | _ :: _ => None
  end.

(** [Config.add_peer]; [None] where the call raises. *)
Definition add_peer (ip : string) (port : Z) (self : Config) : option Config :=
  match known_peers self with
  | JList peers =>
      match any_peer ip port peers with
      | None => None
      | Some true => Some self
      | Some false =>
          let peers := (peers ++ [JObj [("ip", JStr ip); ("port", JInt port)]])%list in
          Some (set "known_peers" (JList peers) self)
      end
  | _ => None
  end.

End Config.

(** ** p2p_network.py *)

Module P2P.
Import Py.

(** [int(x)] of a float: truncation towards zero. *)
Definition int (x : Q) : Z := Z.quot (Qnum x) (Z.pos (Qden x)).

(** A peer, [{"ip", "port", "last_seen"}]. *)
Record Peer := {
  peer_ip : string;
  peer_port : Z;
  last_seen : Z
}.

(** [Storage.save_peer], [Storage.get_all_peers] and [Storage.remove_peer]
    on the table [peers], keyed by [node_id]. *)
Definition save_peer (node_id ip : string) (port last_seen : Z)
    (table : gmap string Peer) : gmap string Peer :=
  <[node_id := {| peer_ip := ip; peer_port := port; last_seen := last_seen |}]> table.

Definition get_all_peers (table : gmap string Peer) : gmap string Peer := table.

Definition remove_peer_row (node_id : string) (table : gmap string Peer)
  : gmap string Peer :=
  delete node_id table.

(** A message envelope.  [msg_id], [sender] and [sender_port] are read with
    [.get] and may be missing. *)
Record Envelope (P : Type) := {
  msg_id : option string;
  msg_type : string;
  sender : option string;
  sender_port : option Z;
  payload : P;
  msg_timestamp : Q;
  broadcast_flag : bool
}.

Arguments msg_id {P}.
Arguments msg_type {P}.
Arguments sender {P}.
Arguments sender_port {P}.
Arguments payload {P}.
Arguments msg_timestamp {P}.
Arguments broadcast_flag {P}.

(** The fields of [P2PNode] the protocol uses; [storage] is the [peers]
    table of the [Storage] instance, when the node has one. *)
Record P2PNode := {
  host : string;
  port : Z;
  node_id : string;
  storage : option (gmap string Peer);
  peers : gmap string Peer;
  seen_messages : gmap string Q
}.

Definition with_peers (peers : gmap string Peer) (storage : option (gmap string Peer))
    (self : P2PNode) : P2PNode :=
  {| host := host self; port := port self; node_id := node_id self;
     storage := storage; peers := peers; seen_messages := seen_messages self |}.

Definition with_seen (seen : gmap string Q) (self : P2PNode) : P2PNode :=
  {| host := host self; port := port self; node_id := node_id self;
     storage := storage self; peers := peers self; seen_messages := seen |}.

(** Truth of a string and of a port read with [.get]: [None], [""] and [0]
    are false. *)
Definition truthy (s : option string) : bool :=
  match s with
  | Some (String _ _) => true
  | _ => false
  end.

Definition truthy_port (p : option Z) : bool :=
  match p with
  | Some n => negb (n =? 0)
  | None => false
  end.

(** [P2PNode._load_peers] *)
Definition _load_peers (self : P2PNode) : P2PNode :=
  match storage self with
  | Some table =>
      let stored_peers := get_all_peers table in
      with_peers
        (filter (fun kv => kv.1 <> node_id self) stored_peers ∪ peers self)
        (storage self) self
  | None => self
  end.

(** [P2PNode.__init__]; [generated] is the id made up when none is given. *)
Definition __init__ (host : string) (port : Z) (node_id : option string)
    (generated : string) (storage : option (gmap string Peer)) : P2PNode :=
  _load_peers
    {| host := host; port := port;
       node_id := if truthy node_id then default "" node_id else generated;
       storage := storage; peers := ∅; seen_messages := ∅ |}.

(** [P2PNode._save_peer] *)
Definition _save_peer (clock : Q) (node_id ip : string) (port : Z) (self : P2PNode)
  : P2PNode :=
  with_peers (peers self) (save_peer node_id ip port (int clock) <$> storage self) self.

(** [P2PNode.add_peer] *)
Definition add_peer (clock : Q) (node_id' ip : string) (port : Z) (self : P2PNode)
  : P2PNode :=
  if String.eqb node_id' (node_id self) then self
  else
    let self1 :=
      with_peers
        (<[node_id' := {| peer_ip := ip; peer_port := port;
                          last_seen := int clock |}]> (peers self))
        (storage self) self in
    _save_peer clock node_id' ip port self1.

(** [P2PNode.remove_peer] *)
Definition remove_peer (node_id' : string) (self : P2PNode) : P2PNode :=
  with_peers (delete node_id' (peers self))
    (remove_peer_row node_id' <$> storage self) self.

(** [now - ts > limit] *)
Definition older (limit now ts : Q) : bool := negb (Qle_bool (now - ts) limit).

(** One pass of the loop of [P2PNode._periodic_cleanup]. *)
Definition _periodic_cleanup (now : Q) (self : P2PNode) : P2PNode :=
  let to_remove :=
    (map_to_list (filter (fun kv => older 600 now kv.2 = true) (seen_messages self))).*1 in
  let self1 := with_seen (foldr delete (seen_messages self) to_remove) self in
  let to_remove_peers :=
    (map_to_list
       (filter (fun kv => older 300 now (inject_Z (last_seen kv.2)) = true)
          (peers self1))).*1 in
  foldr remove_peer self1 to_remove_peers.

(** [P2PNode.get_peer_list] *)
Definition get_peer_list (self : P2PNode) : list (string * string * Z) :=
  map (fun kv => (kv.1, peer_ip kv.2, peer_port kv.2)) (map_to_list (peers self)).

Section Protocol.
(** The payloads, the application the handler works on, the handler (it
    returns the application and whether it returned rather than raised), the
    id of a message body
    ([hashlib.sha256(json.dumps(msg_body, sort_keys=True).encode()).hexdigest()]),
    and the payload [{"node_id", "port"}] of a presence message. *)
Context {P App : Type}.
Variable message_handler : option (Envelope P -> string * Z -> App -> App * bool).
Variable digest : Envelope P -> string.
Variable presence : string -> Z -> P.

(** [P2PNode.create_message] *)
Definition create_message (clock : Q) (msg_type : string) (payload : P)
    (broadcast : bool) (self : P2PNode) : Envelope P :=
  let msg_body :=
    {| msg_id := None; msg_type := msg_type; sender := Some (node_id self);
       sender_port := Some (port self); payload := payload;
       msg_timestamp := clock; broadcast_flag := broadcast |} in
  {| msg_id := Some (digest msg_body); msg_type := msg_type;
     sender := Some (node_id self); sender_port := Some (port self);
     payload := payload; msg_timestamp := clock; broadcast_flag := broadcast |}.

Definition mark_broadcast (message_env : Envelope P) : Envelope P :=
  {| msg_id := msg_id message_env; msg_type := msg_type message_env;
     sender := sender message_env; sender_port := sender_port message_env;
     payload := payload message_env; msg_timestamp := msg_timestamp message_env;
     broadcast_flag := true |}.

(** [P2PNode.broadcast]: the node, and the messages handed to [send_message]
    as [(ip, port, message)] (each in a thread of its own: their order
    means nothing). *)
Definition broadcast (clock : Q) (message_env : Envelope P)
    (exclude_node_id : option string) (self : P2PNode)
  : P2PNode * list (string * Z * Envelope P) :=
  let message_env := mark_broadcast message_env in
  let self1 :=
    match msg_id message_env with
    | Some (String c s) =>
        let id := String c s in
        if bool_decide (is_Some (seen_messages self !! id)) then self
        else with_seen (<[id := clock]> (seen_messages self)) self
    | _ => self
    end in
  let active_peers := map_to_list (peers self1) in
  let targets :=
    List.filter
      (fun kv => negb (bool_decide (Some kv.1 = exclude_node_id))
                 && negb (String.eqb kv.1 (node_id self1)))
      active_peers in
  (self1, map (fun kv => (peer_ip kv.2, peer_port kv.2, message_env)) targets).

(** [P2PNode.announce_presence] *)
Definition announce_presence (clock : Q) (self : P2PNode)
  : P2PNode * list (string * Z * Envelope P) :=
  let msg :=
    create_message clock "PRESENCE" (presence (node_id self) (port self)) true self in
  broadcast clock msg None self.

(** What [P2PNode._handle_connection] does with one message parsed from the
    connection of [addr]: the node, the application, and the messages
    relayed. *)
Definition deliver (clock : Q) (addr : string * Z) (message_env : Envelope P)
    (self : P2PNode) (app : App) : P2PNode * App * list (string * Z * Envelope P) :=
  match msg_id message_env with
  | Some (String c s) =>
      let id := String c s in
      if bool_decide (is_Some (seen_messages self !! id)) then (self, app, [])
      else
        let self1 := with_seen (<[id := clock]> (seen_messages self)) self in
        let sender_id := sender message_env in
        let self2 :=
          if truthy sender_id
             && negb (bool_decide (sender_id = Some (node_id self1)))
             && truthy_port (sender_port message_env)
          then add_peer clock (default "" sender_id) addr.1
                 (default 0 (sender_port message_env)) self1
          else self1 in
        let '(app1, returned) :=
          match message_handler with
          | Some handler => handler message_env addr app
          | None => (app, true)
          end in
        if negb returned then (self2, app1, [])
        else if broadcast_flag message_env then
          let '(self3, sent) := broadcast clock message_env sender_id self2 in
          (self3, app1, sent)
        else (self2, app1, [])
  | _ => (self, app, [])
  end.

End Protocol.

End P2P.

(** ** network.py *)

Module Network.
Import Py.

(** The fields of [network.P2PNode] that main.py relies on. *)
Record P2PNode := {
  host : string;
  port : Z;
  node_id : string;
  peers : gmap string P2P.Peer
}.

Definition with_peers (peers : gmap string P2P.Peer) (self : P2PNode) : P2PNode :=
  {| host := host self; port := port self; node_id := node_id self; peers := peers |}.

(** [P2PNode.add_peer] *)
Definition add_peer (now : Z) (node_id' ip : string) (port : Z) (self : P2PNode)
  : P2PNode :=
  if String.eqb node_id' (node_id self) then self
  else
    with_peers
      (<[node_id' := {| P2P.peer_ip := ip; P2P.peer_port := port;
                        P2P.last_seen := now |}]> (peers self))
      self.

(** [P2PNode.broadcast]: the messages handed to [send_to_peer], as
    [(ip, port, message)]; each is sent in a thread of its own. *)
Definition broadcast {M : Type} (message : M) (self : P2PNode)
  : list (string * Z * M) :=
  map (fun peer => (P2P.peer_ip peer, P2P.peer_port peer, message))
    (map_to_list (peers self)).*2.

(** The removal of stale peers in one pass of [P2PNode._periodic_cleanup]. *)
Definition _periodic_cleanup (now : Z) (self : P2PNode) : P2PNode :=
  let to_remove :=
    (map_to_list (filter (fun kv => 120 < now - P2P.last_seen kv.2) (peers self))).*1 in
  with_peers (foldr delete (peers self) to_remove) self.

(** [P2PNode.get_peer_count] *)
Definition get_peer_count (self : P2PNode) : nat := size (peers self).

End Network.

(** ** main.py *)

Module Node.
Import Py Data Storage.

(** A user as a [STATE_UPDATE] message carries it: [balance] is
    subscripted, [nonce] and [life] are read with [.get]. *)
Record RemoteUser := {
  remote_balance : Q;
  remote_nonce : option Z;
  remote_life : option Z
}.

(** The messages, by their [type]. *)
Inductive Message : Type :=
| HELLO (node_id : string) (port : Z)
| PING
| PONG (node_id : string)
| STATE_REQUEST
| STATE_UPDATE (node_id : string) (block : option Block)
    (group : option (Z * GroupRow)) (users : gmap string RemoteUser)
| SIGNATURE_REQUEST (state_hash : string) (proposed_state : State)
    (miner miner_ip : string) (miner_port : Z)
| SIGNATURE_RESPONSE (response : Consensus.Signature)
| BLOCK_ANNOUNCE (block : Block)
| OTHER (type : string).

(** An entry of [pending_updates], [{"state", "miner", "group_id"}]. *)
Record Pending := {
  pending_state : State;
  pending_miner : string;
  pending_group_id : Z
}.

(** [LibreNode], with the messages it has handed to the network, oldest
    first. *)
Record LibreNode := {
  config : Config.Config;
  storage : Db;
  p2p : Network.P2PNode;
  node_id : string;
  pending_updates : gmap string Pending;
  collected_signatures : gmap string (list Consensus.Signature);
  sent : list (string * Z * Message)
}.

Definition with_storage (db : Db) (self : LibreNode) : LibreNode :=
  {| config := config self; storage := db; p2p := p2p self; node_id := node_id self;
     pending_updates := pending_updates self;
     collected_signatures := collected_signatures self; sent := sent self |}.

Definition with_peers (cfg : Config.Config) (net : Network.P2PNode) (self : LibreNode)
  : LibreNode :=
  {| config := cfg; storage := storage self; p2p := net; node_id := node_id self;
     pending_updates := pending_updates self;
     collected_signatures := collected_signatures self; sent := sent self |}.

Definition with_rounds (pending : gmap string Pending)
    (collected : gmap string (list Consensus.Signature)) (self : LibreNode)
  : LibreNode :=
  {| config := config self; storage := storage self; p2p := p2p self;
     node_id := node_id self; pending_updates := pending;
     collected_signatures := collected; sent := sent self |}.

Definition send (messages : list (string * Z * Message)) (self : LibreNode)
  : LibreNode :=
  {| config := config self; storage := storage self; p2p := p2p self;
     node_id := node_id self; pending_updates := pending_updates self;
     collected_signatures := collected_signatures self;
     sent := (sent self ++ messages)%list |}.

(** [LibreNode.__init__]: [node_id] and [port] are the values of the
    configuration; [Blockchain(self.storage)] makes sure of the genesis
    block. *)
Definition __init__ (now : Z) (cfg : Config.Config) (node_id : string) (port : Z)
    (db : Db) : LibreNode :=
  {| config := cfg;
     storage := Blockchain.ensure_genesis now db;
     p2p := {| Network.host := "127.0.0.1"; Network.port := port;
               Network.node_id := node_id; Network.peers := ∅ |};
     node_id := node_id;
     pending_updates := ∅;
     collected_signatures := ∅;
     sent := [] |}.

(** How a call ends: it returns, or it raises; either way with the node as
    the call leaves it. *)
Inductive Outcome (A : Type) : Type :=
| Returned (a : A)
| Raised (a : A).

Arguments Returned {A}.
Arguments Raised {A}.

Definition state_after {A} (o : Outcome A) : A :=
  match o with
  | Returned a | Raised a => a
  end.

Definition to_remote (u : User) : RemoteUser :=
  {| remote_balance := balance u; remote_nonce := Some (nonce u);
     remote_life := Some (life u) |}.

(** [LibreNode.request_state_from_peers] *)
Definition request_state_from_peers (self : LibreNode) : LibreNode :=
  send (Network.broadcast STATE_REQUEST (p2p self)) self.

(** [LibreNode.send_state] *)
Definition send_state (ip : string) (port : Z) (self : LibreNode) : LibreNode :=
  let latest_block := get_latest_block (storage self) in
  let latest_group := get_latest_group (storage self) in
  let state_data :=
    STATE_UPDATE (node_id self) latest_block latest_group
      (to_remote <$> get_all_users (storage self)) in
  send [(ip, port, state_data)] self.

(** The loop of [_apply_remote_state] over the users of the message. *)
Definition upsert_remote (addr : string) (u : RemoteUser) (db : Db) : Db :=
  Tables.upsert_user addr (remote_balance u) (default 0 (remote_nonce u))
    (default 20000000 (remote_life u)) db.

(** [LibreNode._apply_remote_state]; it raises on a message without a
    group, after the users have been stored. *)
Definition _apply_remote_state (block : Block) (group : option (Z * GroupRow))
    (users : gmap string RemoteUser) (self : LibreNode) : Outcome LibreNode :=
  let db1 := map_fold upsert_remote (storage self) users in
  match group with
  | None => Raised (with_storage db1 self)
  | Some (gid, row) =>
      let db2 := save_group gid (row_miners row) (row_created_at row) db1 in
      Returned (with_storage (save_block block db2) self)
  end.

(** [LibreNode.on_receive_state_update] *)
Definition on_receive_state_update (block : option Block)
    (group : option (Z * GroupRow)) (users : gmap string RemoteUser)
    (self : LibreNode) : Outcome LibreNode :=
  match block with
  | None => Returned self
  | Some remote_block =>
      match get_latest_block (storage self) with
      | None => Raised self
      | Some local_latest =>
          if block_number local_latest <? block_number remote_block then
            _apply_remote_state remote_block group users self
          else Returned self
      end
  end.

(** [LibreNode.on_receive_signature_request]; [token] is
    [secrets.token_hex(8)]. *)
Definition on_receive_signature_request `{R : Random} (token : string) (g : rng)
    (state_hash : string) (proposed_state : State) (miner miner_ip : string)
    (miner_port : Z) (self : LibreNode) : Outcome (LibreNode * rng) :=
  let '(is_valid, reason) :=
    Proposal.validate_proposed_state miner proposed_state tt tt in
  if negb is_valid then Returned (self, g)
  else
    match get_latest_group (storage self) with
    | None => Raised (self, g)
    | Some (_, group) =>
        match Consensus.get_selected_miners g state_hash (row_miners group) with
        | None => Raised (self, g)
        | Some (selected, g1) =>
            let sig_response :=
              SIGNATURE_RESPONSE
                {| Consensus.sig_state_hash := state_hash;
                   Consensus.signer := "DEMO_SIGNER";
                   Consensus.signature := "DEMO_SIG_" ++ token |} in
            Returned (send [(miner_ip, miner_port, sig_response)] self, g1)
        end
    end.

(** [LibreNode.finalize_block] *)
Definition finalize_block `{H : Hashing} (now : Z) (state_hash : string)
    (self : LibreNode) : Outcome LibreNode :=
  match pending_updates self !! state_hash with
  | None => Returned self
  | Some update =>
      match collected_signatures self !! state_hash with
      | None => Raised self
      | Some signatures =>
          match Blockchain.create_block now (pending_state update)
                  (pending_miner update) signatures (pending_group_id update)
                  (storage self) with
          | None => Raised self
          | Some (new_block, db) =>
              let self1 := with_storage db self in
              let self2 :=
                send (Network.broadcast (BLOCK_ANNOUNCE new_block) (p2p self1)) self1 in
              Returned
                (with_rounds (delete state_hash (pending_updates self2))
                   (delete state_hash (collected_signatures self2)) self2)
          end
      end
  end.

(** [LibreNode.on_receive_signature_response] *)
Definition on_receive_signature_response `{H : Hashing} (now : Z)
    (msg : Consensus.Signature) (self : LibreNode) : Outcome LibreNode :=
  let state_hash := Consensus.sig_state_hash msg in
  match collected_signatures self !! state_hash with
  | None => Returned self
  | Some collected =>
      let collected1 := (collected ++ [msg])%list in
      let self1 :=
        with_rounds (pending_updates self)
          (<[state_hash := collected1]> (collected_signatures self)) self in
      if (100 <=? length collected1)%nat then finalize_block now state_hash self1
      else Returned self1
  end.

(** [LibreNode.on_receive_block] *)
Definition on_receive_block (block : Block) (self : LibreNode) : LibreNode := self.

Definition and_generator `{R : Random} (g : rng) (o : Outcome LibreNode)
  : Outcome (LibreNode * rng) :=
  match o with
  | Returned self => Returned (self, g)
  | Raised self => Raised (self, g)
  end.

(** [LibreNode.handle_message], for a message from [addr]. *)
Definition handle_message `{H : Hashing} `{R : Random} (now : Z) (token : string)
    (message : Message) (addr : string * Z) (g : rng) (self : LibreNode)
  : Outcome (LibreNode * rng) :=
  match message with
  | HELLO node_id' port =>
      let net := Network.add_peer now node_id' addr.1 port (p2p self) in
      match Config.add_peer addr.1 port (config self) with
      | Some cfg => Returned (with_peers cfg net self, g)
      | None => Raised (with_peers (config self) net self, g)
      end
  | PING => Returned (send [(addr.1, addr.2, PONG (node_id self))] self, g)
  | STATE_REQUEST => Returned (send_state addr.1 addr.2 self, g)
  | STATE_UPDATE _ block group users =>
      and_generator g (on_receive_state_update block group users self)
  | SIGNATURE_REQUEST state_hash proposed_state miner miner_ip miner_port =>
      on_receive_signature_request token g state_hash proposed_state miner miner_ip
        miner_port self
  | SIGNATURE_RESPONSE msg =>
      and_generator g (on_receive_signature_response now msg self)
  | BLOCK_ANNOUNCE block => Returned (on_receive_block block self, g)
  | PONG _ | OTHER _ => Returned (self, g)
  end.

(** A message as [P2PNode._handle_inbound_connection] hands it to the node:
    an exception of the handler is dropped there. *)
Record Inbound := {
  arrival : Z;
  inbound_token : string;
  inbound_message : Message;
  inbound_addr : string * Z
}.

Definition receive `{H : Hashing} `{R : Random} (state : LibreNode * rng)
    (m : Inbound) : LibreNode * rng :=
  state_after
    (handle_message (arrival m) (inbound_token m) (inbound_message m)
       (inbound_addr m) state.2 state.1).

End Node.

(** ** libre_network_gui.py: submitting, gossiping and signing *)

Module Wallet.
Import Py Data Gui.

(** [transfer_fee]: [max(0.000001, amount * 0.0001)]. *)
Definition transfer_fee (amount : Q) : Q :=
  let share := (amount * (1 # 10000))%Q in
  if Qle_bool share (1 # 1000000) then (1 # 1000000)%Q else share.

(** The dict [tx] of [add_tx] at the time it is signed: no ["signature"] yet. *)
Definition unsigned_json (tx : Tx) : json :=
  JObj [("tx_id", JStr (tx_id tx)); ("type", JStr (tx_type tx));
        ("from", JStr (tx_from tx)); ("to", JStr (tx_to tx));
        ("amount", JNum (amount tx)); ("fee", JNum (fee tx));
        ("nonce", JInt (tx_nonce tx)); ("timestamp", JInt (timestamp tx))].

(** [sign_tx] *)
Definition sign_tx `{H : Hashing} (private : string) (tx : Tx) : string :=
  sha256_hexdigest (json_dumps_sorted (unsigned_json tx) ++ private).

(** [sign_state_hash] *)
Definition sign_state_hash `{H : Hashing} (private_key state_hash : string) : string :=
  sha256_hexdigest (state_hash ++ private_key).

(** [float(self.tx_amount.text())]: [ValueError], or a number.  ([nan] and
    [inf], which [float] also returns, are not rationals and are not
    modelled.) *)
Inductive Typed : Type :=
| NotANumber
| Number (value : Q).

(** How [add_tx] ends: with a warning, or with the transaction it pooled
    and broadcast. *)
Inductive Submission : Type :=
| Refused (warning : string)
| Submitted (tx : Tx).

Definition with_amount (value charge : Q) (tx : Tx) : Tx :=
  {| tx_id := tx_id tx; tx_type := tx_type tx; tx_from := tx_from tx;
     tx_to := tx_to tx; amount := value; fee := charge; tx_nonce := tx_nonce tx;
     timestamp := timestamp tx; tx_signature := tx_signature tx |}.

Definition with_signature (s : string) (tx : Tx) : Tx :=
  {| tx_id := tx_id tx; tx_type := tx_type tx; tx_from := tx_from tx;
     tx_to := tx_to tx; amount := amount tx; fee := fee tx; tx_nonce := tx_nonce tx;
     timestamp := timestamp tx; tx_signature := s |}.

(** The checks of [add_tx] that depend on the type: the transaction with
    its amount and fee, or the warning. *)
Definition priced (t to_addr self_addr : string) (typed : Typed) (tx : Tx)
    (fs : Files) : string + Tx :=
  if String.eqb t "transfer" then
    match typed with
    | NotANumber => inl "Invalid amount"
    | Number amount =>
        if Qle_bool amount 0 then inl "Invalid amount"
        else if negb (has_user to_addr (USERS_FILE fs)) then
          inl "Recipient does not exist"
        else inr (with_amount amount (transfer_fee amount) tx)
    end
  else if String.eqb t "new_account" then
    if String.eqb to_addr "" || negb (String.length to_addr =? 16)%nat then
      inl "Invalid new address format"
    else inr (with_amount 0 1 tx)
  else if String.eqb t "join_pool" then
    if contains self_addr (MINER_POOL_FILE fs) then inl "Already in miner pool"
    else inr (with_amount 0 (1 # 1000000) tx)
  else inr tx.

(** [Main.add_tx].  [wallet] is [self.addr] with [self.private_key]
    ([None] when logged out), [t] the type chosen, [to_addr] the recipient
    field stripped, [typed] the amount field, [token] is
    [secrets.token_hex(16)].  The result is the outcome and the files; a
    pooled transaction is also broadcast as a [TRANSACTION] message. *)
Definition add_tx `{H : Hashing} (now : Z) (token : string)
    (wallet : option (string * string)) (t to_addr : string) (typed : Typed)
    (fs : Files) : Submission * Files :=
  match wallet with
  | Some (String c a, private_key) =>
      let self_addr := String c a in
      let users := USERS_FILE fs in
      let '(sender_balance, sender_nonce) :=
        match users !! self_addr with
        | Some u => (balance u, nonce u)
        | None => (0%Q, 0)
        end in
      let tx :=
        {| tx_id := token; tx_type := t; tx_from := self_addr; tx_to := to_addr;
           amount := 0; fee := 0; tx_nonce := sender_nonce; timestamp := now;
           tx_signature := "" |} in
      match priced t to_addr self_addr typed tx fs with
      | inl warning => (Refused warning, fs)
      | inr tx =>
          if negb (Qle_bool (amount tx + fee tx) sender_balance) then
            (Refused "Insufficient balance", fs)
          else
            let tx := with_signature (sign_tx private_key tx) tx in
            let pool := put token tx (TX_POOL_FILE fs) in
            (Submitted tx, write_tx_pool pool fs)
      end
  | _ => (Refused "msg_unlocked", fs)
  end.

(** [Main.on_receive_transaction]; [data] is [payload.get("data")]. *)
Definition on_receive_transaction (data : option Tx) (fs : Files) : Files :=
  match data with
  | None => fs
  | Some tx =>
      let pool := TX_POOL_FILE fs in
      if negb (contains (tx_id tx) pool) then
        write_tx_pool (put (tx_id tx) tx pool) fs
      else fs
  end.

(** [Main.on_receive_update_request].  The result is [None] where
    [int(received_hash, 16)] raises; otherwise the [SIGNATURE] message sent
    to the miner's port, if one is sent, and the generator. *)
Definition on_receive_update_request `{H : Hashing} `{R : Random} (g : rng)
    (wallet : option (string * string)) (state : State)
    (received_hash miner : string) (miner_port : option Z)
  : option (option (Z * Signature) * rng) :=
  let computed_hash := hash_state state in
  if negb (String.eqb computed_hash received_hash) then Some (None, g)
  else if negb (Proposal.verify_proposed_state miner state) then Some (None, g)
  else
    match get_selected_miners g received_hash (miners (current_group state)) with
    | None => None
    | Some (selected, g1) =>
        match wallet with
        | Some (self_addr, private_key) =>
            if existsb (String.eqb self_addr) selected then
              let sig_payload :=
                {| sig_state_hash := received_hash; signer := self_addr;
                   signature := sign_state_hash private_key received_hash |} in
              if P2P.truthy_port miner_port then
                Some (Some (default 0 miner_port, sig_payload), g1)
              else Some (None, g1)
            else Some (None, g1)
        | None => Some (None, g1)
        end
    end.

(** [total_coins] of [Main.update_home]:
    [sum(u.get("balance", 0) for u in users.values())]. *)
Definition total_coins (users : gmap string User) : Q :=
  fold_left (fun acc u => (acc + balance u)%Q) (map_to_list users).*2 0%Q.

Definition set_mining (b : bool) (self : Main) : Main :=
  {| addr := addr self; port := port self;
     pending_updates := pending_updates self;
     collected_signatures := collected_signatures self;
     is_mining := b; mine_wait := mine_wait self;
     signature_timer := signature_timer self;
     rebuild_timer := rebuild_timer self;
     broadcasts := broadcasts self; files := files self |}.

Definition set_mine_wait (val : Z) (self : Main) : Main :=
  {| addr := addr self; port := port self;
     pending_updates := pending_updates self;
     collected_signatures := collected_signatures self;
     is_mining := is_mining self; mine_wait := val;
     signature_timer := signature_timer self;
     rebuild_timer := rebuild_timer self;
     broadcasts := broadcasts self; files := files self |}.

(** [Main.start_mining]; an empty [addr] stands for no wallet. *)
Definition start_mining `{H : Hashing} (now : Z) (self : Main) : Main :=
  if String.eqb (addr self) "" then self
  else mine_cycle now (set_mining true self).

(** [Main.stop_mining] *)
Definition stop_mining (self : Main) : Main :=
  with_timers None None (set_mining false self).

(** [Main.handle_signature_timeout] *)
Definition handle_signature_timeout (self : Main) : Main := trigger_rebuild self.

(** [Main.update_mine_wait], the slot of the spin box [mine_wait_input]. *)
Definition update_mine_wait (val : Z) (self : Main) : Main :=
  let self1 := set_mine_wait val self in
  if is_mining self1 then trigger_rebuild self1 else self1.

(** What happens at the node: a button, a single-shot timer that runs out
    (it is then no longer armed, and its slot runs), or a message from the
    network. *)
Inductive Event : Type :=
| StartMining (now : Z)
| StopMining
| MineWait (val : Z)
| SignatureTimer
| RebuildTimer (now : Z)
| GotSignature (now : Z) (sig_data : Signature)
| GotFinalUpdate (now : Z) (state : State) (state_hash : string)
    (signatures : list Signature)
| GotTransaction (data : option Tx).

Definition step `{H : Hashing} `{R : Random} (s : Main * rng) (e : Event)
  : Main * rng :=
  let '(self, g) := s in
  match e with
  | StartMining now => (start_mining now self, g)
  | StopMining => (stop_mining self, g)
  | MineWait val => (update_mine_wait val self, g)
  | SignatureTimer =>
      match signature_timer self with
      | Some _ => (handle_signature_timeout (with_timers None (rebuild_timer self) self), g)
      | None => s
      end
  | RebuildTimer now =>
      match rebuild_timer self with
      | Some _ => (mine_cycle now (with_timers (signature_timer self) None self), g)
      | None => s
      end
  | GotSignature now sig_data => (on_receive_signature now self sig_data, g)
  | GotFinalUpdate now state state_hash signatures =>
      match on_receive_final_update now g state state_hash signatures self with
      | Some s' => s'
      | None => s
      end
  | GotTransaction data =>
      (with_files (on_receive_transaction data (files self)) self, g)
  end.

End Wallet.

(** ** Views used in the statements of the further properties *)

Module Views.
Import Py Data.

(** The distinct signers of [signatures] that are in [selected]. *)
Definition signers_among (selected : list string)
    (signatures : list Consensus.Signature) : gset string :=
  list_to_set
    (List.filter (fun s => existsb (String.eqb s) selected)
       (map Consensus.signer signatures)).

(** No entry of [tx_executed] is a reward. *)
Definition no_reward (executed : odict Executed) : Prop :=
  Forall (fun kv => String.eqb (Proposal.entry_type kv.2) "reward" = false) executed.

(** The blocks table holds the blocks [0 .. n] and nothing else, and the
    loop of [verify_chain] goes through at each of [1 .. n]. *)
Definition chain_upto `{H : Hashing} (n : nat) (db : Storage.Db) : Prop :=
  size (Storage.blocks_table db) = S n /\
  (forall k : Z, is_Some (Storage.blocks_table db !! k) <-> 0 <= k <= Z.of_nat n) /\
  (forall i : nat, (1 <= i <= n)%nat -> Ledger.verify_link db i = Some true).

(** The signature responses among the messages a [LibreNode] has sent. *)
Definition responses_in (sent : list (string * Z * Node.Message))
  : list Consensus.Signature :=
  omap (fun m => match m.2 with
                 | Node.SIGNATURE_RESPONSE response => Some response
                 | _ => None
                 end) sent.

(** The message announces a block. *)
Definition announces_block (m : string * Z * Node.Message) : bool :=
  match m.2 with
  | Node.BLOCK_ANNOUNCE _ => true
  | _ => false
  end.

(** The message is a state update. *)
Definition is_state_update (m : Node.Inbound) : bool :=
  match Node.inbound_message m with
  | Node.STATE_UPDATE _ _ _ _ => true
  | _ => false
  end.

(** What every handler of main.py keeps: no round is open, no block has
    been announced, and every signature response sent is signed
    ["DEMO_SIGNER"]. *)
Definition idle (self : Node.LibreNode) : Prop :=
  Node.collected_signatures self = ∅ /\
  Node.pending_updates self = ∅ /\
  Forall (fun m => announces_block m = false) (Node.sent self) /\
  Forall (fun s => Consensus.signer s = "DEMO_SIGNER") (responses_in (Node.sent self)).

(** The user that [_apply_remote_state] stores for an entry of the message. *)
Definition stored_remote (a : string) (u : Node.RemoteUser) : User :=
  {| u_address := a; balance := Node.remote_balance u;
     nonce := default 0 (Node.remote_nonce u);
     life := default 20000000 (Node.remote_life u) |}.

(** What is called on a [P2PNode] of p2p_network.py from outside. *)
Inductive P2POp (P : Type) : Type :=
| Deliver (clock : Q) (addr : string * Z) (message_env : P2P.Envelope P)
| AddPeer (clock : Q) (node_id ip : string) (port : Z)
| RemovePeer (node_id : string)
| Cleanup (now : Q)
| Announce (clock : Q)
| Broadcast (clock : Q) (message_env : P2P.Envelope P) (exclude_node_id : option string).

Arguments Deliver {P}.
Arguments AddPeer {P}.
Arguments RemovePeer {P}.
Arguments Cleanup {P}.
Arguments Announce {P}.
Arguments Broadcast {P}.

Definition p2p_step {P App : Type}
    (message_handler : option (P2P.Envelope P -> string * Z -> App -> App * bool))
    (digest : P2P.Envelope P -> string) (presence : string -> Z -> P)
    (s : P2P.P2PNode * App) (op : P2POp P) : P2P.P2PNode * App :=
  match op with
  | Deliver clock addr message_env =>
      (P2P.deliver message_handler clock addr message_env s.1 s.2).1
  | AddPeer clock node_id ip port => (P2P.add_peer clock node_id ip port s.1, s.2)
  | RemovePeer node_id => (P2P.remove_peer node_id s.1, s.2)
  | Cleanup now => (P2P._periodic_cleanup now s.1, s.2)
  | Announce clock => ((P2P.announce_presence digest presence clock s.1).1, s.2)
  | Broadcast clock message_env exclude_node_id =>
      ((P2P.broadcast clock message_env exclude_node_id s.1).1, s.2)
  end.

(** The address of a peer. *)
Definition peer_address (p : P2P.Peer) : string * Z := (P2P.peer_ip p, P2P.peer_port p).

(** The peers in memory are the stored peers but for the node itself, at
    the same addresses. *)
Definition mirrors_storage (self : P2P.P2PNode) : Prop :=
  exists table,
    P2P.storage self = Some table /\
    peer_address <$> P2P.peers self = peer_address <$> delete (P2P.node_id self) table.

(** What is typed into the transaction form before [add_tx] runs. *)
Record Request := {
  request_time : Z;
  request_token : string;
  request_wallet : option (string * string);
  request_type : string;
  request_to : string;
  request_amount : Wallet.Typed
}.

(** The files after [add_tx] has run on a request. *)
Definition submit `{H : Hashing} (fs : Gui.Files) (r : Request) : Gui.Files :=
  (Wallet.add_tx (request_time r) (request_token r) (request_wallet r)
     (request_type r) (request_to r) (request_amount r) fs).2.

(** A stand-in for [hashlib] whose digests are hex strings: every digest
    is [hash_ab]. *)
Definition hex_hashing : Hashing :=
  {| sha256_hexdigest := fun _ => Fixtures.hash_ab;
     json_dumps_sorted := fun _ => "" |}.

(** No timer is armed on a node that is not mining, and the two timers
    are never armed together. *)
Definition settled (self : Gui.Main) : Prop :=
  (Gui.is_mining self = false ->
   Gui.signature_timer self = None /\ Gui.rebuild_timer self = None) /\
  (Gui.signature_timer self = None \/ Gui.rebuild_timer self = None).

(** Two users with 10 coins each; ["M"] is the only member of the group. *)
Definition files_funded : Gui.Files :=
  Fixtures.files_with [Fixtures.user "M" 10 1000; Fixtures.user "B" 10 1000]
    [] [] [("M", 0)].

(** The name of the file of block [n] under [BLOCKS_DIR]. *)
Definition block_file (n : Z) : string := "block_" ++ str n ++ ".json".

(** The blocks directory holds the files of the blocks [1 .. n], each
    with its own number, and nothing else. *)
Definition blocks_numbered (n : nat) (dir : gmap string Gui.BlockFile) : Prop :=
  size dir = n /\
  forall i : Z, 1 <= i <= Z.of_nat n ->
    exists b, dir !! block_file i = Some b /\ Gui.file_block_number b = i.

(** A user [n] rounds older. *)
Definition aged (n : nat) (u : User) : User :=
  {| u_address := u_address u; balance := balance u; nonce := nonce u;
     life := life u - Z.of_nat n |}.

(** Two transactions ask for the same thing: they agree on type, sender,
    recipient, amount and fee. *)
Definition same_request (a b : Tx) : Prop :=
  tx_type a = tx_type b /\ tx_from a = tx_from b /\ tx_to a = tx_to b /\
  amount a = amount b /\ fee a = fee b.

(** A transaction with another nonce, timestamp and signature. *)
Definition forged (tx : Tx) : Tx :=
  {| tx_id := tx_id tx; tx_type := tx_type tx; tx_from := tx_from tx;
     tx_to := tx_to tx; amount := amount tx; fee := fee tx; tx_nonce := 99;
     timestamp := 0; tx_signature := "forged" |}.

(** Two proposals agree on everything but the recorded transactions, of
    which they record the same ids in the same order. *)
Definition same_outcome (a b : option State) : Prop :=
  option_Forall2
    (fun st st' =>
       users st = users st' /\ miner_pool st = miner_pool st' /\
       current_group st = current_group st' /\
       keys (tx_executed st) = keys (tx_executed st'))
    a b.

(** Two users with 10 coins each and a pooled transfer of 5. *)
Definition files_transfer : Gui.Files :=
  Fixtures.files_with [Fixtures.user "M" 10 1000; Fixtures.user "B" 10 1000]
    [Fixtures.transfer "t1" "M" "B" 5 (1 # 2000)] [] [("M", 0)].

(** The fees of the recorded transactions, added up. *)
Definition fees_of (executed : odict Executed) : Q :=
  fold_left (fun acc kv =>
               (acc + match kv.2 with
                      | Pooled tx => fee tx
                      | Reward _ _ _ => 0
                      end)%Q)
    executed 0%Q.

(** The entry is a pool entry of one of the three types, recorded as pooled. *)
Definition pooled_in (pool : odict Tx) (kv : string * Executed) : Prop :=
  exists tx, kv.2 = Pooled tx /\ (kv.1, tx) ∈ pool /\
             (tx_type tx = "transfer" \/ tx_type tx = "new_account" \/
              tx_type tx = "join_pool").

(** A node that saw the message ["m"] at time 100, and a copy of that
    message. *)
Definition node_with_memory : P2P.P2PNode :=
  {| P2P.host := "127.0.0.1"; P2P.port := 9000; P2P.node_id := "n1";
     P2P.storage := None; P2P.peers := ∅;
     P2P.seen_messages := {["m" := 100%Q]} |}.

Definition repeated_message : P2P.Envelope unit :=
  {| P2P.msg_id := Some "m"; P2P.msg_type := "TRANSACTION";
     P2P.sender := Some "n2"; P2P.sender_port := Some 9001; P2P.payload := tt;
     P2P.msg_timestamp := 100%Q; P2P.broadcast_flag := true |}.

End Views.

(** * Properties *)

(** ** Positions and samples *)

Section Sampling.
Import Py.
Context `{R : Random}.

Lemma nth_lookup_string (l : list string) (i : nat) (x : string) :
  l !! i = Some x -> nth i l "" = x.
Proof.
  revert i; induction l as [|a l IH]; intros [|i] Hl; simplify_eq/=; eauto.
Qed.

Lemma nth_elem_of_string (l : list string) (i : nat) :
  (i < length l)%nat -> nth i l "" ∈ l.
Proof.
  intros Hi. destruct (lookup_lt_is_Some_2 l i Hi) as [x Hx].
  rewrite (nth_lookup_string _ _ _ Hx). by eapply list_elem_of_lookup_2.
Qed.

Lemma nth_inj_NoDup (l : list string) (i j : nat) :
  NoDup l -> (i < length l)%nat -> (j < length l)%nat ->
  nth i l "" = nth j l "" -> i = j.
Proof.
  intros Hnd Hi Hj Heq.
  destruct (lookup_lt_is_Some_2 l i Hi) as [x Hx].
  destruct (lookup_lt_is_Some_2 l j Hj) as [y Hy].
  rewrite (nth_lookup_string _ _ _ Hx), (nth_lookup_string _ _ _ Hy) in Heq.
  subst y. eapply NoDup_lookup; eauto.
Qed.

(** What [random.sample] returns on a population that is large enough. *)
Lemma sample_spec (g : rng) (population : list string) (k : nat) :
  (k <= length population)%nat ->
  exists positions g',
    rng_positions g (length population) k = (positions, g') /\
    sample g population k =
      Some (map (fun i => nth i population "") positions, g') /\
    length positions = k /\ NoDup positions /\
    Forall (fun i => (i < length population)%nat) positions.
Proof.
  intros Hk. unfold sample.
  destruct (rng_positions_ok g (length population) k Hk) as (Hlen & Hnd & Hall).
  destruct (rng_positions g (length population) k) as [positions g'] eqn:E.
  exists positions, g'. simpl in *.
  apply Nat.leb_le in Hk. rewrite Hk. done.
Qed.

Lemma sample_draws (g : rng) (population : list string) (k : nat) :
  (k <= length population)%nat -> NoDup population ->
  exists drawn g',
    sample g population k = Some (drawn, g') /\
    length drawn = k /\ NoDup drawn /\ drawn ⊆ population.
Proof.
  intros Hk Hnd.
  destruct (sample_spec g population k Hk) as (ps & g' & _ & Hs & Hlen & Hps & Hall).
  exists (map (fun i => nth i population "") ps), g'.
  rewrite Forall_forall in Hall.
  split; [done|]. split; [by rewrite length_map|]. split.
  - apply (NoDup_fmap_2_strong (fun i => nth i population "")); [|done].
    intros i j Hi Hj. apply nth_inj_NoDup; auto.
  - intros x Hx. apply list_elem_of_fmap in Hx as (i & -> & Hi).
    apply nth_elem_of_string; auto.
Qed.

(** Drawing [n] positions out of [n + 1] leaves exactly one out. *)
Lemma positions_leave_one_out (g : rng) (n : nat) :
  exists m, (m < S n)%nat /\ (m ∉ (rng_positions g (S n) n).1) /\
    forall i, (i < S n)%nat -> i ≠ m -> i ∈ (rng_positions g (S n) n).1.
Proof.
  destruct (rng_positions_ok g (S n) n) as (Hlen & Hnd & Hall); [lia|].
  set (ps := (rng_positions g (S n) n).1) in *.
  rewrite Forall_forall in Hall.
  assert (Hex : Exists (fun i => ~ i ∈ ps) (seq 0 (S n))).
  { apply (not_Forall_Exists (fun i => i ∈ ps) _).
    intros Hf. rewrite Forall_forall in Hf.
    pose proof (NoDup_submseteq (seq 0 (S n)) ps (NoDup_seq 0 (S n))
                  (fun x Hx => Hf x Hx)) as Hle.
    apply submseteq_length in Hle. rewrite length_seq in Hle. lia. }
  apply Exists_exists in Hex as (m & Hm & Hout).
  apply elem_of_seq in Hm.
  exists m. split; [lia|]. split; [done|].
  intros i Hi Hne. destruct (decide (i ∈ ps)) as [|Hni]; [done|exfalso].
  assert (Hnd2 : NoDup (m :: i :: ps)).
  { apply NoDup_cons; split; [|by apply NoDup_cons].
    intros [Heq|Hin]%elem_of_cons; [by apply Hne|done]. }
  assert (Hsub : m :: i :: ps ⊆ seq 0 (S n)).
  { intros x Hx. apply elem_of_seq.
    apply elem_of_cons in Hx as [->|Hx]; [lia|].
    apply elem_of_cons in Hx as [->|Hx]; [lia|].
    specialize (Hall x Hx). lia. }
  pose proof (NoDup_submseteq _ _ Hnd2 Hsub) as Hle.
  apply submseteq_length in Hle. rewrite length_seq in Hle. simpl in Hle. lia.
Qed.

(** The same positions read off two arrangements that disagree at every
    position pick different members. *)
Lemma sample_depends_on_order (g : rng) (l1 l2 : list string) (n : nat) :
  length l1 = S n -> length l2 = S n -> NoDup l1 -> l1 ⊆ l2 ->
  (forall i, (i < S n)%nat -> nth i l1 "" ≠ nth i l2 "") ->
  exists c1 c2 g',
    sample g l1 n = Some (c1, g') /\ sample g l2 n = Some (c2, g') /\
    exists x, x ∈ c2 /\ x ∉ c1.
Proof.
  intros Hl1 Hl2 Hnd Hsub Hdiff.
  destruct (sample_spec g l1 n) as (ps & g' & Hps & Hs1 & _ & _ & Hall); [lia|].
  destruct (sample_spec g l2 n) as (ps2 & g2 & Hps2 & Hs2 & _); [lia|].
  rewrite Hl1 in Hps. rewrite Hl2 in Hps2. rewrite Hps in Hps2.
  injection Hps2 as <- <-.
  destruct (positions_leave_one_out g n) as (m & Hm & Hout & Hrest).
  rewrite Hps in Hout, Hrest. simpl in Hout, Hrest.
  rewrite Forall_forall in Hall.
  eexists _, _, g'. split; [exact Hs1|]. split; [exact Hs2|].
  exists (nth m l1 ""). split.
  - assert (Hx : nth m l1 "" ∈ l2) by (apply Hsub, nth_elem_of_string; lia).
    apply list_elem_of_lookup in Hx as (j & Hj).
    pose proof (lookup_lt_Some _ _ _ Hj) as Hjlt.
    apply nth_lookup_string in Hj.
    apply list_elem_of_fmap. exists j. split; [done|].
    apply Hrest; [lia|]. intros ->. by apply (Hdiff m).
  - intros Hin. apply list_elem_of_fmap in Hin as (i & Heq & Hi).
    specialize (Hall i Hi).
    apply nth_inj_NoDup in Heq; [|done|lia|lia]. by subst.
Qed.

End Sampling.

(** ** Hex digests *)

Lemma int16_from_all_hex (s : string) (acc : Z) :
  Py.all_hex s = true -> exists z, Py.int16_from acc s = Some z.
Proof.
  revert acc; induction s as [|c s IH]; intros acc Hs; simpl in *; [eauto|].
  destruct (Py.hex_digit c); [eauto|done].
Qed.

Lemma int16_hexdigest (s : string) :
  Py.hexdigest s = true -> exists z, Py.int16 s = Some z.
Proof.
  destruct s as [|c s]; [done|]. intros Hs. by apply int16_from_all_hex.
Qed.

Lemma all_hex_substring (s : string) (n : nat) :
  Py.all_hex s = true -> Py.all_hex (substring 0 n s) = true.
Proof.
  revert n; induction s as [|c s IH]; intros [|n] Hs; simpl in *; try done.
  destruct (Py.hex_digit c); [eauto|done].
Qed.

Lemma hexdigest_prefix (s : string) (n : nat) :
  Py.hexdigest s = true -> Py.hexdigest (substring 0 (S n) s) = true.
Proof.
  destruct s as [|c s]; [done|]. intros Hs.
  change (Py.all_hex (substring 0 (S n) (String c s)) = true).
  by apply all_hex_substring.
Qed.

(** ** A generator to instantiate the statements with *)

Lemma rotating_positions_ok (g : Z) (n k : nat) :
  (k <= n)%nat ->
  length (Fixtures.rotating_positions g n k).1 = k /\
  NoDup (Fixtures.rotating_positions g n k).1 /\
  Forall (fun i => (i < n)%nat) (Fixtures.rotating_positions g n k).1.
Proof.
  intros Hk. unfold Fixtures.rotating_positions. simpl.
  set (r := rotate _ _).
  assert (Hperm : r ≡ₚ seq 0 n).
  { unfold r, rotate. rewrite Permutation_app_comm. by rewrite take_drop. }
  split; [|split].
  - rewrite length_take, Hperm, length_seq. lia.
  - eapply sublist_NoDup; [|apply sublist_take].
    rewrite Hperm. apply NoDup_seq.
  - apply Forall_forall. intros i Hi.
    assert (Hin : i ∈ r) by (by eapply sublist_subseteq; [apply sublist_take|]).
    rewrite Hperm in Hin. apply elem_of_seq in Hin. lia.
Qed.

#[local] Instance rotating_random : Py.Random :=
  {| Py.rng := Z;
     Py.rng_seed := fun a => a;
     Py.rng_positions := Fixtures.rotating_positions;
     Py.rng_positions_ok := rotating_positions_ok |}.

(** ** Checks on concrete lists *)

Lemma differ_everywhere_nth (l1 l2 : list string) (i : nat) :
  Checks.differ_everywhere l1 l2 = true ->
  (i < length l1)%nat -> (i < length l2)%nat -> nth i l1 "" ≠ nth i l2 "".
Proof.
  revert l2 i; induction l1 as [|a l1 IH]; intros [|b l2] i Hd Hi1 Hi2;
    simpl in *; try lia.
  apply andb_true_iff in Hd as [Hab Hd].
  destruct i as [|i]; [|apply IH; auto; lia].
  apply negb_true_iff, String.eqb_neq in Hab. done.
Qed.

Lemma ltb_lt (a b : string) : String.ltb a b = true -> String_as_OT.lt a b.
Proof.
  unfold String.ltb. intros Hab. apply String_as_OT.cmp_lt.
  unfold String_as_OT.cmp. by destruct (String.compare a b).
Qed.

Lemma strictly_ascending_below (a : string) (l : list string) :
  Checks.strictly_ascending (a :: l) = true ->
  Forall (String_as_OT.lt a) l /\ Checks.strictly_ascending l = true.
Proof.
  revert a; induction l as [|b l IH]; intros a Hs; [by split|].
  simpl in Hs. apply andb_true_iff in Hs as [Hab Hs].
  destruct (IH b Hs) as [Hb _]. split; [|done].
  apply ltb_lt in Hab. constructor; [done|].
  eapply Forall_impl; [exact Hb|]. intros c Hc.
  by eapply String_as_OT.lt_trans.
Qed.

Lemma strictly_ascending_NoDup (l : list string) :
  Checks.strictly_ascending l = true -> NoDup l.
Proof.
  induction l as [|a l IH]; intros Hs; [constructor|].
  destruct (strictly_ascending_below a l Hs) as [Hall Hl].
  constructor; [|by apply IH].
  intros Hin. rewrite Forall_forall in Hall.
  by apply (String_as_OT.lt_not_eq a a (Hall a Hin)).
Qed.

Lemma keys_pool_of (l : list string) : Py.keys (Fixtures.pool_of l) = l.
Proof.
  unfold Py.keys, Fixtures.pool_of. rewrite map_map. simpl. apply map_id.
Qed.

Lemma rotated_permutation (n : nat) :
  Fixtures.rotated (S n) ≡ₚ Fixtures.ascending (S n).
Proof.
  unfold Fixtures.rotated, Fixtures.ascending.
  replace (S n - 1)%nat with n by lia.
  rewrite Permutation_app_comm. done.
Qed.

(** ** Committee selection *)

Section Selection.
Import Py.
Context `{R : Random}.

Lemma consensus_selection_small (g : rng) (h : string) (roster : odict Z) (seed : Z) :
  int16 (substring 0 16 h) = Some seed -> (length (keys roster) <= 100)%nat ->
  Consensus.get_selected_miners g h roster = Some (keys roster, rng_seed seed).
Proof.
  intros Hs Hl. unfold Consensus.get_selected_miners. rewrite Hs.
  apply Nat.leb_le in Hl. by rewrite Hl.
Qed.

Lemma consensus_selection_large (g : rng) (h : string) (roster : odict Z) (seed : Z) :
  int16 (substring 0 16 h) = Some seed -> (100 < length (keys roster))%nat ->
  Consensus.get_selected_miners g h roster = sample (rng_seed seed) (keys roster) 100.
Proof.
  intros Hs Hl. unfold Consensus.get_selected_miners. rewrite Hs.
  apply Nat.leb_gt in Hl. by rewrite Hl.
Qed.

Lemma gui_selection_small (g : rng) (h : string) (roster : odict Z) (seed : Z) :
  int16 h = Some seed -> (length (keys roster) <= 100)%nat ->
  Gui.get_selected_miners g h roster = Some (keys roster, rng_seed seed).
Proof.
  intros Hs Hl. unfold Gui.get_selected_miners. rewrite Hs.
  apply Nat.leb_le in Hl. by rewrite Hl.
Qed.

Lemma gui_selection_large (g : rng) (h : string) (roster : odict Z) (seed : Z) :
  int16 h = Some seed -> (100 < length (keys roster))%nat ->
  Gui.get_selected_miners g h roster = sample (rng_seed seed) (keys roster) 100.
Proof.
  intros Hs Hl. unfold Gui.get_selected_miners. rewrite Hs.
  apply Nat.leb_gt in Hl. by rewrite Hl.
Qed.

Lemma length_keys {V} (d : odict V) : length (keys d) = length d.
Proof. apply length_map. Qed.

End Selection.

(** C4 (amended).  For a hex digest [state_hash] and a roster with distinct
    addresses: a roster of at most 100 addresses is returned whole, in its
    stored order, by both selectors; a larger roster is handed as it is stored
    (it is not sorted) to [random.sample], which draws exactly 100 distinct
    addresses of the roster, after the generator has been seeded with the first
    16 hex characters of the hash read as an unsigned integer in consensus.py
    and with the whole hash in libre_network_gui.py. *)
Theorem committee_selection `{R : Py.Random} (g : Py.rng) (state_hash : string)
    (roster : Py.odict Z) :
  Py.hexdigest state_hash = true -> NoDup (Py.keys roster) ->
  exists seed16 seed : Z,
    Py.int16 (substring 0 16 state_hash) = Some seed16 /\
    Py.int16 state_hash = Some seed /\
    ((length roster <= 100)%nat ->
       Consensus.get_selected_miners g state_hash roster
         = Some (Py.keys roster, Py.rng_seed seed16) /\
       Gui.get_selected_miners g state_hash roster
         = Some (Py.keys roster, Py.rng_seed seed)) /\
    ((100 < length roster)%nat ->
       Consensus.get_selected_miners g state_hash roster
         = Py.sample (Py.rng_seed seed16) (Py.keys roster) 100 /\
       Gui.get_selected_miners g state_hash roster
         = Py.sample (Py.rng_seed seed) (Py.keys roster) 100 /\
       forall s : Z, exists committee g',
         Py.sample (Py.rng_seed s) (Py.keys roster) 100 = Some (committee, g') /\
         length committee = 100%nat /\ NoDup committee /\
         committee ⊆ Py.keys roster).
Proof.
  intros Hhex Hnd.
  destruct (int16_hexdigest _ (hexdigest_prefix _ 15 Hhex)) as [seed16 H16].
  destruct (int16_hexdigest _ Hhex) as [seed Hseed].
  exists seed16, seed. split; [done|]. split; [done|].
  rewrite <- (length_keys roster). split.
  - intros Hl. split; [by apply consensus_selection_small|by apply gui_selection_small].
  - intros Hl. split; [by apply consensus_selection_large|].
    split; [by apply gui_selection_large|].
    intros s. apply sample_draws; [lia|done].
Qed.

Lemma committee_selection_witness :
  Consensus.get_selected_miners (R := rotating_random) 0 Fixtures.hash_ab
    (Fixtures.pool_of (Fixtures.ascending 3))
  = Some (Fixtures.ascending 3, 12370169555311111083).
Proof.
  destruct (committee_selection (R := rotating_random) 0 Fixtures.hash_ab
              (Fixtures.pool_of (Fixtures.ascending 3)))
    as (seed16 & seed & H16 & _ & Hsmall & _).
  - reflexivity.
  - rewrite keys_pool_of. apply strictly_ascending_NoDup. reflexivity.
  - destruct Hsmall as [Hc _]; [vm_compute; lia|].
    rewrite Hc, keys_pool_of. vm_compute in H16. injection H16 as <-. reflexivity.
Defined.

(** ** The order of the roster decides who is drawn *)

Lemma rotated_sorted_101 :
  Spec.sort_addresses (Fixtures.rotated 101) = Fixtures.ascending 101.
Proof. vm_compute. reflexivity. Qed.

Lemma rotated_facts_101 :
  length (Fixtures.rotated 101) = 101%nat /\
  length (Fixtures.ascending 101) = 101%nat /\
  NoDup (Fixtures.rotated 101) /\
  Fixtures.rotated 101 ⊆ Fixtures.ascending 101 /\
  forall i, (i < 101)%nat ->
    nth i (Fixtures.rotated 101) "" ≠ nth i (Fixtures.ascending 101) "".
Proof.
  assert (Hl1 : length (Fixtures.rotated 101) = 101%nat) by (vm_compute; reflexivity).
  assert (Hl2 : length (Fixtures.ascending 101) = 101%nat) by (vm_compute; reflexivity).
  assert (Hnd : NoDup (Fixtures.ascending 101))
    by (apply strictly_ascending_NoDup; vm_compute; reflexivity).
  repeat split; try done.
  - by rewrite rotated_permutation.
  - intros x Hx. by rewrite <- (rotated_permutation 100).
  - intros i Hi. apply differ_everywhere_nth; [vm_compute; reflexivity|lia|lia].
Qed.

Lemma hash_ab_seeds :
  Py.int16 (substring 0 16 Fixtures.hash_ab) = Some 12370169555311111083 /\
  exists seed, Py.int16 Fixtures.hash_ab = Some seed.
Proof. split; [vm_compute; reflexivity|]. by apply int16_hexdigest. Qed.

(** From a roster of 101 addresses stored with the smallest last, no
    generator draws the committee it draws from the same roster in ascending
    order. *)
Lemma rotated_roster_draw `{R : Py.Random} (g : Py.rng) :
  exists c1 c2 g',
    Py.sample g (Fixtures.rotated 101) 100 = Some (c1, g') /\
    Py.sample g (Fixtures.ascending 101) 100 = Some (c2, g') /\
    exists x, x ∈ c2 /\ x ∉ c1.
Proof.
  destruct rotated_facts_101 as (Hl1 & Hl2 & Hnd & Hsub & Hdiff).
  by apply sample_depends_on_order.
Qed.

(** C4, as stated, fails: the committee the code draws from the 101-address
    roster [roster_rotated] is not the one drawn from that roster sorted in
    ascending order, whatever generator [random] is. *)
Lemma committee_not_drawn_from_sorted_roster :
  ~ exists R : Py.Random,
      Checks.same_committee
        (Consensus.get_selected_miners (Py.rng_seed 0) Fixtures.hash_ab
           Fixtures.roster_rotated)
        (Spec.select (Py.rng_seed 0) Fixtures.hash_ab Fixtures.roster_rotated).
Proof.
  intros [R Hsame].
  destruct hash_ab_seeds as [H16 _].
  destruct rotated_facts_101 as (Hl1 & _).
  unfold Spec.select, Fixtures.roster_rotated in Hsame.
  rewrite (consensus_selection_large _ _ _ _ H16) in Hsame
    by (rewrite keys_pool_of, Hl1; lia).
  rewrite H16, keys_pool_of, Hl1, rotated_sorted_101 in Hsame.
  change (101 <=? 100)%nat with false in Hsame. cbv iota in Hsame.
  destruct (rotated_roster_draw (Py.rng_seed 12370169555311111083))
    as (c1 & c2 & g' & E1 & E2 & x & Hx2 & Hx1).
  rewrite E1, E2 in Hsame. inversion Hsame as [? ? Hm|]; subst.
  simpl in Hm. by apply Hx1, Hm.
Qed.

(** C5 (amended).  Both selectors are functions of the hash and of the roster
    as it is stored: the state the generator was left in by earlier calls does
    not matter, since it is seeded anew.  For a roster of at most 100
    addresses, reordering the roster reorders the committee and leaves its
    members the same. *)
Theorem committee_function_of_stored_roster `{R : Py.Random} (g1 g2 : Py.rng)
    (state_hash : string) (roster1 roster2 : Py.odict Z) :
  (Consensus.get_selected_miners g1 state_hash roster1
     = Consensus.get_selected_miners g2 state_hash roster1 /\
   Gui.get_selected_miners g1 state_hash roster1
     = Gui.get_selected_miners g2 state_hash roster1) /\
  (Py.keys roster1 ≡ₚ Py.keys roster2 -> (length roster1 <= 100)%nat ->
   option_Forall2 (fun a b => a.1 ≡ₚ b.1)
     (Consensus.get_selected_miners g1 state_hash roster1)
     (Consensus.get_selected_miners g2 state_hash roster2) /\
   option_Forall2 (fun a b => a.1 ≡ₚ b.1)
     (Gui.get_selected_miners g1 state_hash roster1)
     (Gui.get_selected_miners g2 state_hash roster2)).
Proof.
  split; [split; reflexivity|].
  intros Hperm Hlen.
  pose proof (Permutation_length Hperm) as Hl.
  rewrite <- (length_keys roster1) in Hlen.
  assert (Hlen2 : (length (Py.keys roster2) <= 100)%nat) by lia.
  unfold Consensus.get_selected_miners, Gui.get_selected_miners.
  apply Nat.leb_le in Hlen, Hlen2. rewrite Hlen, Hlen2.
  split.
  - destruct (Py.int16 (substring 0 16 state_hash)); by constructor.
  - destruct (Py.int16 state_hash); by constructor.
Qed.

Lemma committee_function_of_stored_roster_witness :
  option_Forall2 (fun a b => a.1 ≡ₚ b.1)
    (Consensus.get_selected_miners (R := rotating_random) 1 Fixtures.hash_ab
       (Fixtures.pool_of (Fixtures.ascending 3)))
    (Consensus.get_selected_miners (R := rotating_random) 2 Fixtures.hash_ab
       (Fixtures.pool_of (Fixtures.rotated 3))).
Proof.
  apply (committee_function_of_stored_roster (R := rotating_random) 1 2
           Fixtures.hash_ab (Fixtures.pool_of (Fixtures.ascending 3))
           (Fixtures.pool_of (Fixtures.rotated 3))).
  - rewrite !keys_pool_of. symmetry. apply (rotated_permutation 2).
  - vm_compute. lia.
Defined.

(** C5, as stated, fails: [roster_ascending] and [roster_rotated] hold the same
    101 addresses in two orders, and with no generator does either selector
    return the same members for both. *)
Lemma committee_depends_on_roster_order :
  Py.keys Fixtures.roster_rotated ≡ₚ Py.keys Fixtures.roster_ascending /\
  ~ exists R : Py.Random,
      Checks.same_committee
        (Consensus.get_selected_miners (Py.rng_seed 0) Fixtures.hash_ab
           Fixtures.roster_rotated)
        (Consensus.get_selected_miners (Py.rng_seed 0) Fixtures.hash_ab
           Fixtures.roster_ascending) \/
      Checks.same_committee
        (Gui.get_selected_miners (Py.rng_seed 0) Fixtures.hash_ab
           Fixtures.roster_rotated)
        (Gui.get_selected_miners (Py.rng_seed 0) Fixtures.hash_ab
           Fixtures.roster_ascending).
Proof.
  unfold Fixtures.roster_rotated, Fixtures.roster_ascending.
  split; [rewrite !keys_pool_of; apply (rotated_permutation 100)|].
  intros [R Hsame].
  destruct hash_ab_seeds as [H16 [seed Hseed]].
  destruct rotated_facts_101 as (Hl1 & Hl2 & _).
  rewrite !(consensus_selection_large _ _ _ _ H16) in Hsame
    by (rewrite keys_pool_of, ?Hl1, ?Hl2; lia).
  rewrite !(gui_selection_large _ _ _ _ Hseed) in Hsame
    by (rewrite keys_pool_of, ?Hl1, ?Hl2; lia).
  rewrite !keys_pool_of in Hsame.
  destruct Hsame as [Hsame|Hsame];
    [destruct (rotated_roster_draw (Py.rng_seed 12370169555311111083))
       as (c1 & c2 & g' & E1 & E2 & x & Hx2 & Hx1)
    |destruct (rotated_roster_draw (Py.rng_seed seed))
       as (c1 & c2 & g' & E1 & E2 & x & Hx2 & Hx1)];
    rewrite E1, E2 in Hsame; inversion Hsame as [? ? Hm|]; subst;
    simpl in Hm; by apply Hx1, Hm.
Qed.

(** ** Signatures are never checked *)

Lemma count_signature_blank (h : string) (selected : list string)
    (signatures : list Consensus.Signature) (acc : nat * gset string) :
  fold_left (Consensus.count_signature h selected) (map Checks.blank signatures) acc
  = fold_left (Consensus.count_signature h selected) signatures acc.
Proof.
  revert acc; induction signatures as [|s l IH]; intros acc; [done|].
  simpl. rewrite IH. done.
Qed.

(** C10.  Both [verify_state_signature] functions return [True] on every
    input, and the aggregated check gives the same verdict when every
    signature's bytes are replaced by the empty string: a signature counts by
    its signer alone. *)
Theorem signature_verification_vacuous (address state_hash sig : string)
    (signatures : list Consensus.Signature) (selected_miners : list string) :
  Consensus.verify_state_signature address state_hash sig = true /\
  Gui.verify_state_signature address state_hash sig = true /\
  Consensus.verify_aggregated_signature (map Checks.blank signatures)
    state_hash selected_miners
  = Consensus.verify_aggregated_signature signatures state_hash selected_miners.
Proof.
  split; [done|]. split; [done|].
  unfold Consensus.verify_aggregated_signature.
  rewrite length_map, count_signature_blank. done.
Qed.

(** ** The transaction pool file *)

Lemma execute_transactions_files (now : Z) (miner : string) (fs : Gui.Files) :
  (Gui.execute_transactions now miner fs).2 = fs \/
  (Gui.execute_transactions now miner fs).2 = Gui.decrease_life fs.
Proof.
  unfold Gui.execute_transactions.
  repeat (case_match; simpl; auto).
Qed.

Lemma mine_files `{H : Py.Hashing} (now : Z) (miner : string) (fs : Gui.Files) :
  (Gui.mine now miner fs).2 = (Gui.execute_transactions now miner fs).2.
Proof.
  unfold Gui.mine. destruct (Gui.execute_transactions now miner fs) as [[st|] fs1]; done.
Qed.

Lemma trigger_rebuild_files (self : Gui.Main) :
  Gui.files (Gui.trigger_rebuild self) = Gui.files self.
Proof. unfold Gui.trigger_rebuild. by destruct (Gui.is_mining self). Qed.

Lemma apply_final_state_files `{H : Py.Hashing} (now : Z) (state : Data.State)
    (signatures : list Consensus.Signature) (self : Gui.Main) :
  Gui.files (Gui.apply_final_state now state signatures self)
  = {| Gui.USERS_FILE := Data.users state;
       Gui.TX_POOL_FILE := [];
       Gui.TX_EXECUTED_FILE := Data.tx_executed state;
       Gui.MINER_POOL_FILE := Data.miner_pool state;
       Gui.CURRENT_GROUP_FILE := Data.current_group state;
       Gui.GROUPS_DIR := Gui.GROUPS_DIR (Gui.files self);
       Gui.BLOCKS_DIR :=
         <["block_" ++ Py.str (Z.of_nat (size (Gui.BLOCKS_DIR (Gui.files self))) + 1)
             ++ ".json"
           := {| Gui.file_block_number :=
                   Z.of_nat (size (Gui.BLOCKS_DIR (Gui.files self))) + 1;
                 Gui.file_state_hash := Gui.hash_state state;
                 Gui.file_signatures := signatures;
                 Gui.file_timestamp := now |}]>
           (Gui.BLOCKS_DIR (Gui.files self)) |}.
Proof.
  unfold Gui.apply_final_state. simpl.
  destruct (Gui.is_mining self); [rewrite trigger_rebuild_files|]; done.
Qed.

(** C8.  Building a proposal ([execute_transactions], [mine], [mine_cycle])
    leaves [TX_POOL_FILE] as it was, and after [apply_final_state] the file
    holds the empty pool, whatever the installed state executed. *)
Theorem tx_pool_intact_until_installed `{H : Py.Hashing} (now : Z) (miner : string)
    (fs : Gui.Files) (state : Data.State) (signatures : list Consensus.Signature)
    (self : Gui.Main) :
  Gui.TX_POOL_FILE (Gui.execute_transactions now miner fs).2 = Gui.TX_POOL_FILE fs /\
  Gui.TX_POOL_FILE (Gui.mine now miner fs).2 = Gui.TX_POOL_FILE fs /\
  Gui.TX_POOL_FILE (Gui.files (Gui.mine_cycle now self))
    = Gui.TX_POOL_FILE (Gui.files self) /\
  Gui.TX_POOL_FILE (Gui.files (Gui.apply_final_state now state signatures self)) = [].
Proof.
  assert (Hex : forall m f,
    Gui.TX_POOL_FILE (Gui.execute_transactions now m f).2 = Gui.TX_POOL_FILE f).
  { intros m f. by destruct (execute_transactions_files now m f) as [->| ->]. }
  split; [apply Hex|]. split; [rewrite mine_files; apply Hex|]. split.
  - unfold Gui.mine_cycle. destruct (Gui.is_mining self); [|done]. simpl.
    pose proof (mine_files now (Gui.addr self) (Gui.files self)) as Hm.
    destruct (Gui.mine now (Gui.addr self) (Gui.files self)) as [[upd|] fs1];
      simpl in *; subst fs1; apply Hex.
  - by rewrite apply_final_state_files.
Qed.

(** ** Collecting signatures *)

Section Collecting.
Import Py Data Gui.
Context `{H : Hashing}.

(** A signature for a hash in flight, below the threshold: it is appended. *)
Lemma on_receive_signature_below (now : Z) (self : Main) (sig : Signature)
    (collected : list Signature) :
  collected_signatures self !! sig_state_hash sig = Some collected ->
  (S (length collected) < 100)%nat ->
  on_receive_signature now self sig
  = with_rounds (pending_updates self)
      (<[sig_state_hash sig := (collected ++ [sig])%list]> (collected_signatures self))
      self.
Proof.
  intros Hc Hlen.
  assert (E : (100 <=? length (collected ++ [sig]))%nat = false)
    by (apply Nat.leb_gt; rewrite length_app; simpl; lia).
  unfold on_receive_signature. rewrite Hc. cbv zeta. by rewrite E.
Qed.

(** The signature that brings the list to 100 entries: the final update is
    broadcast with the list as it is, installed, and the round forgotten. *)
Lemma on_receive_signature_threshold (now : Z) (self : Main) (sig : Signature)
    (collected : list Signature) (update : Update) :
  collected_signatures self !! sig_state_hash sig = Some collected ->
  pending_updates self !! sig_state_hash sig = Some update ->
  (100 <= S (length collected))%nat ->
  let h := sig_state_hash sig in
  let all := (collected ++ [sig])%list in
  let self1 :=
    with_rounds (pending_updates self) (<[h := all]> (collected_signatures self)) self in
  let self3 :=
    apply_final_state now (upd_state update) all
      (broadcast (FINAL_UPDATE (upd_state update) h all) self1) in
  on_receive_signature now self sig
  = with_rounds (delete h (pending_updates self3))
      (delete h (collected_signatures self3)) self3.
Proof.
  intros Hc Hp Hlen.
  assert (E : (100 <=? length (collected ++ [sig]))%nat = true)
    by (apply Nat.leb_le; rewrite length_app; simpl; lia).
  unfold on_receive_signature. rewrite Hc. cbv zeta. rewrite E.
  change (pending_updates (with_rounds (pending_updates self)
            (<[sig_state_hash sig := (collected ++ [sig])%list]>
               (collected_signatures self)) self))
    with (pending_updates self).
  by rewrite Hp.
Qed.

Lemma apply_final_state_rounds (now : Z) (state : State) (sigs : list Signature)
    (self : Main) :
  pending_updates (apply_final_state now state sigs self) = pending_updates self /\
  collected_signatures (apply_final_state now state sigs self)
    = collected_signatures self /\
  broadcasts (apply_final_state now state sigs self) = broadcasts self.
Proof.
  unfold apply_final_state, trigger_rebuild. simpl.
  destruct (is_mining self); done.
Qed.

(** Fewer than 100 signature messages for a hash in flight are all kept,
    whoever signed them, and nothing else changes. *)
Lemma signatures_accumulate (now : Z) (self : Main) (h : string)
    (sigs : list Signature) :
  collected_signatures self !! h = Some [] ->
  Forall (fun s => sig_state_hash s = h) sigs ->
  (length sigs < 100)%nat ->
  fold_left (on_receive_signature now) sigs self
  = with_rounds (pending_updates self) (<[h := sigs]> (collected_signatures self)) self.
Proof.
  intros Hc. induction sigs as [|s sigs IH] using rev_ind; intros Hall Hlen.
  - simpl. rewrite (insert_id (collected_signatures self) h [] Hc). by destruct self.
  - apply Forall_app in Hall as [Hall Hs]. rewrite Forall_singleton in Hs.
    simpl in Hs.
    rewrite length_app in Hlen. simpl in Hlen.
    rewrite fold_left_app. simpl. rewrite IH by (done || lia).
    rewrite (on_receive_signature_below _ _ _ sigs).
    + simpl. rewrite Hs. by rewrite insert_insert_eq.
    + simpl. rewrite Hs. apply lookup_insert_eq.
    + lia.
Qed.

(** The 100th message finalizes the round, whoever signed the 100. *)
Lemma hundredth_signature_finalizes (now : Z) (self : Main) (h : string)
    (update : Update) (sigs : list Signature) :
  pending_updates self !! h = Some update ->
  collected_signatures self !! h = Some [] ->
  Forall (fun s => sig_state_hash s = h) sigs ->
  length sigs = 100%nat ->
  let self' := fold_left (on_receive_signature now) sigs self in
  broadcasts self' = (broadcasts self ++ [FINAL_UPDATE (upd_state update) h sigs])%list /\
  files self' = files (apply_final_state now (upd_state update) sigs self) /\
  pending_updates self' !! h = None /\
  collected_signatures self' !! h = None.
Proof.
  intros Hp Hc Hall Hlen.
  destruct sigs as [|s sigs _] using rev_ind; [done|].
  apply Forall_app in Hall as [Hall Hs]. rewrite Forall_singleton in Hs.
  simpl in Hs.
  rewrite length_app in Hlen. simpl in Hlen.
  intros self'. subst self'.
  rewrite fold_left_app. simpl.
  rewrite (signatures_accumulate _ _ h) by (done || lia).
  rewrite (on_receive_signature_threshold _ _ _ sigs update).
  - rewrite Hs. simpl.
    destruct (apply_final_state_rounds now (upd_state update) (sigs ++ [s])
                (broadcast (FINAL_UPDATE (upd_state update) h (sigs ++ [s]))
                   (with_rounds (pending_updates self)
                      (<[h:=(sigs ++ [s])%list]>
                         (<[h:=sigs]> (collected_signatures self)))
                      (with_rounds (pending_updates self)
                         (<[h:=sigs]> (collected_signatures self)) self))))
      as (Hpe & Hco & Hbr).
    rewrite Hbr. simpl.
    split; [done|]. split; [by rewrite !apply_final_state_files|].
    split; apply lookup_delete_eq.
  - simpl. rewrite Hs. apply lookup_insert_eq.
  - simpl. by rewrite Hs.
  - lia.
Qed.

End Collecting.

(** ** The executor *)

Section Executor.
Import Py Data Gui Checks.

Lemma has_life_alter (f : User -> User) (k a : string) (l : Z)
    (us : gmap string User) :
  (forall u, life (f u) = life u) ->
  has_life a l us -> has_life a l (alter f k us).
Proof.
  intros Hf (u & Hu & Hl). unfold has_life.
  destruct (decide (k = a)) as [->|Hne].
  - exists (f u). rewrite lookup_alter_eq, Hu. split; [done|]. by rewrite Hf.
  - exists u. by rewrite lookup_alter_ne.
Qed.

Lemma has_life_insert (k a : string) (l : Z) (v : User) (us : gmap string User) :
  has_user k us = false ->
  has_life a l us -> has_life a l (<[k := v]> us).
Proof.
  intros Hk (u & Hu & Hl). exists u. split; [|done].
  rewrite lookup_insert_ne; [done|]. intros ->.
  unfold has_user in Hk. apply bool_decide_eq_false in Hk.
  apply Hk. by exists u.
Qed.

Lemma has_user_alter (f : User -> User) (k a : string) (us : gmap string User) :
  has_user a (alter f k us) = has_user a us.
Proof.
  unfold has_user. apply bool_decide_ext.
  rewrite lookup_alter. case_decide; subst; [|done].
  by rewrite fmap_is_Some.
Qed.

(** A turn of the loop keeps every user, with the life the user had. *)
Lemma execute_one_has_life (now : Z) (us : gmap string User) (mp : odict Z)
    (ex : odict Executed) (entry : string * Tx) (a : string) (l : Z) :
  has_life a l us -> has_life a l (execute_one now (us, mp, ex) entry).1.1.
Proof.
  intros Ha. unfold execute_one. destruct entry as [txid tx].
  destruct (us !! tx_from tx) as [s|]; [|done].
  repeat case_match; simplify_eq/=; try done;
    repeat first
      [ apply has_life_alter; [done|]
      | apply has_life_insert;
        [rewrite has_user_alter;
         match goal with
         | Hc : negb (has_user ?k ?m) && _ = true |- _ =>
             apply andb_true_iff in Hc as [Hc _];
             by apply negb_true_iff in Hc
         end|] ];
    done.
Qed.

Lemma execute_pool_has_life (now : Z) (pool : odict Tx)
    (acc : gmap string User * odict Z * odict Executed) (a : string) (l : Z) :
  has_life a l acc.1.1 ->
  has_life a l (fold_left (execute_one now) pool acc).1.1.
Proof.
  revert acc; induction pool as [|entry pool IH]; intros [[us mp] ex] Ha; [done|].
  simpl. apply IH. by apply execute_one_has_life.
Qed.

Lemma lookup_decrease_life (fs : Files) (a : string) (u : User) :
  USERS_FILE fs !! a = Some u -> 1 < life u ->
  USERS_FILE (decrease_life fs) !! a = Some (age u).
Proof.
  intros Hu Hl. unfold decrease_life. simpl.
  apply map_lookup_filter_Some. split; [by rewrite lookup_fmap, Hu|].
  simpl. lia.
Qed.

Lemma decrease_life_frame (fs : Files) :
  TX_POOL_FILE (decrease_life fs) = TX_POOL_FILE fs /\
  TX_EXECUTED_FILE (decrease_life fs) = TX_EXECUTED_FILE fs /\
  MINER_POOL_FILE (decrease_life fs) = MINER_POOL_FILE fs /\
  CURRENT_GROUP_FILE (decrease_life fs) = CURRENT_GROUP_FILE fs /\
  GROUPS_DIR (decrease_life fs) = GROUPS_DIR fs /\
  BLOCKS_DIR (decrease_life fs) = BLOCKS_DIR fs.
Proof. done. Qed.

Lemma put_length {V} (k : string) (v : V) (d : odict V) :
  (length d <= length (put k v d))%nat.
Proof.
  induction d as [|[k' v'] d IH]; simpl; [lia|].
  destruct (String.eqb k k'); simpl; lia.
Qed.

(** A turn of the loop never shrinks the miner pool. *)
Lemma execute_one_pool (now : Z) (us : gmap string User) (mp : odict Z)
    (ex : odict Executed) (entry : string * Tx) :
  (length mp <= length (execute_one now (us, mp, ex) entry).1.2)%nat.
Proof.
  unfold execute_one. destruct entry as [txid tx].
  destruct (us !! tx_from tx) as [s|]; [|done].
  repeat case_match; simplify_eq/=; try lia; apply put_length.
Qed.

Lemma execute_pool_pool (now : Z) (pool : odict Tx)
    (acc : gmap string User * odict Z * odict Executed) :
  (length acc.1.2 <= length (fold_left (execute_one now) pool acc).1.2)%nat.
Proof.
  revert acc; induction pool as [|entry pool IH]; intros [[us mp] ex]; [done|].
  simpl. etrans; [|apply IH]. apply execute_one_pool.
Qed.

(** A miner who is a user with more than one life left and a member of the
    current group gets a proposal; the call leaves the users file with every
    life decremented; the proposal carries the current group unchanged. *)
Lemma execute_transactions_runs (now : Z) (miner : string) (fs : Files) (u : User) :
  USERS_FILE fs !! miner = Some u ->
  contains miner (miners (CURRENT_GROUP_FILE fs)) = true ->
  1 < life u ->
  exists st,
    execute_transactions now miner fs = (Some st, decrease_life fs) /\
    current_group st = CURRENT_GROUP_FILE fs /\
    has_life miner (life u - 1) (users st) /\
    (length (MINER_POOL_FILE fs) <= length (miner_pool st))%nat.
Proof.
  intros Hu Hg Hl. unfold execute_transactions.
  assert (H1 : has_user miner (USERS_FILE fs) = true)
    by (apply bool_decide_eq_true; by exists u).
  pose proof (lookup_decrease_life fs miner u Hu Hl) as Hu'.
  assert (H2 : has_user miner (USERS_FILE (decrease_life fs)) = true)
    by (apply bool_decide_eq_true; by exists (age u)).
  rewrite H1. unfold get_group. rewrite Hg. cbv zeta. rewrite H2. simpl negb.
  cbv iota.
  pose proof (execute_pool_has_life now (TX_POOL_FILE (decrease_life fs))
                (USERS_FILE (decrease_life fs), MINER_POOL_FILE (decrease_life fs), [])
                miner (life u - 1)) as Hk.
  destruct (fold_left _ _ _) as [[us1 mp1] ex1] eqn:E.
  eexists. split; [reflexivity|]. split; [done|]. split.
  - simpl. apply has_life_alter; [done|]. apply Hk. by exists (age u).
  - simpl.
    pose proof (execute_pool_pool now (TX_POOL_FILE (decrease_life fs))
                  (USERS_FILE (decrease_life fs),
                   MINER_POOL_FILE (decrease_life fs), [])) as Hp.
    by rewrite E in Hp.
Qed.

End Executor.

(** C3.  A miner who is a user with more than two lives left and a member of
    the current group runs the executor twice over the same files: the first
    call rewrites the users file (the miner's entry has lost a life; the pool
    files stay as they were), so the second call starts from other users
    and returns another proposal. *)
Theorem executor_rewrites_users_file (now : Z) (miner : string) (fs : Gui.Files)
    (u : Data.User) :
  Gui.USERS_FILE fs !! miner = Some u ->
  Py.contains miner (Data.miners (Gui.CURRENT_GROUP_FILE fs)) = true ->
  2 < Data.life u ->
  exists st1 st2 fs1 fs2,
    Gui.execute_transactions now miner fs = (Some st1, fs1) /\
    Gui.execute_transactions now miner fs1 = (Some st2, fs2) /\
    Gui.USERS_FILE fs1 !! miner = Some (Gui.age u) /\
    Gui.USERS_FILE fs1 ≠ Gui.USERS_FILE fs /\
    Gui.TX_POOL_FILE fs1 = Gui.TX_POOL_FILE fs /\
    Gui.MINER_POOL_FILE fs1 = Gui.MINER_POOL_FILE fs /\
    Checks.has_life miner (Data.life u - 1) (Data.users st1) /\
    Checks.has_life miner (Data.life u - 2) (Data.users st2) /\
    st1 ≠ st2.
Proof.
  intros Hu Hg Hl.
  destruct (execute_transactions_runs now miner fs u Hu Hg) as (st1 & E1 & _ & Hl1 & _);
    [lia|].
  pose proof (lookup_decrease_life fs miner u Hu) as Hu1.
  destruct (execute_transactions_runs now miner (Gui.decrease_life fs) (Gui.age u))
    as (st2 & E2 & _ & Hl2 & _); [apply Hu1; lia|done|simpl; lia|].
  exists st1, st2, (Gui.decrease_life fs), (Gui.decrease_life (Gui.decrease_life fs)).
  split; [done|]. split; [done|]. split; [apply Hu1; lia|].
  split; [|split; [done|split; [done|split; [done|split]]]].
  - intros Heq. rewrite <- Heq in Hu. rewrite Hu1 in Hu by lia.
    injection Hu as Hu. apply (f_equal Data.life) in Hu. simpl in Hu. lia.
  - simpl in Hl2. by replace (Data.life u - 2) with (Data.life u - 1 - 1) by lia.
  - intros ->. destruct Hl1 as (u1 & Hu1' & Hlife1), Hl2 as (u2 & Hu2' & Hlife2).
    simpl in Hlife2. rewrite Hu1' in Hu2'. injection Hu2' as <-. lia.
Qed.

Lemma executor_rewrites_users_file_witness :
  Gui.USERS_FILE (Gui.execute_transactions 1700000000 "M" Fixtures.files_one_miner).2
  ≠ Gui.USERS_FILE Fixtures.files_one_miner.
Proof.
  destruct (executor_rewrites_users_file 1700000000 "M" Fixtures.files_one_miner
              (Fixtures.user "M" 0 1000).2)
    as (st1 & st2 & fs1 & fs2 & E1 & _ & _ & Hne & _).
  - vm_compute. reflexivity.
  - vm_compute. reflexivity.
  - vm_compute. reflexivity.
  - rewrite E1. exact Hne.
Defined.

(** C1.  The node [node_idle] proposes a state and then receives the same
    signature message 100 times, signed by ["EVE"], who is not in the roster
    the committee is drawn from.  The list of collected messages reaches 100
    entries, so the node broadcasts [FINAL_UPDATE] with these 100 entries and
    installs the state (one block file, the users of the proposal); the check
    that counts distinct committee members, [verify_aggregated_signature],
    rejects the same list. *)
Theorem hundred_copies_of_one_signature_finalize `{H : Py.Hashing} :
  let self := Gui.mine_cycle 1700000000 Fixtures.node_idle in
  exists st,
    (Gui.execute_transactions 1700000000 "M" Fixtures.files_one_miner).1 = Some st /\
    let h := Gui.hash_state st in
    let sigs := replicate 100 (Fixtures.eve_signature h) in
    let self' := fold_left (Gui.on_receive_signature 1700000001) sigs self in
    Gui.broadcasts self = [Gui.UPDATE_REQUEST st h "M" 5000] /\
    Gui.collected_signatures self !! h = Some [] /\
    Gui.broadcasts self' = [Gui.UPDATE_REQUEST st h "M" 5000; Gui.FINAL_UPDATE st h sigs] /\
    Gui.USERS_FILE (Gui.files self') = Data.users st /\
    size (Gui.BLOCKS_DIR (Gui.files self')) = 1%nat /\
    Py.contains "EVE" (Data.miners (Data.current_group st)) = false /\
    Consensus.verify_aggregated_signature sigs h
      (Py.keys (Data.miners (Data.current_group st))) = false.
Proof.
  destruct (execute_transactions_runs 1700000000 "M" Fixtures.files_one_miner
              (Fixtures.user "M" 0 1000).2)
    as (st & E & Hg & _); [vm_compute; reflexivity..|].
  intros self. exists st. rewrite E. split; [done|].
  intros h sigs self'.
  assert (Hself : self =
    Gui.with_timers (Some 60000) None
      (Gui.broadcast (Gui.UPDATE_REQUEST st h "M" 5000)
         (Gui.with_rounds {[h := {| Gui.upd_state := st; Gui.upd_state_hash := h |}]}
            {[h := []]}
            (Gui.with_files (Gui.decrease_life Fixtures.files_one_miner)
               Fixtures.node_idle)))).
  { unfold self, Gui.mine_cycle, Gui.mine. simpl Gui.is_mining. cbv iota. simpl negb.
    cbv iota zeta. simpl Gui.files. simpl Gui.addr. rewrite E. reflexivity. }
  destruct (hundredth_signature_finalizes 1700000001 self h
              {| Gui.upd_state := st; Gui.upd_state_hash := h |} sigs)
    as (Hb & Hf & _ & _).
  { rewrite Hself. simpl. apply lookup_insert_eq. }
  { rewrite Hself. simpl. apply lookup_insert_eq. }
  { apply Forall_forall. intros s Hs. by apply elem_of_replicate in Hs as [-> _]. }
  { apply length_replicate. }
  fold self' in Hb, Hf.
  split; [by rewrite Hself|]. split; [rewrite Hself; simpl; apply lookup_insert_eq|].
  split; [rewrite Hb, Hself; done|].
  rewrite Hf, apply_final_state_files. simpl.
  split; [done|]. split.
  { rewrite Hself. simpl. rewrite map_size_insert_None; [|done].
    by rewrite map_size_empty. }
  rewrite Hg. split; [vm_compute; reflexivity|].
  vm_compute. reflexivity.
Qed.

(** ** Balances *)

Section Balances.
Import Py Data Gui Checks.
Open Scope Q_scope.

Lemma balances_nonneg_spec (us : gmap string User) :
  balances_nonneg us = true <-> Nonneg us.
Proof.
  unfold balances_nonneg, Nonneg. rewrite map_Forall_to_list, forallb_forall.
  rewrite Forall_forall. split.
  - intros Hb [a u] Hin. apply Qle_bool_iff, (Hb (a, u)).
    by apply list_elem_of_In.
  - intros Hb [a u] Hin. apply Qle_bool_iff, (Hb (a, u)).
    by apply list_elem_of_In.
Qed.

Lemma nonneg_alter (f : User -> User) (k : string) (us : gmap string User) :
  Nonneg us ->
  (forall u, us !! k = Some u -> 0 <= balance u -> 0 <= balance (f u)) ->
  Nonneg (alter f k us).
Proof.
  intros Hn Hf a u Hu. rewrite lookup_alter in Hu.
  case_decide; [subst a|by apply (Hn a)].
  destruct (us !! k) as [v|] eqn:Hv; simplify_eq/=.
  apply Hf; [done|by apply (Hn k)].
Qed.

Lemma nonneg_debit (x : Q) (k : string) (s : User) (us : gmap string User) :
  Nonneg us -> us !! k = Some s -> Qle_bool x (balance s) = true ->
  Nonneg (alter (debit x) k us).
Proof.
  intros Hn Hs Hx. apply nonneg_alter; [done|].
  intros u Hu _. simplify_eq. apply Qle_bool_iff in Hx. simpl. lra.
Qed.

(** A turn of the loop keeps balances non-negative when the amount of a
    transfer is not negative. *)
Lemma execute_one_nonneg (now : Z) (us : gmap string User) (mp : odict Z)
    (ex : odict Executed) (entry : string * Tx) :
  (tx_type entry.2 = "transfer" -> 0 <= amount entry.2) ->
  Nonneg us -> Nonneg (execute_one now (us, mp, ex) entry).1.1.
Proof.
  intros Hamt Hn. unfold execute_one. destruct entry as [txid tx]. simpl in Hamt.
  destruct (us !! tx_from tx) as [s|] eqn:Hs; [|done].
  destruct (String.eqb (tx_type tx) "transfer") eqn:Et.
  { apply String.eqb_eq in Et. specialize (Hamt Et).
    destruct (has_user (tx_to tx) us && Qle_bool (amount tx + fee tx) (balance s))
      eqn:Ec; [|done].
    apply andb_true_iff in Ec as [_ Ec]. simpl.
    apply nonneg_alter; [|done].
    apply nonneg_alter; [by eapply nonneg_debit|].
    intros u _ Hu. simpl. lra. }
  destruct (String.eqb (tx_type tx) "new_account").
  { destruct (negb (has_user (tx_to tx) us) && Qle_bool (fee tx) (balance s))
      eqn:Ec; [|done].
    apply andb_true_iff in Ec as [_ Ec]. simpl.
    apply nonneg_alter; [|done].
    apply map_Forall_insert_2; [simpl; lra|]. by eapply nonneg_debit. }
  destruct (String.eqb (tx_type tx) "join_pool"); [|done].
  destruct (Qle_bool (fee tx) (balance s)) eqn:Ec; [|done]. simpl.
  apply nonneg_alter; [|done]. by eapply nonneg_debit.
Qed.

Lemma execute_pool_nonneg (now : Z) (pool : odict Tx)
    (acc : gmap string User * odict Z * odict Executed) :
  Forall (fun kv => tx_type kv.2 = "transfer" -> 0 <= amount kv.2) pool ->
  Nonneg acc.1.1 -> Nonneg (fold_left (execute_one now) pool acc).1.1.
Proof.
  revert acc; induction pool as [|entry pool IH]; intros [[us mp] ex] Hp Hn; [done|].
  apply Forall_cons in Hp as [He Hp]. simpl. apply IH; [done|].
  by apply execute_one_nonneg.
Qed.

Lemma decrease_life_nonneg (fs : Files) :
  Nonneg (USERS_FILE fs) -> Nonneg (USERS_FILE (decrease_life fs)).
Proof.
  intros Hn a u Hu. unfold decrease_life in Hu. simpl in Hu.
  apply map_lookup_filter_Some in Hu as [Hu _].
  rewrite lookup_fmap in Hu.
  destruct (USERS_FILE fs !! a) as [v|] eqn:Hv; simplify_eq/=.
  by apply (Hn a).
Qed.

(** Where no pooled transfer has a negative amount, the executor keeps all
    balances non-negative. *)
Lemma executor_keeps_balances_nonneg (now : Z) (miner : string) (fs : Files)
    (st : State) :
  Nonneg (USERS_FILE fs) ->
  Forall (fun kv => tx_type kv.2 = "transfer" -> 0 <= amount kv.2) (TX_POOL_FILE fs) ->
  (execute_transactions now miner fs).1 = Some st ->
  Nonneg (users st).
Proof.
  intros Hn Hp. unfold execute_transactions.
  destruct (negb (has_user miner (USERS_FILE fs))); [done|].
  destruct (negb (contains miner (miners (get_group fs)))); [done|]. cbv zeta.
  destruct (negb (has_user miner (USERS_FILE (decrease_life fs)))); [done|].
  pose proof (execute_pool_nonneg now (TX_POOL_FILE (decrease_life fs))
                (USERS_FILE (decrease_life fs), MINER_POOL_FILE (decrease_life fs), [])
                Hp (decrease_life_nonneg fs Hn)) as Hk.
  destruct (fold_left _ _ _) as [[us1 mp1] ex1].
  simpl. intros [= <-]. simpl.
  apply nonneg_alter; [done|]. intros u _ Hu. simpl. lra.
Qed.

End Balances.

(** C6.  All balances in [files_overdraw] are zero; the pool holds one
    transfer of -5 from ["A"] to ["B"].  The executor executes it: the
    proposal records it, credits ["A"] with 5 and leaves ["B"] at -5. *)
Theorem negative_amount_overdraws_receiver :
  let r := (Gui.execute_transactions 1700000000 "M" Fixtures.files_overdraw).1 in
  Checks.balances_nonneg (Gui.USERS_FILE Fixtures.files_overdraw) = true /\
  Checks.executed_in "t1" r = true /\
  Checks.balance_in "A" r = Some (5 # 1)%Q /\
  Checks.balance_in "B" r = Some (-5 # 1)%Q /\
  (Checks.balances_nonneg ∘ Data.users <$> r) = Some false.
Proof. vm_compute. repeat split. Qed.

(** ** The blocks table *)

Section Blocks.
Import Py Data Storage.

Lemma foldr_later_spec {V} (l : list (Z * V)) :
  match foldr later None l with
  | None => l = []
  | Some kv => kv ∈ l /\ Forall (fun kv' => kv'.1 <= kv.1) l
  end.
Proof.
  induction l as [|kv l IH]; [done|]. simpl.
  destruct (foldr later None l) as [best|]; simpl.
  - destruct IH as [Hin Hall]. destruct (Z.ltb_spec best.1 kv.1).
    + split; [by left|]. constructor; [lia|].
      eapply Forall_impl; [exact Hall|]. simpl. intros; lia.
    + split; [by right|]. by constructor.
  - subst l. split; [by left|]. by constructor.
Qed.

(** [last_row] is the row with the largest key. *)
Lemma last_row_Some {V} (t : gmap Z V) (k : Z) (v : V) :
  last_row t = Some (k, v) ->
  t !! k = Some v /\ forall k', is_Some (t !! k') -> k' <= k.
Proof.
  unfold last_row. intros Hl.
  pose proof (foldr_later_spec (map_to_list t)) as Hs.
  rewrite Hl in Hs. destruct Hs as [Hin Hall].
  split; [by apply elem_of_map_to_list|].
  intros k' [v' Hv']. rewrite Forall_forall in Hall.
  by apply (Hall (k', v')), elem_of_map_to_list.
Qed.

Lemma last_row_insert_above {V} (t : gmap Z V) (k : Z) (v : V) :
  (forall k', is_Some (t !! k') -> k' < k) ->
  last_row (<[k := v]> t) = Some (k, v).
Proof.
  intros Habove. unfold last_row.
  pose proof (foldr_later_spec (map_to_list (<[k := v]> t))) as Hs.
  destruct (foldr later None (map_to_list (<[k := v]> t))) as [[k1 v1]|].
  - destruct Hs as [Hin Hall]. rewrite Forall_forall in Hall.
    apply elem_of_map_to_list in Hin.
    assert (Hk : k <= k1).
    { apply (Hall (k, v)), elem_of_map_to_list, lookup_insert_eq. }
    destruct (decide (k = k1)) as [<-|Hne].
    + rewrite lookup_insert_eq in Hin. by simplify_eq.
    + rewrite lookup_insert_ne in Hin by done.
      assert (k1 < k) by (apply Habove; by exists v1). lia.
  - apply (f_equal length) in Hs. rewrite length_map_to_list in Hs.
    simpl in Hs.
    assert (Hne : <[k := v]> t ≠ ∅) by apply insert_non_empty.
    by apply map_size_non_empty_iff in Hne.
Qed.

Lemma block_of_row_of_block (b : Block) :
  block_of_row (block_number b, row_of_block b) = b.
Proof. by destruct b. Qed.

Lemma get_block_save_block (b : Block) (db : Db) (n : Z) :
  get_block n (save_block b db)
  = if decide (n = block_number b) then Some b else get_block n db.
Proof.
  unfold get_block, save_block. simpl. case_decide as Hn.
  - subst n. rewrite lookup_insert_eq. simpl. by rewrite block_of_row_of_block.
  - by rewrite lookup_insert_ne.
Qed.

End Blocks.




(** ** State hashes *)

Lemma stored_state_apply_final_state `{H : Py.Hashing} (now : Z) (state : Data.State)
    (signatures : list Consensus.Signature) (self : Gui.Main) :
  Gui.stored_state (Gui.files (Gui.apply_final_state now state signatures self)) = state.
Proof. rewrite apply_final_state_files. by destruct state. Qed.

(** C2 (amended).  In libre_network_gui.py every state hash is the SHA-256 of
    the sorted-key JSON text of the dict with exactly the keys [users],
    [miner_pool], [current_group] and [tx_executed]: the hash [mine] attaches
    to a proposal, the hash in the block file that [apply_final_state] writes,
    and the hash [compute_state_hash] reads back from the files once that
    state is installed are the same.  In storage.py the hashed dict has the
    keys [users], [miner_pool], [latest_group] and [latest_block_hash], and
    that hash of the database, not a hash of the finalized state, is what
    [create_block] puts in the block. *)
Theorem state_hash_documents `{H : Py.Hashing} (now : Z) (miner : string)
    (fs : Gui.Files) (state : Data.State) (signatures : list Consensus.Signature)
    (self : Gui.Main) (group_id : Z) (db : Storage.Db) :
  Py.json_keys (Data.state_json state)
    = ["users"; "miner_pool"; "current_group"; "tx_executed"] /\
  Gui.compute_state_hash fs
    = Py.sha256_hexdigest (Py.json_dumps_sorted (Data.state_json (Gui.stored_state fs))) /\
  match (Gui.mine now miner fs).1 with
  | Some update =>
      (Gui.execute_transactions now miner fs).1 = Some (Gui.upd_state update) /\
      Gui.upd_state_hash update
        = Py.sha256_hexdigest (Py.json_dumps_sorted (Data.state_json (Gui.upd_state update)))
  | None => (Gui.execute_transactions now miner fs).1 = None
  end /\
  (let installed := Gui.files (Gui.apply_final_state now state signatures self) in
   Gui.compute_state_hash installed = Gui.hash_state state /\
   Gui.file_state_hash
     <$> Gui.BLOCKS_DIR installed
           !! ("block_"
               ++ Py.str (Z.of_nat (size (Gui.BLOCKS_DIR (Gui.files self))) + 1)
               ++ ".json")
   = Some (Gui.hash_state state)) /\
  Py.json_keys (Storage.state_document db)
    = ["users"; "miner_pool"; "latest_group"; "latest_block_hash"] /\
  Storage.compute_state_hash db
    = Py.sha256_hexdigest (Py.json_dumps_sorted (Storage.state_document db)) /\
  match Blockchain.create_block now state miner signatures group_id db with
  | Some (blk, _) => Storage.state_hash blk = Storage.compute_state_hash db
  | None => Storage.get_latest_block db = None
  end.
Proof.
  split; [done|]. split; [done|]. split.
  { unfold Gui.mine.
    destruct (Gui.execute_transactions now miner fs) as [[st|] fs1]; done. }
  split.
  { split.
    - unfold Gui.compute_state_hash. by rewrite stored_state_apply_final_state.
    - rewrite apply_final_state_files. simpl. by rewrite lookup_insert_eq. }
  split; [done|]. split; [done|].
  unfold Blockchain.create_block. by destruct (Storage.get_latest_block db).
Qed.

(** C2, as stated, fails: the dict that storage.py hashes is never the dict
    that libre_network_gui.py hashes, whatever the database and the state;
    for instance for a node that has just started. *)
Lemma storage_and_gui_hash_different_documents :
  Storage.state_document Fixtures.db_genesis
    ≠ Data.state_json (Gui.stored_state Fixtures.files_initial) /\
  ~ exists (db : Storage.Db) (state : Data.State),
      Py.json_keys (Storage.state_document db) ≡ₚ Py.json_keys (Data.state_json state).
Proof.
  split.
  - intros Heq. apply (f_equal Py.json_keys) in Heq. discriminate Heq.
  - intros (db & state & Hperm).
    assert (Hin : "tx_executed" ∈ Py.json_keys (Storage.state_document db)).
    { rewrite Hperm. apply list_elem_of_In. simpl. tauto. }
    apply list_elem_of_In in Hin. simpl in Hin.
    repeat (destruct Hin as [Hin|Hin]; [discriminate Hin|]). done.
Qed.

(** ** Group rotation *)

Section Rotation.
Import Py Data Gui Checks.
Context `{R : Random}.

Lemma get_elem_of {V} (k : string) (v : V) (d : odict V) :
  get k d = Some v -> (k, v) ∈ d.
Proof.
  induction d as [|[k' v'] d IH]; simpl; [done|].
  destruct (String.eqb_spec k k') as [->|Hne].
  - intros [= ->]. by left.
  - intros Hg. right. by apply IH.
Qed.

Lemma get_of_key {V} (k : string) (d : odict V) :
  k ∈ keys d -> exists v, get k d = Some v.
Proof.
  induction d as [|[k' v'] d IH]; simpl; [by intros ?%elem_of_nil|].
  destruct (String.eqb_spec k k') as [->|Hne]; [eauto|].
  intros [Heq|Hin]%elem_of_cons; [done|by apply IH].
Qed.

Lemma put_fresh {V} (k : string) (v : V) (d : odict V) :
  k ∉ keys d -> put k v d = (d ++ [(k, v)])%list.
Proof.
  induction d as [|[k' v'] d IH]; simpl; [done|].
  intros Hk. apply not_elem_of_cons in Hk as [Hne Hk].
  destruct (String.eqb_spec k k'); [done|]. by rewrite IH.
Qed.

(** Sampled addresses are copied from the pool with their join times, in
    the order they were drawn. *)
Lemma pick_miners_from (pool : odict Z) (lucky : list string) (acc : odict Z) :
  NoDup (keys acc ++ lucky) -> lucky ⊆ keys pool -> acc ⊆ pool ->
  exists selected,
    fold_left (pick_miner pool) lucky (Some acc) = Some selected /\
    keys selected = (keys acc ++ lucky)%list /\ selected ⊆ pool.
Proof.
  revert acc; induction lucky as [|m lucky IH]; intros acc Hnd Hsub Hacc.
  - exists acc. by rewrite app_nil_r.
  - simpl. destruct (get_of_key m pool) as [v Hv]; [apply Hsub; by left|].
    change (pick_miner pool (Some acc) m) with
      (match get m pool with
       | Some joined => Some (put m joined acc)
       | None => None
       end).
    rewrite Hv.
    assert (Hm : m ∉ keys acc).
    { apply NoDup_app in Hnd as (_ & Hd & _). intros Hin. apply (Hd m Hin). by left. }
    rewrite put_fresh by done.
    destruct (IH (acc ++ [(m, v)])%list) as (sel & Hf & Hk & Hs).
    + unfold keys. rewrite map_app. simpl. by rewrite <- app_assoc.
    + intros x Hx. apply Hsub. by right.
    + intros x [Hx|Hx]%elem_of_app; [by apply Hacc|].
      apply list_elem_of_singleton in Hx as ->. by apply get_elem_of.
    + exists sel. split; [done|]. split; [|done].
      rewrite Hk. unfold keys. rewrite map_app. simpl. by rewrite <- app_assoc.
Qed.

Lemma create_group_small (now : Z) (g : rng) (fs : Files) :
  Z.of_nat (length (MINER_POOL_FILE fs)) < 1000 ->
  create_group now g fs = Some (false, g, fs).
Proof.
  intros Hl. unfold create_group. unfold keys. rewrite length_map.
  apply Z.ltb_lt in Hl. by rewrite Hl.
Qed.

Lemma create_group_whole_pool (now : Z) (g : rng) (fs : Files) :
  1000 <= Z.of_nat (length (MINER_POOL_FILE fs)) <= 100000 ->
  create_group now g fs = Some (true, g, rotated_files now (MINER_POOL_FILE fs) fs).
Proof.
  intros [Hl Hu]. unfold create_group. unfold keys. rewrite length_map.
  apply Z.ltb_ge in Hl, Hu. by rewrite Hl, Hu.
Qed.

Lemma create_group_sampled (now : Z) (g : rng) (fs : Files) :
  NoDup (keys (MINER_POOL_FILE fs)) ->
  100000 < Z.of_nat (length (MINER_POOL_FILE fs)) ->
  exists lucky g' members,
    sample (rng_seed (group_id (CURRENT_GROUP_FILE fs) + 1))
      (keys (MINER_POOL_FILE fs)) (Z.to_nat 100000) = Some (lucky, g') /\
    length lucky = Z.to_nat 100000 /\ NoDup lucky /\
    keys members = lucky /\ members ⊆ MINER_POOL_FILE fs /\
    create_group now g fs = Some (true, g', rotated_files now members fs).
Proof.
  intros Hnd Hl.
  destruct (sample_draws (rng_seed (group_id (CURRENT_GROUP_FILE fs) + 1))
              (keys (MINER_POOL_FILE fs)) (Z.to_nat 100000))
    as (lucky & g' & Hs & Hlen & Hlnd & Hsub); [unfold keys; rewrite length_map; lia|done|].
  destruct (pick_miners_from (MINER_POOL_FILE fs) lucky []) as (sel & Hf & Hk & Hsel);
    [done|done|by intros x ?%elem_of_nil|].
  exists lucky, g', sel. do 5 (split; [done|]).
  assert (Hp : pick_miners (MINER_POOL_FILE fs) lucky = Some sel) by exact Hf.
  unfold create_group, get_group.
  assert (H1 : (Z.of_nat (length (keys (MINER_POOL_FILE fs))) <? 1000) = false)
    by (apply Z.ltb_ge; unfold keys; rewrite length_map; lia).
  assert (H2 : (100000 <? Z.of_nat (length (keys (MINER_POOL_FILE fs)))) = true)
    by (apply Z.ltb_lt; unfold keys; rewrite length_map; lia).
  rewrite H1, H2. cbv zeta. rewrite Hs. cbv beta iota. rewrite Hp. reflexivity.
Qed.

End Rotation.

(** C9 (amended).  [create_group] leaves everything as it is and returns
    [False] while the miner pool has fewer than 1000 entries.  From 1000
    entries on it writes a new current group with the next group id (also
    under [groups/group_<id>.json]) and empties the miner pool: the group's
    miners are the whole pool when it has at most 100,000 entries, and
    otherwise exactly 100,000 distinct entries of the pool, drawn by
    [random.sample], seeded with the group id, from the pool's addresses in
    the order they are stored. *)
Theorem create_group_rotation `{R : Py.Random} (now : Z) (g : Py.rng) (fs : Gui.Files) :
  NoDup (Py.keys (Gui.MINER_POOL_FILE fs)) ->
  let pool := Gui.MINER_POOL_FILE fs in
  let gid := Data.group_id (Gui.CURRENT_GROUP_FILE fs) + 1 in
  (Z.of_nat (length pool) < 1000 -> Gui.create_group now g fs = Some (false, g, fs)) /\
  (1000 <= Z.of_nat (length pool) ->
   exists members g' fs',
     Gui.create_group now g fs = Some (true, g', fs') /\
     Gui.CURRENT_GROUP_FILE fs'
       = {| Data.group_id := gid; Data.miners := members;
            Data.created_at := now; Data.updates := 0 |} /\
     Gui.GROUPS_DIR fs' !! ("group_" ++ Py.str gid ++ ".json")
       = Some (Gui.CURRENT_GROUP_FILE fs') /\
     Gui.MINER_POOL_FILE fs' = [] /\
     Gui.USERS_FILE fs' = Gui.USERS_FILE fs /\
     Gui.TX_POOL_FILE fs' = Gui.TX_POOL_FILE fs /\
     (Z.of_nat (length pool) <= 100000 -> members = pool /\ g' = g) /\
     (100000 < Z.of_nat (length pool) ->
      Py.sample (Py.rng_seed gid) (Py.keys pool) (Z.to_nat 100000)
        = Some (Py.keys members, g') /\
      Z.of_nat (length members) = 100000 /\
      NoDup (Py.keys members) /\ members ⊆ pool)).
Proof.
  intros Hnd. cbv zeta. split; [apply create_group_small|].
  intros Hl.
  destruct (Z.le_gt_cases (Z.of_nat (length (Gui.MINER_POOL_FILE fs))) 100000) as [Hu|Hu].
  - exists (Gui.MINER_POOL_FILE fs), g, (Checks.rotated_files now (Gui.MINER_POOL_FILE fs) fs).
    split; [by apply create_group_whole_pool|].
    split; [done|]. split; [apply lookup_insert_eq|].
    split; [done|]. split; [done|]. split; [done|].
    split; [done|]. intros. exfalso. lia.
  - destruct (create_group_sampled now g fs Hnd) as
      (lucky & g' & members & Hs & Hlen & Hlnd & Hk & Hsub & Hc); [lia|].
    exists members, g', (Checks.rotated_files now members fs).
    split; [done|]. split; [done|]. split; [apply lookup_insert_eq|].
    split; [done|]. split; [done|]. split; [done|].
    split; [intros; exfalso; lia|]. intros _. rewrite Hk.
    split; [done|]. split; [|done].
    rewrite <- (length_keys members), Hk, Hlen. lia.
Qed.

Lemma create_group_rotation_witness :
  exists fs',
    Gui.create_group (R := rotating_random) 5 0 Fixtures.files_full_pool
      = Some (true, 0, fs') /\
    Gui.MINER_POOL_FILE fs' = [] /\
    Data.group_id (Gui.CURRENT_GROUP_FILE fs') = 2.
Proof.
  destruct (create_group_rotation (R := rotating_random) 5 0 Fixtures.files_full_pool)
    as [_ Hrot].
  - change (NoDup (Py.keys (Fixtures.pool_of (Fixtures.ascending 1000)))).
    rewrite keys_pool_of. apply strictly_ascending_NoDup. vm_compute. reflexivity.
  - destruct Hrot as (members & g' & fs' & Hc & Hg & _ & Hp & _ & _ & Hsmall & _).
    + vm_compute. discriminate.
    + destruct Hsmall as [_ ->]; [vm_compute; discriminate|].
      exists fs'. split; [exact Hc|]. split; [exact Hp|]. rewrite Hg. reflexivity.
Defined.

(** ** A pool of 100,001 addresses *)

Lemma same_list_eq (l1 l2 : list string) : Checks.same_list l1 l2 = true -> l1 = l2.
Proof.
  revert l2; induction l1 as [|a l1 IH]; intros [|b l2] Hs; simpl in Hs; try done.
  apply andb_true_iff in Hs as [Hab Hs]. apply String.eqb_eq in Hab.
  by rewrite Hab, (IH l2 Hs).
Qed.

(** What [rotation_checks] establishes. *)
Lemma rotation_checks_sound (n : nat) (rot asc : list string) :
  Checks.rotation_checks n rot asc = true ->
  length rot = S n /\ length asc = S n /\ NoDup asc /\
  (forall i, (i < S n)%nat -> nth i rot "" ≠ nth i asc "") /\
  Spec.sort_addresses rot = asc.
Proof.
  unfold Checks.rotation_checks. intros Hc.
  apply andb_true_iff in Hc as [Hc Hsort].
  apply andb_true_iff in Hc as [Hc Hdiff].
  apply andb_true_iff in Hc as [Hc Hasc].
  apply andb_true_iff in Hc as [Hl1 Hl2].
  apply Nat.eqb_eq in Hl1, Hl2.
  split; [exact Hl1|]. split; [exact Hl2|].
  split; [by apply strictly_ascending_NoDup|].
  split; [|by apply same_list_eq].
  intros i Hi. apply differ_everywhere_nth; [exact Hdiff|lia|lia].
Qed.

(** Where the checks hold and the two lists have the same elements, no
    generator draws from one the members it draws from the other. *)
Lemma checked_draw_differs `{R : Py.Random} (g : Py.rng) (n : nat)
    (rot asc : list string) :
  Checks.rotation_checks n rot asc = true -> rot ≡ₚ asc ->
  NoDup rot /\ length rot = S n /\ Spec.sort_addresses rot = asc /\
  exists c1 c2 g',
    Py.sample g rot n = Some (c1, g') /\
    Py.sample g asc n = Some (c2, g') /\
    exists x, x ∈ c2 /\ x ∉ c1.
Proof.
  intros Hc Hperm.
  destruct (rotation_checks_sound n rot asc Hc) as (Hl1 & Hl2 & Hnd & Hdiff & Hsort).
  assert (Hnd1 : NoDup rot) by (by rewrite Hperm).
  split; [exact Hnd1|]. split; [exact Hl1|]. split; [exact Hsort|].
  apply sample_depends_on_order; try assumption.
  intros x Hx. by rewrite <- Hperm.
Qed.

Lemma large_pool_checks :
  Checks.rotation_checks (Z.to_nat 100000) (Fixtures.rotated Fixtures.large)
    (Fixtures.ascending Fixtures.large) = true.
Proof. vm_compute. reflexivity. Qed.

Lemma new_roster_rotated_files `{R : Py.Random} (b : bool) (g : Py.rng) (now : Z)
    (members : Py.odict Z) (fs : Gui.Files) :
  Checks.new_roster (Some (b, g, Checks.rotated_files now members fs))
  = Some (Py.keys members, g).
Proof. reflexivity. Qed.

Lemma length_pool_of (l : list string) : length (Fixtures.pool_of l) = length l.
Proof. apply length_map. Qed.

(** The group [create_group] forms from a pool of [n + 1 > 100,000] addresses
    that passes the checks against its sorted self has other members than
    the group drawn from the sorted addresses. *)
Lemma create_group_ignores_order `{R : Py.Random} (now : Z) (g : Py.rng)
    (fs : Gui.Files) (rot asc : list string) :
  Gui.MINER_POOL_FILE fs = Fixtures.pool_of rot ->
  Checks.rotation_checks (Z.to_nat 100000) rot asc = true -> rot ≡ₚ asc ->
  ~ Checks.same_committee
      (Checks.new_roster (Gui.create_group now g fs))
      (Spec.rotate_large_pool (Data.group_id (Gui.CURRENT_GROUP_FILE fs) + 1)
         (Gui.MINER_POOL_FILE fs)).
Proof.
  intros Hpool Hc Hperm Hsame.
  destruct (checked_draw_differs
              (Py.rng_seed (Data.group_id (Gui.CURRENT_GROUP_FILE fs) + 1))
              (Z.to_nat 100000) rot asc Hc Hperm)
    as (Hnd & Hlen & Hsort & c1 & c2 & g' & E1 & E2 & x & Hx2 & Hx1).
  destruct (create_group_sampled now g fs)
    as (lucky & g1 & members & Hs & _ & _ & Hk & _ & Hcg).
  { by rewrite Hpool, keys_pool_of. }
  { rewrite Hpool, length_pool_of, Hlen. lia. }
  rewrite Hpool, keys_pool_of, E1 in Hs. injection Hs as <- <-.
  rewrite Hcg, new_roster_rotated_files, Hk in Hsame.
  unfold Spec.rotate_large_pool in Hsame.
  rewrite Hpool, keys_pool_of, Hsort, E2 in Hsame.
  inversion Hsame as [? ? Hm|]; subst. simpl in Hm. by apply Hx1, Hm.
Qed.

(** C9, as stated, fails.  With 999 entries in the miner pool and a pooled
    request to join it, the pool reaches 1000 entries during the round, and the
    proposal still carries group 1 and the 1000 entries.  And from the pool
    of 100,001 addresses [files_large_pool], whatever generator [random] is,
    the members [create_group] draws are not those drawn from the addresses
    sorted in ascending order. *)
Lemma rotation_not_in_executor_nor_sorted :
  Checks.rotation_in
    (Gui.execute_transactions 1700000000 "M" Fixtures.files_pool_filling).1
    = Some (1, 1000%nat) /\
  ~ exists R : Py.Random,
      Checks.same_committee
        (Checks.new_roster (Gui.create_group 0 (Py.rng_seed 0) Fixtures.files_large_pool))
        (Spec.rotate_large_pool 2 (Gui.MINER_POOL_FILE Fixtures.files_large_pool)).
Proof.
  split; [vm_compute; reflexivity|].
  intros [R Hsame].
  apply (create_group_ignores_order 0 (Py.rng_seed 0) Fixtures.files_large_pool
           (Fixtures.rotated Fixtures.large) (Fixtures.ascending Fixtures.large)).
  - reflexivity.
  - exact large_pool_checks.
  - exact (rotated_permutation (Z.to_nat 100000)).
  - exact Hsame.
Qed.

(** * Further properties of the code *)

#[local] Set Warnings "-clear-no-such-hyp".

(** * Further properties of the code *)

(** ** Counting signatures (consensus.py) *)

Section Counting.
Import Py Consensus Views.

Lemma existsb_eqb_elem_of (a : string) (l : list string) :
  existsb (String.eqb a) l = true <-> a ∈ l.
Proof.
  rewrite existsb_exists. split.
  - intros (x & Hin & Heq). apply String.eqb_eq in Heq. subst.
    by apply list_elem_of_In.
  - intros Hin. exists a. split; [by apply list_elem_of_In|apply String.eqb_refl].
Qed.

Lemma elem_of_signers_among (m : string) (selected : list string)
    (signatures : list Signature) :
  m ∈ signers_among selected signatures <->
  m ∈ selected /\ m ∈ map signer signatures.
Proof.
  unfold signers_among. rewrite elem_of_list_to_set, list_elem_of_In, filter_In.
  rewrite existsb_eqb_elem_of, <- list_elem_of_In. tauto.
Qed.

Lemma signers_among_cons (selected : list string) (s : Signature)
    (signatures : list Signature) :
  signers_among selected (s :: signatures)
  = (if existsb (String.eqb (signer s)) selected then {[signer s]} else ∅)
    ∪ signers_among selected signatures.
Proof.
  unfold signers_among. simpl.
  destruct (existsb (String.eqb (signer s)) selected); simpl; [done|].
  by rewrite (left_id_L ∅ (∪)).
Qed.

(** The count kept by the loop is the number of distinct selected signers
    met so far. *)
Lemma count_signatures_spec (h : string) (selected : list string)
    (signatures : list Signature) (n : nat) (seen : gset string) :
  n = size seen ->
  fold_left (count_signature h selected) signatures (n, seen)
  = (size (seen ∪ signers_among selected signatures),
     seen ∪ signers_among selected signatures).
Proof.
  revert n seen. induction signatures as [|s sigs IH]; intros n seen Hn.
  - simpl. change (signers_among selected []) with (∅ : gset string).
    rewrite (right_id_L ∅ (∪)). by subst.
  - simpl. rewrite signers_among_cons.
    change (count_signature h selected (n, seen) s)
      with (if existsb (String.eqb (signer s)) selected
               && negb (bool_decide (signer s ∈ seen))
            then (S n, {[signer s]} ∪ seen) else (n, seen)).
    destruct (existsb (String.eqb (signer s)) selected) eqn:Esel; simpl.
    + destruct (bool_decide (signer s ∈ seen)) eqn:Eseen; simpl.
      * apply bool_decide_eq_true in Eseen. rewrite IH by done.
        replace (seen ∪ ({[signer s]} ∪ signers_among selected sigs))
          with (seen ∪ signers_among selected sigs) by set_solver.
        done.
      * apply bool_decide_eq_false in Eseen.
        rewrite IH.
        -- replace ({[signer s]} ∪ seen ∪ signers_among selected sigs)
             with (seen ∪ ({[signer s]} ∪ signers_among selected sigs)) by set_solver.
           done.
        -- rewrite size_union by set_solver. rewrite size_singleton. lia.
    + rewrite IH by done. by rewrite (left_id_L ∅ (∪)).
Qed.

Lemma size_union_bound (X Y : gset string) : (size (X ∪ Y) <= size X + size Y)%nat.
Proof.
  rewrite size_union_alt.
  assert (size (Y ∖ X) <= size Y)%nat; [|lia].
  apply subseteq_size. intros x Hx. by apply elem_of_difference in Hx as [Hx _].
Qed.

Lemma size_signers_among_length (selected : list string)
    (signatures : list Signature) :
  (size (signers_among selected signatures) <= length signatures)%nat.
Proof.
  induction signatures as [|s sigs IH].
  - change (size (∅ : gset string) <= 0)%nat. by rewrite size_empty.
  - rewrite signers_among_cons. simpl.
    destruct (existsb (String.eqb (signer s)) selected).
    + etrans; [apply size_union_bound|]. rewrite size_singleton. lia.
    + rewrite (left_id_L ∅ (∪)). lia.
Qed.

Lemma size_signers_among_selected (selected : list string)
    (signatures : list Signature) :
  (size (signers_among selected signatures) <= length selected)%nat.
Proof.
  etrans; [apply (subseteq_size _ (list_to_set selected))|].
  - intros m Hm. apply elem_of_signers_among in Hm as [Hm _].
    by apply elem_of_list_to_set.
  - induction selected as [|a l IH]; simpl;
      [change (size (∅ : gset string) <= 0)%nat; by rewrite size_empty|].
    etrans; [apply size_union_bound|]. rewrite size_singleton. lia.
Qed.

End Counting.

Lemma aggregated_signature_counts_distinct_members_aux
    (signatures : list Consensus.Signature) (state_hash : string)
    (selected_miners : list string) :
  Consensus.verify_aggregated_signature signatures state_hash selected_miners = true
  <-> (100 <= size (Views.signers_among selected_miners signatures))%nat.
Proof.
  unfold Consensus.verify_aggregated_signature.
  rewrite (count_signatures_spec state_hash selected_miners signatures 0 ∅)
    by (by rewrite size_empty).
  rewrite (left_id_L ∅ (∪)).
  pose proof (size_signers_among_length selected_miners signatures) as Hle.
  destruct (Nat.ltb_spec (length signatures) 100) as [Hlt|Hge].
  - split; [done|lia].
  - by rewrite Nat.leb_le.
Qed.

(** X1.  [Consensus.verify_aggregated_signature] accepts a list of
    signatures exactly when at least 100 distinct members of
    [selected_miners] are among its signers: entries of the same signer count
    once, entries of other signers not at all, and the signature bytes play
    no part. *)
Theorem aggregated_signature_counts_distinct_members
    (signatures : list Consensus.Signature) (state_hash : string)
    (selected_miners : list string) :
  Consensus.verify_aggregated_signature signatures state_hash selected_miners = true
  <-> (100 <= size (Views.signers_among selected_miners signatures))%nat.
Proof. apply aggregated_signature_counts_distinct_members_aux. Qed.

(** ** The committee and the count *)

Section Unanimity.
Import Py Consensus Views.
Context `{R : Random}.

(** A committee has no address twice and as many members as the roster,
    up to 100. *)
Lemma selected_miners_shape (g g' : rng) (h : string) (roster : odict Z)
    (selected : list string) :
  NoDup (keys roster) ->
  get_selected_miners g h roster = Some (selected, g') ->
  NoDup selected /\ length selected = Nat.min 100 (length roster).
Proof.
  intros Hnd. unfold get_selected_miners.
  destruct (int16 (substring 0 16 h)) as [seed|]; [|done]. cbv zeta.
  rewrite <- (length_keys roster).
  destruct (Nat.leb_spec (length (keys roster)) 100) as [Hle|Hgt].
  - intros [= <- <-]. split; [done|lia].
  - intros Hs.
    destruct (sample_draws (rng_seed seed) (keys roster) 100) as
      (drawn & g2 & Hd & Hlen & Hdn & _); [lia|done|].
    rewrite Hs in Hd. injection Hd as <- <-. split; [done|lia].
Qed.

Lemma counts_whole_committee (selected : list string) (signatures : list Signature) :
  NoDup selected ->
  (length selected <= size (signers_among selected signatures))%nat <->
  forall m, m ∈ selected -> m ∈ map signer signatures.
Proof.
  intros Hnd.
  assert (Hsub : signers_among selected signatures ⊆ list_to_set selected).
  { intros m Hm. apply elem_of_signers_among in Hm as [Hm _].
    by apply elem_of_list_to_set. }
  pose proof (size_list_to_set (C := gset string) selected Hnd) as Hsize.
  split.
  - intros Hle m Hm.
    assert (Heq : signers_among selected signatures = list_to_set selected).
    { apply set_subseteq_size_eq; [done|lia]. }
    assert (Hin : m ∈ signers_among selected signatures).
    { rewrite Heq. by apply elem_of_list_to_set. }
    by apply elem_of_signers_among in Hin as [_ Hin].
  - intros Hall. rewrite <- Hsize. apply subseteq_size.
    intros m Hm. apply elem_of_list_to_set in Hm.
    apply elem_of_signers_among. auto.
Qed.

End Unanimity.

(** X2.  With a committee chosen by [Consensus.get_selected_miners] from a
    roster (a dict: no address twice), [verify_aggregated_signature] accepts
    exactly when the roster has at least 100 addresses and every member of
    the committee is among the signers.  So a group of fewer than 100 miners
    can never have a state validated, and in a larger one a single missing
    member of the committee blocks it. *)
Theorem validation_needs_every_selected_miner `{R : Py.Random} (g g' : Py.rng)
    (state_hash : string) (roster : Py.odict Z) (selected : list string)
    (signatures : list Consensus.Signature) :
  NoDup (Py.keys roster) ->
  Consensus.get_selected_miners g state_hash roster = Some (selected, g') ->
  Consensus.verify_aggregated_signature signatures state_hash selected = true
  <-> (100 <= length roster)%nat /\
      forall m, m ∈ selected -> m ∈ map Consensus.signer signatures.
Proof.
  intros Hnd Hsel.
  destruct (selected_miners_shape g g' state_hash roster selected Hnd Hsel)
    as [Hdn Hlen].
  rewrite aggregated_signature_counts_distinct_members_aux.
  pose proof (size_signers_among_selected selected signatures) as Hbound.
  rewrite <- (counts_whole_committee selected signatures Hdn).
  lia.
Qed.

Lemma validation_needs_every_selected_miner_witness :
  Consensus.verify_aggregated_signature [] Fixtures.hash_ab (Fixtures.ascending 3)
  = true
  <-> (100 <= length (Fixtures.pool_of (Fixtures.ascending 3)))%nat /\
      forall m, m ∈ Fixtures.ascending 3 -> m ∈ map Consensus.signer [].
Proof.
  apply (validation_needs_every_selected_miner (R := rotating_random) 0
           12370169555311111083 Fixtures.hash_ab
           (Fixtures.pool_of (Fixtures.ascending 3))).
  - rewrite keys_pool_of. apply strictly_ascending_NoDup. reflexivity.
  - reflexivity.
Defined.

(** ** What the executor records *)

Section Recorded.
Import Py Data Gui Proposal Views.

Lemma no_reward_put (k : string) (e : Executed) (executed : odict Executed) :
  String.eqb (entry_type e) "reward" = false ->
  no_reward executed -> no_reward (put k e executed).
Proof.
  intros He. unfold no_reward. induction executed as [|[k' e'] d IH]; simpl.
  - intros _. by constructor.
  - intros Hd. apply Forall_cons in Hd as [Hk Hd].
    destruct (String.eqb k k'); constructor; auto.
Qed.

Lemma execute_one_no_reward (now : Z) (us : gmap string User) (mp : odict Z)
    (ex : odict Executed) (entry : string * Tx) :
  no_reward ex -> no_reward (execute_one now (us, mp, ex) entry).2.
Proof.
  intros Hex. unfold execute_one. destruct entry as [txid tx].
  destruct (us !! tx_from tx) as [s|]; [|done].
  destruct (String.eqb (tx_type tx) "transfer") eqn:Et.
  { apply String.eqb_eq in Et.
    destruct (has_user (tx_to tx) us && Qle_bool (amount tx + fee tx) (balance s));
      [|done].
    simpl. apply no_reward_put; [|done]. simpl. by rewrite Et. }
  destruct (String.eqb (tx_type tx) "new_account") eqn:En.
  { apply String.eqb_eq in En.
    destruct (negb (has_user (tx_to tx) us) && Qle_bool (fee tx) (balance s));
      [|done].
    simpl. apply no_reward_put; [|done]. simpl. by rewrite En. }
  destruct (String.eqb (tx_type tx) "join_pool") eqn:Ej; [|done].
  apply String.eqb_eq in Ej.
  destruct (Qle_bool (fee tx) (balance s)); [|done].
  simpl. apply no_reward_put; [|done]. simpl. by rewrite Ej.
Qed.

Lemma execute_pool_no_reward (now : Z) (pool : odict Tx)
    (acc : gmap string User * odict Z * odict Executed) :
  no_reward acc.2 -> no_reward (fold_left (execute_one now) pool acc).2.
Proof.
  revert acc; induction pool as [|entry pool IH]; intros [[us mp] ex] Hex; [done|].
  simpl. apply IH. by apply execute_one_no_reward.
Qed.

Lemma reward_txs_no_reward (executed : odict Executed) :
  no_reward executed -> reward_txs executed = [].
Proof.
  unfold no_reward, reward_txs. induction executed as [|[k e] d IH]; [done|].
  intros Hd. apply Forall_cons in Hd as [Hk Hd]. simpl in *.
  rewrite Hk. auto.
Qed.

(** Adding the reward to entries without one leaves exactly that reward. *)
Lemma reward_txs_put_reward (rid to : string) (amt : Z) (executed : odict Executed) :
  no_reward executed ->
  reward_txs (put rid (Reward rid to amt) executed) = [Reward rid to amt].
Proof.
  unfold no_reward. induction executed as [|[k e] d IH]; [done|].
  intros Hd. apply Forall_cons in Hd as [Hk Hd]. simpl in *.
  destruct (String.eqb rid k).
  - unfold reward_txs. simpl. f_equal.
    by apply (reward_txs_no_reward d).
  - unfold reward_txs in *. simpl. rewrite Hk. auto.
Qed.

(** What a proposal of the executor holds: the group as stored, with the
    miner in it, and exactly one reward, of 100 to the miner. *)
Lemma execute_transactions_reward (now : Z) (miner : string) (fs : Files)
    (st : State) :
  (execute_transactions now miner fs).1 = Some st ->
  contains miner (miners (current_group st)) = true /\
  current_group st = CURRENT_GROUP_FILE fs /\
  reward_txs (tx_executed st) = [Reward ("reward_" ++ str now) miner 100].
Proof.
  unfold execute_transactions.
  destruct (negb (has_user miner (USERS_FILE fs))); [done|].
  destruct (negb (contains miner (miners (get_group fs)))) eqn:Eg; [done|].
  cbv zeta.
  destruct (negb (has_user miner (USERS_FILE (decrease_life fs)))); [done|].
  pose proof (execute_pool_no_reward now (TX_POOL_FILE (decrease_life fs))
                (USERS_FILE (decrease_life fs), MINER_POOL_FILE (decrease_life fs), []))
    as Hk.
  destruct (fold_left _ _ _) as [[us1 mp1] ex1].
  simpl. intros [= <-]. simpl.
  apply negb_false_iff in Eg. split; [done|]. split; [done|].
  apply reward_txs_put_reward, Hk. constructor.
Qed.

Lemma execute_transactions_validates (now : Z) (miner : string) (fs : Files)
    (st : State) :
  (execute_transactions now miner fs).1 = Some st ->
  verify_proposed_state miner st = true /\
  validate_proposed_state miner st tt tt = (true, "Valid").
Proof.
  intros Hst.
  destruct (execute_transactions_reward now miner fs st Hst) as (Hin & _ & Hr).
  unfold verify_proposed_state, validate_proposed_state.
  rewrite Hr. simpl. rewrite String.eqb_refl, Hin. done.
Qed.

End Recorded.

(** X3.  Every state that [execute_transactions] proposes for a miner
    passes both validations of proposals, [verify_proposed_state] of
    libre_network_gui.py and [Consensus.validate_proposed_state]: it records
    exactly one reward, of 100 to the miner (no pooled transaction can be
    recorded as a reward), and its group lists the miner. *)
Theorem executor_proposals_pass_validation (now : Z) (miner : string)
    (fs : Gui.Files) (st : Data.State) :
  (Gui.execute_transactions now miner fs).1 = Some st ->
  Proposal.verify_proposed_state miner st = true /\
  Proposal.validate_proposed_state miner st tt tt = (true, "Valid").
Proof. apply execute_transactions_validates. Qed.

Lemma executor_proposals_pass_validation_witness :
  exists st,
    (Gui.execute_transactions 1700000000 "M" Fixtures.files_one_miner).1 = Some st /\
    Proposal.verify_proposed_state "M" st = true /\
    Proposal.validate_proposed_state "M" st tt tt = (true, "Valid").
Proof.
  eexists. split; [reflexivity|].
  apply (executor_proposals_pass_validation 1700000000 "M" Fixtures.files_one_miner).
  reflexivity.
Defined.

(** ** The stored chain (blockchain.py) *)

Section Chain.
Import Py Data Storage Blockchain Ledger Views.
Context `{H : Hashing}.

Lemma verify_links_true (db : Db) (range : list nat) :
  verify_links db range = Some true <->
  Forall (fun i => verify_link db i = Some true) range.
Proof.
  induction range as [|i range IH]; simpl.
  - split; [intros _; constructor|done].
  - rewrite Forall_cons. destruct (verify_link db i) as [[|]|].
    + rewrite IH. tauto.
    + split; [done|by intros [? _]].
    + split; [done|by intros [? _]].
Qed.

(** The loop stops with [TypeError] at the first index without a block. *)
Lemma verify_links_raises (db : Db) (start len : nat) :
  (forall i : nat, (start <= i < start + len)%nat -> verify_link db i = Some true) ->
  get_block (Z.of_nat (start + len)) db = None ->
  forall more, verify_links db (seq start (len + S more)) = None.
Proof.
  revert start. induction len as [|len IH]; intros start Hok Hnone more.
  - simpl. unfold verify_link. rewrite Nat.add_0_r in Hnone. by rewrite Hnone.
  - simpl. rewrite (Hok start) by lia.
    apply IH.
    + intros i Hi. apply Hok. lia.
    + by replace (S start + len)%nat with (start + S len)%nat by lia.
Qed.

Lemma latest_of_chain (n : nat) (db : Db) :
  chain_upto n db ->
  exists latest, get_latest_block db = Some latest /\
                 block_number latest = Z.of_nat n /\
                 get_block (Z.of_nat n) db = Some latest.
Proof.
  intros (Hsize & Hdom & _). unfold get_latest_block, get_block.
  destruct (last_row (blocks_table db)) as [[k row]|] eqn:El.
  - apply last_row_Some in El as [Hk Hmax].
    assert (k = Z.of_nat n) as ->.
    { assert (0 <= k <= Z.of_nat n) by (apply Hdom; by exists row).
      assert (Z.of_nat n <= k) by (apply Hmax, Hdom; lia). lia. }
    exists (block_of_row (Z.of_nat n, row)). rewrite Hk. done.
  - unfold last_row in El.
    pose proof (foldr_later_spec (map_to_list (blocks_table db))) as Hs.
    rewrite El in Hs. apply (f_equal length) in Hs.
    rewrite length_map_to_list in Hs. simpl in Hs. lia.
Qed.

Lemma verify_link_save_block (db : Db) (b : Block) (i : nat) :
  Z.of_nat i < block_number b ->
  verify_link (save_block b db) i = verify_link db i.
Proof.
  intros Hi. unfold verify_link.
  rewrite !get_block_save_block.
  repeat case_decide; try lia. done.
Qed.

(** The genesis block alone is a chain. *)
Lemma chain_genesis (now : Z) (db : Db) :
  get_block_count db = 0%nat -> chain_upto 0 (ensure_genesis now db).
Proof.
  intros Hc. unfold ensure_genesis. rewrite Hc. simpl.
  unfold get_block_count in Hc. apply map_size_empty_iff in Hc.
  unfold chain_upto, save_block, save_group. simpl blocks_table. rewrite Hc.
  split; [|split].
  - rewrite map_size_insert_None by apply lookup_empty. by rewrite map_size_empty.
  - intros k. destruct (decide (k = 0)) as [->|Hne].
    + rewrite lookup_insert_eq. split; [simpl; lia|by eexists].
    + rewrite lookup_insert_ne by done. rewrite lookup_empty.
      split; [by intros []|simpl; lia].
  - intros i Hi. lia.
Qed.

(** [create_block] extends a chain by one block. *)
Lemma chain_create_block (n : nat) (db : Db) (now : Z) (state : State)
    (miner : string) (signatures : list Consensus.Signature) (group_id : Z) :
  chain_upto n db ->
  exists b db',
    create_block now state miner signatures group_id db = Some (b, db') /\
    block_number b = Z.of_nat (S n) /\
    chain_upto (S n) db'.
Proof.
  intros Hchain.
  destruct (latest_of_chain n db Hchain) as (latest & Hl & Hnum & Hget).
  destruct Hchain as (Hsize & Hdom & Hlinks).
  unfold create_block. rewrite Hl. cbv zeta.
  eexists _, _. split; [reflexivity|].
  split; [simpl; lia|].
  set (b := {| block_number := block_number latest + 1 |}).
  assert (Hb : block_number b = Z.of_nat (S n)) by (simpl; lia).
  assert (Hfresh : blocks_table db !! block_number b = None).
  { apply eq_None_not_Some. intros Hs. apply Hdom in Hs. lia. }
  split; [|split].
  - unfold save_block. simpl blocks_table.
    rewrite map_size_insert_None by done. by rewrite Hsize.
  - intros k. unfold save_block. simpl blocks_table.
    destruct (decide (k = block_number b)) as [->|Hne].
    + rewrite lookup_insert_eq. rewrite Hb. split; [lia|by eexists].
    + rewrite lookup_insert_ne by done. rewrite Hdom.
      assert (k <> Z.of_nat (S n)) by congruence. lia.
  - intros i Hi. destruct (decide (i = S n)) as [->|Hne].
    + unfold verify_link. rewrite !get_block_save_block, !Hb.
      repeat case_decide; try lia.
      replace (Z.of_nat (S n) - 1) with (Z.of_nat n) by lia.
      rewrite Hget. simpl. by rewrite !String.eqb_refl.
    + rewrite verify_link_save_block by (rewrite Hb; lia). apply Hlinks. lia.
Qed.

(** A chain passes [verify_chain], and its height is its last number. *)
Lemma chain_verifies (n : nat) (db : Db) :
  chain_upto n db ->
  verify_chain db = Some true /\ get_height db = Z.of_nat n.
Proof.
  intros (Hsize & Hdom & Hlinks). unfold verify_chain, get_height, get_block_count.
  rewrite Hsize. split; [|lia].
  destruct n as [|n]; [done|].
  replace (S (S n) <=? 1)%nat with false by (symmetry; apply Nat.leb_gt; lia).
  apply verify_links_true, Forall_forall. intros i Hi.
  apply elem_of_seq in Hi. apply Hlinks. lia.
Qed.

Lemma chain_create_blocks (rounds : list Round) (n : nat) (db : Db) :
  chain_upto n db ->
  exists db', create_blocks rounds db = Some db' /\
              chain_upto (n + length rounds) db'.
Proof.
  revert n db. induction rounds as [|r rounds IH]; intros n db Hchain.
  - exists db. by rewrite Nat.add_0_r.
  - simpl.
    destruct (chain_create_block n db (round_time r) (round_state r) (round_miner r)
                (round_signatures r) (round_group_id r) Hchain)
      as (b & db1 & -> & _ & Hchain1).
    destruct (IH (S n) db1 Hchain1) as (db' & Hrun & Hchain').
    exists db'. split; [done|].
    by replace (n + S (length rounds))%nat with (S n + length rounds)%nat by lia.
Qed.

(** A block stored beyond the next number leaves a gap at which
    [verify_chain] raises. *)
Lemma chain_gap_raises (n : nat) (db : Db) (b : Block) :
  chain_upto n db -> Z.of_nat n + 1 < block_number b ->
  verify_chain (save_block b db) = None.
Proof.
  intros (Hsize & Hdom & Hlinks) Hb.
  assert (Hfresh : blocks_table db !! block_number b = None).
  { apply eq_None_not_Some. intros Hs. apply Hdom in Hs. lia. }
  unfold verify_chain, get_block_count, save_block. simpl blocks_table.
  rewrite map_size_insert_None by done. rewrite Hsize.
  replace (S (S n) <=? 1)%nat with false by (symmetry; apply Nat.leb_gt; lia).
  replace (S (S n) - 1)%nat with (n + 1)%nat by lia.
  apply (fun ok none => verify_links_raises (save_block b db) 1 n ok none 0%nat).
  - intros i Hi.
    change (verify_link (save_block b db) i = Some true).
    rewrite verify_link_save_block by lia. apply Hlinks. lia.
  - change (get_block (Z.of_nat (1 + n)) (save_block b db) = None).
    rewrite get_block_save_block. rewrite decide_False by lia.
    unfold get_block.
    assert (Hn : blocks_table db !! Z.of_nat (1 + n) = None).
    { apply eq_None_not_Some. intros Hs. apply Hdom in Hs. lia. }
    by rewrite Hn.
Qed.

End Chain.



(** ** The node of main.py *)

Section LibreNode.
Import Py Data Storage Node Views.
Context `{H : Hashing} `{R : Random}.

Lemma responses_in_app (l1 l2 : list (string * Z * Message)) :
  responses_in (l1 ++ l2) = (responses_in l1 ++ responses_in l2)%list.
Proof. unfold responses_in. apply omap_app. Qed.

Lemma idle_send (self : LibreNode) (ms : list (string * Z * Message)) :
  Forall (fun m => announces_block m = false) ms ->
  Forall (fun s => Consensus.signer s = "DEMO_SIGNER") (responses_in ms) ->
  idle self -> idle (send ms self).
Proof.
  intros Hms Hrs (Hc & Hp & Hs & Hd). unfold idle, send. simpl.
  rewrite responses_in_app. repeat split; try done; by apply Forall_app.
Qed.

Lemma idle_frame (self self' : LibreNode) :
  collected_signatures self' = collected_signatures self ->
  pending_updates self' = pending_updates self ->
  sent self' = sent self ->
  idle self -> idle self'.
Proof. unfold idle. by intros -> -> ->. Qed.

Lemma on_receive_state_update_frame (block : option Block)
    (group : option (Z * GroupRow)) (users : gmap string RemoteUser)
    (self : LibreNode) :
  let self' := state_after (on_receive_state_update block group users self) in
  collected_signatures self' = collected_signatures self /\
  pending_updates self' = pending_updates self /\
  sent self' = sent self.
Proof.
  unfold on_receive_state_update, _apply_remote_state.
  repeat case_match; simpl; done.
Qed.

Lemma handle_message_idle (now : Z) (token : string) (message : Message)
    (addr : string * Z) (g : rng) (self : LibreNode) :
  idle self -> idle (state_after (handle_message now token message addr g self)).1.
Proof.
  intros Hidle.
  destruct message as [nid p| |nid| |nid block group remote|h st miner ip p|msg|block|t];
    simpl.
  - destruct (Config.add_peer _ _ _); simpl; by eapply idle_frame.
  - apply idle_send; [repeat constructor..|done].
  - done.
  - apply idle_send; [repeat constructor..|done].
  - destruct (on_receive_state_update_frame block group remote self) as (Hc & Hp & Hs).
    destruct (on_receive_state_update block group remote self); simpl in *;
      by eapply idle_frame.
  - unfold on_receive_signature_request.
    destruct (Proposal.validate_proposed_state _ _ _ _) as [[|] reason]; simpl; [|done].
    destruct (get_latest_group (storage self)) as [[gid group]|]; simpl; [|done].
    destruct (Consensus.get_selected_miners _ _ _) as [[selected g1]|]; simpl; [|done].
    apply idle_send; [repeat constructor..|done].
  - unfold on_receive_signature_response.
    destruct Hidle as (Hc & Hp & Hs & Hd) eqn:E. rewrite Hc, lookup_empty. simpl.
    clear E. by repeat split.
  - done.
  - done.
Qed.

Lemma receive_idle (msgs : list Inbound) (s : LibreNode * rng) :
  idle s.1 -> idle (fold_left receive msgs s).1.
Proof.
  revert s. induction msgs as [|m msgs IH]; intros s Hs; [done|].
  simpl. apply IH. unfold receive. by apply handle_message_idle.
Qed.

Lemma blocks_map_fold_upsert (users : gmap string RemoteUser) (db : Db) :
  blocks_table (map_fold upsert_remote db users) = blocks_table db /\
  groups_table (map_fold upsert_remote db users) = groups_table db /\
  miner_pool_table (map_fold upsert_remote db users) = miner_pool_table db.
Proof.
  apply (map_fold_weak_ind
           (fun r (_ : gmap string RemoteUser) =>
              blocks_table r = blocks_table db /\
              groups_table r = groups_table db /\
              miner_pool_table r = miner_pool_table db)); [done|].
  intros a u m r _ IH. done.
Qed.

Lemma handle_message_blocks (now : Z) (token : string) (message : Message)
    (addr : string * Z) (g : rng) (self : LibreNode) :
  idle self ->
  (forall i b gr us, message <> STATE_UPDATE i b gr us) ->
  storage (state_after (handle_message now token message addr g self)).1
  = storage self.
Proof.
  intros Hidle Hne.
  destruct message as [nid p| |nid| |nid block group remote|h st miner ip p|msg|block|t];
    simpl; try done.
  - by destruct (Config.add_peer _ _ _).
  - by edestruct Hne.
  - unfold on_receive_signature_request.
    destruct (Proposal.validate_proposed_state _ _ _ _) as [[|] reason]; simpl; [|done].
    destruct (get_latest_group (storage self)) as [[gid group]|]; simpl; [|done].
    by destruct (Consensus.get_selected_miners _ _ _) as [[selected g1]|].
  - unfold on_receive_signature_response.
    destruct Hidle as (Hc & _). by rewrite Hc, lookup_empty.
Qed.

Lemma receive_storage (msgs : list Inbound) (s : LibreNode * rng) :
  idle s.1 ->
  forallb (fun m => negb (is_state_update m)) msgs = true ->
  storage (fold_left receive msgs s).1 = storage s.1.
Proof.
  revert s. induction msgs as [|m msgs IH]; intros s Hidle Hmsgs; [done|].
  simpl in Hmsgs. apply andb_true_iff in Hmsgs as [Hm Hmsgs].
  simpl. rewrite IH; [|by apply handle_message_idle|done].
  unfold receive. apply (handle_message_blocks _ _ _ _ _ _ Hidle).
  intros i b gr us Heq. unfold is_state_update in Hm. by rewrite Heq in Hm.
Qed.

End LibreNode.

(** X5.  A node of main.py never finalizes a block.  From the state
    [__init__] leaves, whatever messages arrive: no round is ever open
    ([collected_signatures] and [pending_updates] stay empty, so a
    [SIGNATURE_RESPONSE] is dropped and [finalize_block] is not reached), no
    [BLOCK_ANNOUNCE] is ever sent, and as long as no [STATE_UPDATE] arrives the
    database is the one [__init__] left. *)
Theorem libre_node_never_finalizes `{H : Py.Hashing} `{R : Py.Random} (now : Z)
    (cfg : Config.Config) (node_id : string) (port : Z) (db : Storage.Db)
    (g : Py.rng) (msgs : list Node.Inbound) :
  let node := (fold_left Node.receive msgs (Node.__init__ now cfg node_id port db, g)).1 in
  Node.collected_signatures node = ∅ /\
  Node.pending_updates node = ∅ /\
  forallb (fun m => negb (Views.announces_block m)) (Node.sent node) = true /\
  (forallb (fun m => negb (Views.is_state_update m)) msgs = true ->
   Node.storage node = Blockchain.ensure_genesis now db).
Proof.
  intros node.
  assert (Hstart : Views.idle (Node.__init__ now cfg node_id port db)).
  { unfold Views.idle. simpl. repeat split; constructor. }
  pose proof (receive_idle msgs (Node.__init__ now cfg node_id port db, g) Hstart)
    as (Hc & Hp & Hs & _).
  split; [done|]. split; [done|]. split.
  - apply forallb_forall. intros m Hm. rewrite Forall_forall in Hs.
    apply list_elem_of_In in Hm. by rewrite (Hs m Hm).
  - intros Hmsgs. subst node.
    by rewrite (receive_storage msgs (Node.__init__ now cfg node_id port db, g)).
Qed.

(** X6.  The signature responses a node of main.py sends are all signed
    ["DEMO_SIGNER"], whoever asks and whichever committee was selected, so
    no collection of them passes [Consensus.verify_aggregated_signature],
    for any state hash and any committee. *)
Theorem demo_responses_never_validate `{H : Py.Hashing} `{R : Py.Random} (now : Z)
    (cfg : Config.Config) (node_id : string) (port : Z) (db : Storage.Db)
    (g : Py.rng) (msgs : list Node.Inbound) (state_hash : string)
    (selected : list string) :
  let node := (fold_left Node.receive msgs (Node.__init__ now cfg node_id port db, g)).1 in
  Forall (fun s => Consensus.signer s = "DEMO_SIGNER")
    (Views.responses_in (Node.sent node)) /\
  Consensus.verify_aggregated_signature (Views.responses_in (Node.sent node))
    state_hash selected = false.
Proof.
  intros node.
  assert (Hstart : Views.idle (Node.__init__ now cfg node_id port db)).
  { unfold Views.idle. simpl. repeat split; constructor. }
  pose proof (receive_idle msgs (Node.__init__ now cfg node_id port db, g) Hstart)
    as (_ & _ & _ & Hd).
  split; [done|].
  apply not_true_is_false. intros Hv.
  apply aggregated_signature_counts_distinct_members_aux in Hv.
  assert (Hsub : Views.signers_among selected (Views.responses_in (Node.sent node))
                 ⊆ {["DEMO_SIGNER"]}).
  { intros m Hm. apply elem_of_signers_among in Hm as [_ Hm].
    apply list_elem_of_In, in_map_iff in Hm as (s & <- & Hs).
    rewrite Forall_forall in Hd. apply list_elem_of_In in Hs.
    rewrite (Hd s Hs). by apply elem_of_singleton. }
  apply subseteq_size in Hsub. rewrite size_singleton in Hsub. lia.
Qed.

(** ** Synchronising from a peer (main.py) *)

Section Sync.
Import Py Data Storage Node Views.

Lemma users_map_fold_upsert (remote : gmap string RemoteUser) (db : Db) (a : string) :
  users_table (map_fold upsert_remote db remote) !! a
  = match remote !! a with
    | Some u => Some (stored_remote a u)
    | None => users_table db !! a
    end.
Proof.
  revert a.
  apply (map_fold_weak_ind
           (fun r (m : gmap string RemoteUser) =>
              forall a, users_table r !! a
                        = match m !! a with
                          | Some u => Some (stored_remote a u)
                          | None => users_table db !! a
                          end)).
  - intros a. by rewrite lookup_empty.
  - intros k u m r Hk IH a. unfold upsert_remote, Tables.upsert_user. simpl.
    destruct (decide (a = k)) as [->|Hne].
    + by rewrite !lookup_insert_eq.
    + rewrite !lookup_insert_ne by done. apply IH.
Qed.

Lemma apply_remote_state_storage (block : Block) (gid : Z) (row : GroupRow)
    (remote : gmap string RemoteUser) (self : LibreNode) :
  storage (state_after (_apply_remote_state block (Some (gid, row)) remote self))
  = save_block block
      (save_group gid (row_miners row) (row_created_at row)
         (map_fold upsert_remote (storage self) remote)).
Proof. done. Qed.

Lemma chain_upto_blocks `{H : Hashing} (n : nat) (db db' : Db) :
  blocks_table db' = blocks_table db -> chain_upto n db -> chain_upto n db'.
Proof.
  intros Hb (Hsize & Hdom & Hlinks). unfold chain_upto. rewrite Hb.
  split; [done|]. split; [done|].
  intros i Hi. rewrite <- (Hlinks i Hi).
  unfold Ledger.verify_link, get_block. by rewrite Hb.
Qed.

End Sync.

Lemma state_update_installs_higher_block_aux (block local_latest : Storage.Block)
    (gid : Z) (row : Storage.GroupRow) (remote : gmap string Node.RemoteUser)
    (self : Node.LibreNode) :
  Storage.get_latest_block (Node.storage self) = Some local_latest ->
  let self' :=
    Node.state_after
      (Node.on_receive_state_update (Some block) (Some (gid, row)) remote self) in
  (Storage.block_number block <= Storage.block_number local_latest -> self' = self) /\
  (Storage.block_number local_latest < Storage.block_number block ->
   Storage.get_latest_block (Node.storage self') = Some block /\
   Storage.get_block_count (Node.storage self')
     = S (Storage.get_block_count (Node.storage self)) /\
   (forall a u, remote !! a = Some u ->
      Tables.get_user a (Node.storage self')
      = Some {| Data.u_address := a; Data.balance := Node.remote_balance u;
                Data.nonce := default 0 (Node.remote_nonce u);
                Data.life := default 20000000 (Node.remote_life u) |}) /\
   (forall a, remote !! a = None ->
      Tables.get_user a (Node.storage self') = Tables.get_user a (Node.storage self))).
Proof.
  intros Hlatest self'. subst self'. unfold Node.on_receive_state_update.
  rewrite Hlatest. split.
  - intros Hle. apply Z.ltb_ge in Hle. by rewrite Hle.
  - intros Hlt. pose proof Hlt as Hlt'. apply Z.ltb_lt in Hlt'. rewrite Hlt'.
    rewrite apply_remote_state_storage.
    unfold Storage.get_latest_block in Hlatest.
    destruct (Storage.last_row (Storage.blocks_table (Node.storage self)))
      as [[k r]|] eqn:El; [|done].
    injection Hlatest as <-. simpl in Hlt.
    apply last_row_Some in El as [Hk Hmax].
    destruct (blocks_map_fold_upsert remote (Node.storage self)) as (Hb & _).
    assert (Hfresh : Storage.blocks_table (Node.storage self)
                     !! Storage.block_number block = None).
    { apply eq_None_not_Some. intros Hs. apply Hmax in Hs. lia. }
    split; [|split; [|split]].
    + unfold Storage.get_latest_block, Storage.save_block. simpl Storage.blocks_table.
      rewrite Hb, last_row_insert_above.
      * simpl. by rewrite block_of_row_of_block.
      * intros k' Hk'. apply Hmax in Hk'. lia.
    + unfold Storage.get_block_count, Storage.save_block. simpl Storage.blocks_table.
      rewrite Hb. by rewrite map_size_insert_None.
    + intros a u Hu. unfold Tables.get_user. simpl.
      by rewrite users_map_fold_upsert, Hu.
    + intros a Hu. unfold Tables.get_user. simpl.
      by rewrite users_map_fold_upsert, Hu.
Qed.





(** ** The configuration (config.py) *)

Section Configuration.
Import Py Config.

Lemma odict_get_put {V} (k : string) (v : V) (d : odict V) :
  get k (put k v d) = Some v.
Proof.
  induction d as [|[k' v'] d IH]; simpl.
  - by rewrite String.eqb_refl.
  - destruct (String.eqb k k') eqn:E; simpl; [by rewrite String.eqb_refl|].
    by rewrite E.
Qed.

Lemma odict_get_put_ne {V} (k k' : string) (v : V) (d : odict V) :
  k <> k' -> get k (put k' v d) = get k d.
Proof.
  intros Hne. induction d as [|[k1 v1] d IH]; simpl.
  - apply String.eqb_neq in Hne. by rewrite Hne.
  - destruct (String.eqb k' k1) eqn:E; simpl.
    + apply String.eqb_eq in E. subst k1.
      apply String.eqb_neq in Hne. by rewrite Hne.
    + by rewrite IH.
Qed.

Lemma odict_contains_get {V} (k : string) (d : odict V) :
  contains k d = match get k d with Some _ => true | None => false end.
Proof.
  unfold contains, keys. induction d as [|[k' v'] d IH]; simpl; [done|].
  by destruct (String.eqb k k').
Qed.

(** After the loop of [load_config] a key has the value of the file, or
    else the default. *)
Lemma get_fill_missing (key : string) (defaults loaded : odict json) :
  get key (fold_left fill_missing defaults loaded)
  = match get key loaded with
    | Some value => Some value
    | None => get key defaults
    end.
Proof.
  revert loaded. induction defaults as [|[k v] ds IH]; intros loaded; simpl.
  - by destruct (get key loaded).
  - rewrite IH. unfold fill_missing. simpl. rewrite odict_contains_get.
    destruct (decide (key = k)) as [->|Hne].
    + rewrite String.eqb_refl. destruct (get k loaded) as [x|] eqn:E; simpl.
      * by rewrite E.
      * by rewrite odict_get_put.
    + replace (String.eqb key k) with false
        by (symmetry; by apply String.eqb_neq).
      destruct (get k loaded); simpl; [done|].
      by rewrite odict_get_put_ne.
Qed.

(** Filling a dict that has every default key leaves it as it is. *)
Lemma fill_missing_complete (defaults loaded : odict json) :
  Forall (fun kv => contains kv.1 loaded = true) defaults ->
  fold_left fill_missing defaults loaded = loaded.
Proof.
  induction defaults as [|[k v] ds IH]; intros Hall; [done|].
  apply Forall_cons in Hall as [Hk Hall]. simpl in *.
  unfold fill_missing at 2. simpl. rewrite Hk. simpl. by apply IH.
Qed.

Lemma load_config_complete (fresh_id : string) (loaded : odict json) :
  Forall (fun kv => contains kv.1 loaded = true) (default_config fresh_id) ->
  load_config fresh_id (ConfigIn loaded)
  = {| config := loaded; config_path := ConfigIn loaded |}.
Proof.
  intros Hall. unfold load_config. by rewrite fill_missing_complete.
Qed.

Lemma contains_put {V} (k k' : string) (v : V) (d : odict V) :
  contains k d = true -> contains k (put k' v d) = true.
Proof.
  rewrite !odict_contains_get. destruct (decide (k = k')) as [->|Hne].
  - by rewrite odict_get_put.
  - by rewrite odict_get_put_ne.
Qed.

Lemma load_config_contains (fresh_id : string) (file : ConfigFile) :
  Forall (fun kv => contains kv.1 (config (load_config fresh_id file)) = true)
    (default_config fresh_id).
Proof.
  destruct file as [| |loaded]; try by repeat constructor.
  apply Forall_forall. intros [k v] Hin.
  change (contains k (fold_left fill_missing (default_config fresh_id) loaded) = true).
  rewrite odict_contains_get, get_fill_missing.
  destruct (get k loaded); [done|].
  unfold default_config in *.
  repeat (apply elem_of_cons in Hin as [Hin|Hin]; [by simplify_eq|]).
  by apply elem_of_nil in Hin.
Qed.

Lemma any_peer_snoc (ip : string) (port : Z) (peers : list json) :
  any_peer ip port peers = Some false ->
  any_peer ip port (peers ++ [JObj [("ip", JStr ip); ("port", JInt port)]]) = Some true.
Proof.
  induction peers as [|p peers IH]; simpl.
  - intros _. by rewrite String.eqb_refl, Z.eqb_refl.
  - destruct p as [| | | | |fields]; try done.
    destruct (get "ip" fields) as [p_ip|]; [|done].
    destruct (eq_str p_ip ip); [|done].
    destruct (get "port" fields) as [p_port|]; [|done].
    by destruct (eq_int p_port port).
Qed.

Lemma known_peers_set (value : json) (self : Config) :
  known_peers (set "known_peers" value self) = value.
Proof.
  unfold known_peers, get_, set, save_config. simpl. by rewrite odict_get_put.
Qed.

End Configuration.

(** X9.  [load_config] always returns a config with the five default keys.
    Where the file holds an object, every key of the file keeps the file's
    value, a default key the file lacks gets the default, and the file is
    not written (so an id made up for a file without ["node_id"] is not
    saved).  Where the file is missing or unreadable the config is the
    default one and is written to the file. *)
Theorem load_config_fills_defaults (fresh_id : string) (file : Config.ConfigFile) :
  let self := Config.load_config fresh_id file in
  Forall (fun key => Py.contains key (Config.config self) = true)
    ["node_id"; "port"; "known_peers"; "language"; "logo_path"] /\
  match file with
  | Config.ConfigIn loaded =>
      Config.config_path self = file /\
      forall key,
        Py.get key (Config.config self)
        = match Py.get key loaded with
          | Some value => Some value
          | None => Py.get key (Config.default_config fresh_id)
          end
  | _ =>
      Config.config self = Config.default_config fresh_id /\
      Config.config_path self = Config.ConfigIn (Config.default_config fresh_id)
  end.
Proof.
  intros self. split.
  - pose proof (load_config_contains fresh_id file) as Hall.
    unfold Config.default_config in Hall.
    repeat (apply Forall_cons in Hall as [? Hall]). by repeat constructor.
  - destruct file as [| |loaded]; try done.
    split; [done|]. intros key. apply get_fill_missing.
Qed.

(** X10.  A value set with [Config.set] survives a restart: a new [Config]
    loaded from the file that [set] wrote has exactly the config the old one
    had, whatever id the new one makes up.  In particular the node id chosen
    at the first load is kept from then on. *)
Theorem config_set_survives_restart (fresh_id fresh_id' key : string)
    (value : Py.json) (file : Config.ConfigFile) :
  let self := Config.set key value (Config.load_config fresh_id file) in
  Config.load_config fresh_id' (Config.config_path self) = self /\
  Config.get_ key Py.JNull self = value /\
  Config.node_id self
  = (if String.eqb key "node_id" then value
     else Config.node_id (Config.load_config fresh_id file)).
Proof.
  intros self. split; [|split].
  - unfold self, Config.set, Config.save_config.
    cbn [Config.config Config.config_path].
    apply load_config_complete.
    pose proof (load_config_contains fresh_id file) as Hall.
    unfold Config.default_config in *.
    repeat (apply Forall_cons in Hall as [? Hall]).
    repeat constructor; simpl in *; by apply contains_put.
  - unfold self, Config.get_, Config.set, Config.save_config. simpl.
    by rewrite odict_get_put.
  - unfold self, Config.node_id, Config.get_, Config.set, Config.save_config. simpl.
    destruct (String.eqb key "node_id") eqn:E.
    + apply String.eqb_eq in E. subst key. by rewrite odict_get_put.
    + apply String.eqb_neq in E. by rewrite odict_get_put_ne.
Qed.

(** X11.  [Config.add_peer] never lists a peer twice.  When it returns, the
    list of known peers is the old list, unchanged if it had an entry with
    that ip and port, and otherwise with the one entry [{"ip", "port"}]
    added at the end; and adding the same peer again changes nothing, not
    even the file. *)
Theorem add_peer_is_idempotent (ip : string) (port : Z) (self self1 : Config.Config) :
  Config.add_peer ip port self = Some self1 ->
  exists peers,
    Config.known_peers self = Py.JList peers /\
    (Config.any_peer ip port peers = Some true /\ self1 = self \/
     Config.any_peer ip port peers = Some false /\
     Config.known_peers self1
     = Py.JList (peers ++ [Py.JObj [("ip", Py.JStr ip); ("port", Py.JInt port)]])) /\
    Config.add_peer ip port self1 = Some self1.
Proof.
  unfold Config.add_peer at 1.
  destruct (Config.known_peers self) as [| | | |peers|] eqn:Ek; try done.
  destruct (Config.any_peer ip port peers) as [[|]|] eqn:Ea; [| |done].
  - intros [= <-]. exists peers. split; [done|]. split; [by left|].
    unfold Config.add_peer. by rewrite Ek, Ea.
  - intros [= <-]. exists peers. split; [done|].
    rewrite known_peers_set. split; [by right|].
    unfold Config.add_peer. rewrite known_peers_set.
    by rewrite (any_peer_snoc ip port peers Ea).
Qed.

Lemma add_peer_is_idempotent_witness :
  exists self1,
    Config.add_peer "10.0.0.7" 5001 (Config.load_config "n" Config.NoConfigFile)
    = Some self1 /\
    Config.add_peer "10.0.0.7" 5001 self1 = Some self1.
Proof.
  eexists. split; [reflexivity|].
  destruct (add_peer_is_idempotent "10.0.0.7" 5001
              (Config.load_config "n" Config.NoConfigFile) _ eq_refl)
    as (peers & _ & _ & Hagain).
  exact Hagain.
Defined.

(** ** Gossip (p2p_network.py) *)

Section Peers.
Import Py P2P Views.

Lemma add_peer_seen (clock : Q) (nid ip : string) (port : Z) (self : P2PNode) :
  seen_messages (add_peer clock nid ip port self) = seen_messages self /\
  node_id (add_peer clock nid ip port self) = node_id self.
Proof. unfold add_peer. by destruct (String.eqb nid (node_id self)). Qed.

Lemma filter_key_ne_delete (nid : string) (table : gmap string Peer) :
  filter (fun kv : string * Peer => kv.1 <> nid) table = delete nid table.
Proof.
  apply map_eq. intros i. apply option_eq. intros p.
  rewrite map_lookup_filter_Some, lookup_delete_Some. simpl. naive_solver.
Qed.

Lemma mirrors_add_peer (clock : Q) (nid ip : string) (port : Z) (self : P2PNode) :
  mirrors_storage self -> mirrors_storage (add_peer clock nid ip port self).
Proof.
  intros (table & Hs & Hp). unfold add_peer.
  destruct (String.eqb nid (node_id self)) eqn:E; [by exists table|].
  apply String.eqb_neq in E.
  exists (save_peer nid ip port (int clock) table). simpl. rewrite Hs. split; [done|].
  unfold save_peer. rewrite delete_insert_ne by done.
  rewrite !fmap_insert. by rewrite Hp.
Qed.

Lemma mirrors_remove_peer (nid : string) (self : P2PNode) :
  mirrors_storage self -> mirrors_storage (remove_peer nid self).
Proof.
  intros (table & Hs & Hp). unfold remove_peer.
  exists (remove_peer_row nid table). simpl. rewrite Hs. split; [done|].
  unfold remove_peer_row. rewrite !fmap_delete, Hp, !fmap_delete.
  apply delete_delete.
Qed.

Lemma mirrors_frame (self self' : P2PNode) :
  peers self' = peers self -> storage self' = storage self ->
  node_id self' = node_id self ->
  mirrors_storage self -> mirrors_storage self'.
Proof. unfold mirrors_storage. by intros -> -> ->. Qed.

Lemma mirrors_remove_peers (nids : list string) (self : P2PNode) :
  mirrors_storage self -> mirrors_storage (foldr remove_peer self nids).
Proof.
  induction nids as [|nid nids IH]; intros Hm; [done|].
  simpl. by apply mirrors_remove_peer, IH.
Qed.

End Peers.

Section Gossip.
Import Py P2P Views.
Context {P App : Type}.
Variable message_handler : option (Envelope P -> string * Z -> App -> App * bool).
Variable digest : Envelope P -> string.
Variable presence : string -> Z -> P.

Lemma broadcast_seen (clock : Q) (message_env : Envelope P) (exclude : option string)
    (self : P2PNode) (id : string) :
  is_Some (seen_messages self !! id) ->
  is_Some (seen_messages (broadcast clock message_env exclude self).1 !! id).
Proof.
  intros Hid. unfold broadcast. simpl.
  destruct (msg_id message_env) as [[|c s]|]; simpl; try done.
  case_bool_decide; simpl; [done|].
  destruct (decide (id = String c s)) as [->|Hne].
  - rewrite lookup_insert_eq. by eexists.
  - by rewrite lookup_insert_ne.
Qed.

Lemma broadcast_frame (clock : Q) (message_env : Envelope P) (exclude : option string)
    (self : P2PNode) :
  let self' := (broadcast clock message_env exclude self).1 in
  peers self' = peers self /\ storage self' = storage self /\
  node_id self' = node_id self.
Proof.
  unfold broadcast. simpl.
  destruct (msg_id message_env) as [[|c s]|]; simpl; try done.
  by case_bool_decide.
Qed.

(** After a message with an id has gone through [deliver], its id is in
    [seen_messages]. *)
Lemma deliver_marks_seen (clock : Q) (addr : string * Z) (message_env : Envelope P)
    (self : P2PNode) (app : App) (c : ascii) (s : string) :
  msg_id message_env = Some (String c s) ->
  is_Some (seen_messages (deliver message_handler clock addr message_env self app).1.1
           !! String c s).
Proof.
  intros Hid. unfold deliver. rewrite Hid.
  case_bool_decide as Hseen; [done|].
  match goal with
  | |- context [add_peer _ _ _ _ ?s1] => set (self1 := s1)
  end.
  match goal with
  | |- context [if ?b then add_peer ?t ?n ?i ?p self1 else self1] =>
      set (self2 := if b then add_peer t n i p self1 else self1)
  end.
  assert (H1 : is_Some (seen_messages self1 !! String c s)).
  { simpl. rewrite lookup_insert_eq. by eexists. }
  assert (H2 : is_Some (seen_messages self2 !! String c s)).
  { unfold self2. destruct (_ && _); [|done].
    by destruct (add_peer_seen clock (default "" (sender message_env)) addr.1
                   (default 0 (sender_port message_env)) self1) as [-> _]. }
  destruct (match message_handler with
            | Some handler => handler message_env addr app
            | None => (app, true)
            end) as [app1 returned].
  destruct returned; cbn [negb]; [|done].
  destruct (broadcast_flag message_env); [|done].
  pose proof (broadcast_seen clock message_env (sender message_env) self2 _ H2) as H3.
  by destruct (broadcast clock message_env (sender message_env) self2).
Qed.

Lemma mirrors_deliver (clock : Q) (addr : string * Z) (message_env : Envelope P)
    (self : P2PNode) (app : App) :
  mirrors_storage self ->
  mirrors_storage (deliver message_handler clock addr message_env self app).1.1.
Proof.
  intros Hm. unfold deliver.
  destruct (msg_id message_env) as [[|c s]|]; try done.
  case_bool_decide; [done|].
  match goal with
  | |- context [add_peer _ _ _ _ ?s1] => set (self1 := s1)
  end.
  match goal with
  | |- context [if ?b then add_peer ?t ?n ?i ?p self1 else self1] =>
      set (self2 := if b then add_peer t n i p self1 else self1)
  end.
  assert (H1 : mirrors_storage self1) by (by eapply mirrors_frame).
  assert (H2 : mirrors_storage self2).
  { unfold self2. destruct (_ && _); [|done]. by apply mirrors_add_peer. }
  destruct (match message_handler with
            | Some handler => handler message_env addr app
            | None => (app, true)
            end) as [app1 returned].
  destruct returned; cbn [negb]; [|done].
  destruct (broadcast_flag message_env); [|done].
  destruct (broadcast_frame clock message_env (sender message_env) self2)
    as (Hp & Hs & Hn).
  destruct (broadcast clock message_env (sender message_env) self2) as [self3 sent].
  by eapply mirrors_frame.
Qed.

Lemma mirrors_step (s : P2PNode * App) (op : P2POp P) :
  mirrors_storage s.1 ->
  mirrors_storage (p2p_step message_handler digest presence s op).1.
Proof.
  intros Hm. destruct op; simpl.
  - by apply mirrors_deliver.
  - by apply mirrors_add_peer.
  - by apply mirrors_remove_peer.
  - unfold _periodic_cleanup. apply mirrors_remove_peers. by eapply mirrors_frame.
  - unfold announce_presence.
    destruct (broadcast_frame clock
                (create_message digest clock "PRESENCE"
                   (presence (node_id s.1) (port s.1)) true s.1) None s.1)
      as (Hp & Hs & Hn).
    by eapply mirrors_frame.
  - destruct (broadcast_frame clock message_env exclude_node_id s.1) as (Hp & Hs & Hn).
    by eapply mirrors_frame.
Qed.

End Gossip.



(** ** Relaying *)

Section Relay.
Import Py P2P Views.
Context {P App : Type}.

Lemma broadcast_targets (clock : Q) (message_env : Envelope P)
    (exclude : option string) (self : P2PNode) :
  Forall (fun m =>
            exists nid peer,
              peers self !! nid = Some peer /\
              m = (peer_ip peer, peer_port peer, mark_broadcast message_env) /\
              Some nid <> exclude /\ nid <> node_id self)
    (broadcast clock message_env exclude self).2.
Proof.
  unfold broadcast. cbn [snd].
  set (self1 := match msg_id (mark_broadcast message_env) with
                | Some (String c s) => _
                | _ => self
                end).
  assert (Hp : peers self1 = peers self /\ node_id self1 = node_id self).
  { unfold self1. destruct (msg_id (mark_broadcast message_env)) as [[|c s]|];
      try done. by case_bool_decide. }
  destruct Hp as [Hp Hn]. rewrite Hp, Hn.
  apply Forall_forall. intros m Hm.
  apply list_elem_of_In, in_map_iff in Hm as ([nid peer] & <- & Hin).
  apply filter_In in Hin as [Hin Hf].
  apply list_elem_of_In, elem_of_map_to_list in Hin.
  apply andb_true_iff in Hf as [He Hs]. simpl in *.
  apply negb_true_iff, bool_decide_eq_false in He.
  apply negb_true_iff, String.eqb_neq in Hs.
  by exists nid, peer.
Qed.

End Relay.

(** X14.  Relays go to other peers only.  Every message [deliver] relays
    is the delivered message marked for broadcast, sent to the stored
    address of a peer of the node that is neither the sender named in the
    message nor the node itself; and nothing is relayed unless the message
    carries an id and its broadcast flag. *)
Theorem relays_skip_sender_and_self {P App : Type}
    (message_handler : option (P2P.Envelope P -> string * Z -> App -> App * bool))
    (clock : Q) (addr : string * Z) (message_env : P2P.Envelope P)
    (self : P2P.P2PNode) (app : App) :
  let result := P2P.deliver message_handler clock addr message_env self app in
  Forall (fun m =>
            exists nid peer,
              P2P.peers result.1.1 !! nid = Some peer /\
              m = (P2P.peer_ip peer, P2P.peer_port peer,
                   P2P.mark_broadcast message_env) /\
              Some nid <> P2P.sender message_env /\ nid <> P2P.node_id self)
    result.2 /\
  (result.2 <> [] ->
   P2P.broadcast_flag message_env = true /\ P2P.truthy (P2P.msg_id message_env) = true).
Proof.
  intros result. subst result. unfold P2P.deliver.
  destruct (P2P.msg_id message_env) as [[|c s]|] eqn:Hid; try by split.
  case_bool_decide; [by split|].
  match goal with
  | |- context [P2P.add_peer _ _ _ _ ?s1] => set (self1 := s1)
  end.
  match goal with
  | |- context [if ?b then P2P.add_peer ?t ?n ?i ?p self1 else self1] =>
      set (self2 := if b then P2P.add_peer t n i p self1 else self1)
  end.
  assert (Hn : P2P.node_id self2 = P2P.node_id self).
  { unfold self2. destruct (_ && _); [|done].
    by destruct (add_peer_seen clock (default "" (P2P.sender message_env)) addr.1
                   (default 0 (P2P.sender_port message_env)) self1) as [_ ->]. }
  destruct (match message_handler with
            | Some handler => handler message_env addr app
            | None => (app, true)
            end) as [app1 returned].
  destruct returned; cbn [negb]; [|by split].
  destruct (P2P.broadcast_flag message_env); [|by split].
  pose proof (broadcast_targets clock message_env (P2P.sender message_env) self2) as Ht.
  destruct (broadcast_frame clock message_env (P2P.sender message_env) self2)
    as (Hp & _ & _).
  destruct (P2P.broadcast clock message_env (P2P.sender message_env) self2)
    as [self3 sent].
  simpl in *. split; [|done].
  eapply Forall_impl; [exact Ht|]. simpl.
  intros m (nid & peer & Hpeer & Hm & Hs & Hself).
  exists nid, peer. rewrite Hp. rewrite Hn in Hself. done.
Qed.

(** ** The generated keys (storage.py) *)

Section GeneratedKeys.
Import Tables.

Lemma filter_length_all {A} (f : A -> bool) (l : list A) :
  (length (List.filter f l) <= length l)%nat /\
  (length (List.filter f l) = length l -> List.filter f l = l).
Proof.
  induction l as [|a l [IHle IHeq]]; simpl; [done|].
  destruct (f a); simpl.
  - split; [lia|]. intros Hl. f_equal. apply IHeq. lia.
  - split; [lia|]. intros Hl. lia.
Qed.

Lemma filter_all_length {A} (f : A -> bool) (l : list A) :
  forallb f l = true <-> length (List.filter f l) = length l.
Proof.
  induction l as [|a l IH]; simpl; [done|].
  destruct (f a) eqn:E; simpl.
  - rewrite IH. lia.
  - pose proof (filter_length_all f l) as [Hle _]. split; [done|lia].
Qed.

End GeneratedKeys.

(** X15.  [delete_generated_key] removes every key with the address and
    nothing else.  Afterwards [get_all_generated_keys] lists the keys with
    another address, in their old order.  It returns [True] exactly when
    some listed key had the address; when it returns [False] the file is not
    touched, so a missing or unreadable file stays as it is. *)
Theorem delete_generated_key_removes_address (addr : string)
    (file : Tables.KeysFile) :
  let result := Tables.delete_generated_key addr file in
  Tables.get_all_generated_keys result.2
  = List.filter (fun k => negb (String.eqb (Tables.address k) addr))
      (Tables.get_all_generated_keys file) /\
  (result.1 = true <->
   addr ∈ map Tables.address (Tables.get_all_generated_keys file)) /\
  (result.1 = false -> result.2 = file).
Proof.
  intros result. subst result. unfold Tables.delete_generated_key.
  set (keys := Tables._load_keys_from_json file).
  set (f := fun k => negb (String.eqb (Tables.address k) addr)).
  change (Tables.get_all_generated_keys file) with keys.
  pose proof (filter_length_all f keys) as [Hle Heq].
  pose proof (filter_all_length f keys) as Hall.
  assert (Hin : addr ∈ map Tables.address keys <-> forallb f keys = false).
  { rewrite <- not_true_iff_false, forallb_forall. split.
    - intros Ha Hf. apply list_elem_of_In, in_map_iff in Ha as (k & <- & Hk).
      specialize (Hf k Hk). unfold f in Hf. by rewrite String.eqb_refl in Hf.
    - intros Hn. destruct (decide (addr ∈ map Tables.address keys)) as [|Hni];
        [done|].
      exfalso. apply Hn. intros k Hk. unfold f.
      apply negb_true_iff, String.eqb_neq. intros <-.
      apply Hni, list_elem_of_In, in_map_iff. by exists k. }
  destruct (length keys =? length (List.filter f keys))%nat eqn:E; cbn [negb].
  - apply Nat.eqb_eq in E. symmetry in E.
    split; [|split].
    + cbn [snd]. by rewrite (Heq E).
    + cbn [fst]. rewrite Hin. apply Hall in E. rewrite E. done.
    + done.
  - apply Nat.eqb_neq in E. split; [done|]. split; [|done].
    cbn [fst]. rewrite Hin. split; [intros _|done].
    apply not_true_iff_false. intros Hf. apply Hall in Hf. lia.
Qed.

(** ** Submitting a transaction (libre_network_gui.py) *)

Section Submitting.
Import Py Data Gui Wallet Views.
Context `{H : Hashing}.
Open Scope Q_scope.

Lemma transfer_fee_positive (amount : Q) : 0 < transfer_fee amount.
Proof.
  unfold transfer_fee. destruct (Qle_bool _ _) eqn:E; [done|].
  apply not_true_iff_false in E. rewrite Qle_bool_iff in E.
  apply Qnot_le_lt in E. eapply Qlt_trans; [|exact E]. done.
Qed.

(** What [priced] lets through. *)
Lemma priced_spec (t to_addr self_addr : string) (typed : Typed) (tx tx' : Tx)
    (fs : Files) :
  amount tx = 0%Q -> fee tx = 0%Q ->
  priced t to_addr self_addr typed tx fs = inr tx' ->
  tx_id tx' = tx_id tx /\ tx_type tx' = tx_type tx /\ tx_from tx' = tx_from tx /\
  tx_to tx' = tx_to tx /\ tx_nonce tx' = tx_nonce tx /\
  timestamp tx' = timestamp tx /\ tx_signature tx' = tx_signature tx /\
  0 <= amount tx' /\
  (t = "transfer" ->
   0 < amount tx' /\ has_user to_addr (USERS_FILE fs) = true /\
   fee tx' = transfer_fee (amount tx')) /\
  (t = "new_account" -> String.length to_addr = 16%nat /\ fee tx' = 1) /\
  (t = "join_pool" ->
   contains self_addr (MINER_POOL_FILE fs) = false /\ fee tx' = 1 # 1000000) /\
  (t = "transfer" \/ t = "new_account" \/ t = "join_pool" -> 0 < fee tx').
Proof.
  intros Ha Hf. unfold priced.
  destruct (String.eqb t "transfer") eqn:Et.
  { apply String.eqb_eq in Et. subst t.
    destruct typed as [|value]; [done|].
    destruct (Qle_bool value 0) eqn:Ev; [done|].
    destruct (negb (has_user to_addr (USERS_FILE fs))) eqn:Eu; [done|].
    intros [= <-]. simpl.
    apply not_true_iff_false in Ev. rewrite Qle_bool_iff in Ev.
    apply Qnot_le_lt in Ev. apply negb_false_iff in Eu.
    repeat split; try done; try (by apply Qlt_le_weak);
      try (intros; by apply transfer_fee_positive). }
  destruct (String.eqb t "new_account") eqn:En.
  { apply String.eqb_eq in En. subst t.
    destruct (String.eqb to_addr "" || negb (String.length to_addr =? 16)%nat)
      eqn:Eo; [done|].
    apply orb_false_iff in Eo as [_ Eo]. apply negb_false_iff, Nat.eqb_eq in Eo.
    intros [= <-]. simpl. repeat split; done. }
  destruct (String.eqb t "join_pool") eqn:Ej.
  { apply String.eqb_eq in Ej. subst t.
    destruct (contains self_addr (MINER_POOL_FILE fs)) eqn:Ec; [done|].
    intros [= <-]. simpl. repeat split; done. }
  intros [= <-]. rewrite Ha.
  apply String.eqb_neq in Et, En, Ej.
  repeat split; try done. intros [?|[?|?]]; done.
Qed.

End Submitting.



(** ** The local pool and the executor *)

Section LocalPool.
Import Py Data Gui Wallet Views.
Context `{H : Hashing}.
Open Scope Q_scope.

Lemma Forall_put {V} (Q : string * V -> Prop) (k : string) (v : V) (d : odict V) :
  Q (k, v) -> Forall Q d -> Forall Q (put k v d).
Proof.
  intros Hv. induction d as [|[k' v'] d IH]; simpl; intros Hd.
  - by constructor.
  - apply Forall_cons in Hd as [Hk Hd].
    destruct (String.eqb k k'); constructor; auto.
Qed.

(** [add_tx] leaves the users alone and pools no transfer of a negative
    amount. *)
Lemma submit_keeps_amounts (fs : Files) (r : Request) :
  Forall (fun kv => tx_type kv.2 = "transfer" -> 0 <= amount kv.2) (TX_POOL_FILE fs) ->
  USERS_FILE (submit fs r) = USERS_FILE fs /\
  Forall (fun kv => tx_type kv.2 = "transfer" -> 0 <= amount kv.2)
    (TX_POOL_FILE (submit fs r)).
Proof.
  intros Hpool. unfold submit, add_tx.
  destruct (request_wallet r) as [[[|c a] private_key]|]; try done.
  set (self_addr := String c a).
  destruct (match USERS_FILE fs !! self_addr with
            | Some u => (balance u, nonce u)
            | None => (0, 0%Z)
            end) as [sender_balance sender_nonce].
  set (tx0 := {| tx_id := request_token r |}).
  destruct (priced _ _ _ _ tx0 fs) as [w|tx1] eqn:Ep; [done|].
  destruct (priced_spec _ _ _ _ tx0 tx1 fs eq_refl eq_refl Ep)
    as (_ & _ & _ & _ & _ & _ & _ & Hamt & _).
  destruct (negb (Qle_bool (amount tx1 + fee tx1) sender_balance)); [done|].
  simpl. split; [done|].
  apply Forall_put; [|done]. simpl. done.
Qed.

Lemma submit_all_keeps_amounts (requests : list Request) (fs : Files) :
  Forall (fun kv => tx_type kv.2 = "transfer" -> 0 <= amount kv.2) (TX_POOL_FILE fs) ->
  USERS_FILE (fold_left submit requests fs) = USERS_FILE fs /\
  Forall (fun kv => tx_type kv.2 = "transfer" -> 0 <= amount kv.2)
    (TX_POOL_FILE (fold_left submit requests fs)).
Proof.
  revert fs. induction requests as [|r requests IH]; intros fs Hpool; [done|].
  simpl. destruct (submit_keeps_amounts fs r Hpool) as [Hu Hp].
  destruct (IH (submit fs r) Hp) as [Hu' Hp']. split; [congruence|done].
Qed.

End LocalPool.

(** X17.  A pool filled through [add_tx] alone cannot overdraw anyone.
    Starting from files with no negative balance and an empty pool, after any
    sequence of [add_tx] calls (accepted or refused, whatever is typed), every
    state the executor proposes has no negative balance. *)
Theorem local_pool_cannot_overdraw `{H : Py.Hashing} (requests : list Views.Request)
    (now : Z) (miner : string) (fs : Gui.Files) (st : Data.State) :
  Checks.Nonneg (Gui.USERS_FILE fs) ->
  Gui.TX_POOL_FILE fs = [] ->
  (Gui.execute_transactions now miner (fold_left Views.submit requests fs)).1 = Some st ->
  Checks.Nonneg (Data.users st).
Proof.
  intros Hn Hempty Hst.
  destruct (submit_all_keeps_amounts requests fs) as [Hu Hp];
    [rewrite Hempty; constructor|].
  eapply executor_keeps_balances_nonneg; [|exact Hp|exact Hst].
  by rewrite Hu.
Qed.

Lemma local_pool_cannot_overdraw_witness :
  exists st,
    (Gui.execute_transactions 1700000001 "M"
       (fold_left (Views.submit (H := Fixtures.keys_hashing))
          [{| Views.request_time := 1700000000; Views.request_token := "t1";
              Views.request_wallet := Some ("M", "key");
              Views.request_type := "transfer"; Views.request_to := "B";
              Views.request_amount := Wallet.Number 5 |}]
          Views.files_funded)).1 = Some st /\
    Checks.Nonneg (Data.users st).
Proof.
  eexists. split; [reflexivity|].
  apply (local_pool_cannot_overdraw (H := Fixtures.keys_hashing)
           [{| Views.request_time := 1700000000; Views.request_token := "t1";
               Views.request_wallet := Some ("M", "key");
               Views.request_type := "transfer"; Views.request_to := "B";
               Views.request_amount := Wallet.Number 5 |}]
           1700000001 "M" Views.files_funded).
  - apply balances_nonneg_spec. reflexivity.
  - reflexivity.
  - reflexivity.
Defined.

(** ** Signing a proposal (libre_network_gui.py) *)

Section Signing.
Import Py Data Gui Wallet Views.
Context `{H : Hashing} `{R : Random}.

Lemma existsb_eqb_contains (a : string) (roster : odict Z) :
  existsb (String.eqb a) (keys roster) = contains a roster.
Proof. done. Qed.

End Signing.

(** X18.  A node signs only what it has checked.  When
    [on_receive_update_request] sends a signature, the hash it received is
    the hash of the state it received, the state passes
    [verify_proposed_state], the signer is the node's own address and it is in
    the committee selected for that hash from the group of the proposed
    state (the node's own stored group is not consulted), the message goes
    to the port named in the request, and it carries the received hash and
    [sign_state_hash] of it. *)
Theorem update_request_signed_only_if_checked `{H : Py.Hashing} `{R : Py.Random}
    (g g' : Py.rng) (wallet : option (string * string)) (state : Data.State)
    (received_hash miner : string) (miner_port : option Z) (p : Z)
    (sig : Consensus.Signature) :
  Wallet.on_receive_update_request g wallet state received_hash miner miner_port
  = Some (Some (p, sig), g') ->
  Gui.hash_state state = received_hash /\
  Proposal.verify_proposed_state miner state = true /\
  miner_port = Some p /\ p <> 0 /\
  exists private_key selected,
    wallet = Some (Consensus.signer sig, private_key) /\
    Gui.get_selected_miners g received_hash
      (Data.miners (Data.current_group state)) = Some (selected, g') /\
    Consensus.signer sig ∈ selected /\
    Consensus.sig_state_hash sig = received_hash /\
    Consensus.signature sig = Wallet.sign_state_hash private_key received_hash.
Proof.
  unfold Wallet.on_receive_update_request.
  destruct (String.eqb (Gui.hash_state state) received_hash) eqn:Eh; [|done].
  apply String.eqb_eq in Eh. cbn [negb].
  destruct (Proposal.verify_proposed_state miner state) eqn:Ev; [|done]. cbn [negb].
  destruct (Gui.get_selected_miners g received_hash _) as [[selected g1]|] eqn:Es;
    [|done].
  destruct wallet as [[self_addr private_key]|]; [|done].
  destruct (existsb (String.eqb self_addr) selected) eqn:Ein; [|done].
  destruct miner_port as [port|]; [|done]. unfold P2P.truthy_port.
  destruct (port =? 0) eqn:Ep; [done|]. cbn [negb default].
  intros [= <- <- <-]. apply Z.eqb_neq in Ep.
  repeat split; try done.
  exists private_key, selected. simpl. repeat split; try done.
  by apply existsb_eqb_elem_of.
Qed.

Lemma update_request_signed_only_if_checked_witness :
  exists st sig,
    Wallet.on_receive_update_request (H := Views.hex_hashing) (R := rotating_random) 0
      (Some ("M", "key")) st Fixtures.hash_ab "M" (Some 5000)
    = Some (Some (5000, sig), 77648812782670860460512307594061302913369283834606025297048026922953510464427) /\
    Proposal.verify_proposed_state "M" st = true /\
    Consensus.signer sig = "M".
Proof.
  exists (default (Gui.stored_state Fixtures.files_one_miner)
            (Gui.execute_transactions 1700000000 "M" Fixtures.files_one_miner).1).
  eexists. split; [vm_compute; reflexivity|].
  match goal with
  | |- context [Consensus.signer ?s] =>
      destruct (update_request_signed_only_if_checked (H := Views.hex_hashing)
                  (R := rotating_random) 0
                  77648812782670860460512307594061302913369283834606025297048026922953510464427
                  (Some ("M", "key"))
                  (default (Gui.stored_state Fixtures.files_one_miner)
                     (Gui.execute_transactions 1700000000 "M"
                        Fixtures.files_one_miner).1)
                  Fixtures.hash_ab "M" (Some 5000) 5000 s)
        as (_ & Hv & _ & _ & key & sel & Hw & _)
  end.
  - vm_compute. reflexivity.
  - split; [exact Hv|]. reflexivity.
Defined.

(** X19.  The members of a small group sign the miner's proposal.  When
    [mine] returns a proposal whose hash is a hex digest, and the current
    group has at most 100 members, every member of the group that receives
    the miner's update request (with a port) answers with a signature of its
    own over the proposal's hash: the hash check, [verify_proposed_state] and
    the committee check all pass. *)
Theorem group_members_sign_mined_proposal `{H : Py.Hashing} `{R : Py.Random}
    (now : Z) (miner : string) (fs fs1 : Gui.Files) (upd : Gui.Update) (g : Py.rng)
    (member private_key : string) (port : Z) :
  Gui.mine now miner fs = (Some upd, fs1) ->
  Py.hexdigest (Gui.upd_state_hash upd) = true ->
  (length (Data.miners (Gui.CURRENT_GROUP_FILE fs)) <= 100)%nat ->
  Py.contains member (Data.miners (Gui.CURRENT_GROUP_FILE fs)) = true ->
  port <> 0 ->
  exists g',
    Wallet.on_receive_update_request g (Some (member, private_key))
      (Gui.upd_state upd) (Gui.upd_state_hash upd) miner (Some port)
    = Some (Some (port,
                  {| Consensus.sig_state_hash := Gui.upd_state_hash upd;
                     Consensus.signer := member;
                     Consensus.signature :=
                       Wallet.sign_state_hash private_key (Gui.upd_state_hash upd) |}),
            g').
Proof.
  intros Hmine Hhex Hlen Hin Hport. unfold Gui.mine in Hmine.
  destruct (Gui.execute_transactions now miner fs) as [[st|] fs2] eqn:Eex; [|done].
  injection Hmine as <- <-. simpl in *.
  assert (Hst : (Gui.execute_transactions now miner fs).1 = Some st) by (by rewrite Eex).
  destruct (execute_transactions_validates now miner fs st Hst) as [Hv _].
  destruct (execute_transactions_reward now miner fs st Hst) as (_ & Hg & _).
  destruct (int16_hexdigest _ Hhex) as [seed Hseed].
  exists (Py.rng_seed seed).
  unfold Wallet.on_receive_update_request.
  rewrite String.eqb_refl, Hv. cbn [negb]. rewrite Hg.
  rewrite (gui_selection_small g _ _ seed Hseed) by (by rewrite length_keys).
  rewrite existsb_eqb_contains, Hin.
  unfold P2P.truthy_port. apply Z.eqb_neq in Hport. rewrite Hport. done.
Qed.

Lemma group_members_sign_mined_proposal_witness :
  exists g' upd fs1,
    Gui.mine (H := Views.hex_hashing) 1700000000 "M" Fixtures.files_one_miner
    = (Some upd, fs1) /\
    Wallet.on_receive_update_request (H := Views.hex_hashing) (R := rotating_random) 0
      (Some ("M", "key")) (Gui.upd_state upd) (Gui.upd_state_hash upd) "M" (Some 5000)
    = Some (Some (5000,
                  {| Consensus.sig_state_hash := Gui.upd_state_hash upd;
                     Consensus.signer := "M";
                     Consensus.signature :=
                       Wallet.sign_state_hash (H := Views.hex_hashing) "key"
                         (Gui.upd_state_hash upd) |}),
            g').
Proof.
  destruct (group_members_sign_mined_proposal (H := Views.hex_hashing)
              (R := rotating_random) 1700000000 "M" Fixtures.files_one_miner
              _ _ 0 "M" "key" 5000 eq_refl eq_refl) as [g' Hg'].
  - simpl. lia.
  - reflexivity.
  - done.
  - exists g'. eexists _, _. split; [reflexivity|]. exact Hg'.
Defined.

(** X20.  [on_receive_final_update] installs whatever state comes with
    enough entries of committee members.  With a hash that reads as a
    hexadecimal number and a stored group of at most 100 members, a final
    update carrying 100 or more copies of one signature of one member is
    accepted, and the files afterwards hold the state of the message,
    whatever that state is: the signers are not required to differ, and the
    state is not compared with the hash. *)
Theorem final_update_installs_any_state `{H : Py.Hashing} `{R : Py.Random}
    (now : Z) (g : Py.rng) (state : Data.State) (state_hash : string) (seed : Z)
    (sig : Consensus.Signature) (n : nat) (self : Gui.Main) :
  Py.int16 state_hash = Some seed ->
  (length (Data.miners (Gui.CURRENT_GROUP_FILE (Gui.files self))) <= 100)%nat ->
  Py.contains (Consensus.signer sig)
    (Data.miners (Gui.CURRENT_GROUP_FILE (Gui.files self))) = true ->
  (100 <= n)%nat ->
  Gui.on_receive_final_update now g state state_hash (repeat sig n) self
  = Some (Gui.apply_final_state now state (repeat sig n) self, Py.rng_seed seed) /\
  Gui.stored_state
    (Gui.files (Gui.apply_final_state now state (repeat sig n) self)) = state.
Proof.
  intros Hseed Hlen Hin Hn. split.
  - unfold Gui.on_receive_final_update.
    replace (length (repeat sig n) <? 100)%nat with false
      by (symmetry; apply Nat.ltb_ge; by rewrite repeat_length).
    unfold Gui.get_group.
    rewrite (gui_selection_small g _ _ seed Hseed) by (by rewrite length_keys).
    replace (forallb _ (repeat sig n)) with true; [done|].
    symmetry. apply forallb_forall. intros s Hs. apply repeat_spec in Hs. by subst.
  - rewrite apply_final_state_files. by destruct state.
Qed.

Lemma final_update_installs_any_state_witness :
  Gui.stored_state
    (Gui.files
       (Gui.apply_final_state (H := Fixtures.keys_hashing) 0
          (Gui.stored_state Fixtures.files_overdraw)
          (repeat {| Consensus.sig_state_hash := Fixtures.hash_ab;
                     Consensus.signer := "M"; Consensus.signature := "" |} 100)
          Fixtures.node_idle))
  = Gui.stored_state Fixtures.files_overdraw.
Proof.
  apply (final_update_installs_any_state (H := Fixtures.keys_hashing)
           (R := rotating_random) 0 0 (Gui.stored_state Fixtures.files_overdraw)
           Fixtures.hash_ab
           77648812782670860460512307594061302913369283834606025297048026922953510464427
           {| Consensus.sig_state_hash := Fixtures.hash_ab;
              Consensus.signer := "M"; Consensus.signature := "" |} 100
           Fixtures.node_idle).
  - vm_compute. reflexivity.
  - simpl. lia.
  - reflexivity.
  - lia.
Defined.

(** ** The timers of the miner (libre_network_gui.py) *)

Section Timers.
Import Py Data Gui Wallet Views.
Context `{H : Hashing} `{R : Random}.

Lemma settled_trigger_rebuild (self : Main) :
  settled self -> signature_timer self = None \/ is_mining self = true ->
  settled (trigger_rebuild self).
Proof.
  unfold settled, trigger_rebuild. intros [Hs Hx] Hor.
  destruct (is_mining self) eqn:Em; simpl.
  - rewrite Em. split; [done|by left].
  - rewrite Em. done.
Qed.

Lemma settled_mine_cycle (now : Z) (self : Main) :
  settled self -> settled (mine_cycle now self).
Proof.
  unfold settled, mine_cycle. intros [Hs Hx].
  destruct (is_mining self) eqn:Em; simpl; [|by rewrite Em].
  destruct (mine now (addr self) (files self)) as [[upd|] fs1]; simpl;
    rewrite Em; split; try done; first [by right|by left].
Qed.

Lemma settled_frame (self self' : Main) :
  is_mining self' = is_mining self ->
  signature_timer self' = signature_timer self ->
  rebuild_timer self' = rebuild_timer self ->
  settled self -> settled self'.
Proof. unfold settled. by intros -> -> ->. Qed.

Lemma settled_apply_final_state (now : Z) (state : State) (sigs : list Signature)
    (self : Main) :
  settled self -> settled (apply_final_state now state sigs self).
Proof.
  intros Hs. unfold apply_final_state. cbv zeta.
  set (self1 := with_files _ self).
  assert (H1 : settled self1) by (by eapply settled_frame).
  change (is_mining self1) with (is_mining self).
  destruct (is_mining self) eqn:Em; [|done].
  apply settled_trigger_rebuild; [done|by right].
Qed.

Lemma settled_on_receive_signature (now : Z) (sig : Signature) (self : Main) :
  settled self -> settled (on_receive_signature now self sig).
Proof.
  intros Hs. unfold on_receive_signature.
  destruct (collected_signatures self !! sig_state_hash sig) as [collected|]; [|done].
  cbv zeta.
  destruct (100 <=? length (collected ++ [sig]))%nat; [|by eapply settled_frame].
  match goal with
  | |- context [pending_updates ?s !! _] => destruct (pending_updates s !! _) as [upd|]
  end; [|by eapply settled_frame].
  match goal with
  | |- settled (with_rounds _ _ ?s3) =>
      assert (H3 : settled s3); [|by eapply settled_frame]
  end.
  apply settled_apply_final_state. by eapply settled_frame.
Qed.

Lemma settled_step (s : Main * rng) (e : Event) :
  settled s.1 -> settled (step s e).1.
Proof.
  destruct s as [self g]. simpl. intros Hs.
  destruct e; simpl.
  - unfold start_mining. destruct (String.eqb (addr self) ""); [done|].
    unfold mine_cycle, settled. simpl.
    destruct (mine now (addr self) (files self)) as [[upd|] fs1]; simpl;
      split; try done; first [by right|by left].
  - unfold stop_mining, settled. simpl. split; [done|by left].
  - unfold update_mine_wait. simpl.
    destruct (is_mining self) eqn:Em.
    + unfold trigger_rebuild, settled. simpl. rewrite Em. simpl.
      split; [intros E; congruence|by left].
    + done.
  - destruct (signature_timer self) eqn:Et; simpl; [|done].
    unfold handle_signature_timeout.
    apply settled_trigger_rebuild; [|by left].
    destruct Hs as [Hs Hx]. unfold settled. simpl. split; [|by left].
    intros Em. destruct (Hs Em) as [Hsig _]. congruence.
  - destruct (rebuild_timer self) eqn:Et; simpl; [|done].
    apply settled_mine_cycle.
    destruct Hs as [Hs Hx]. unfold settled. simpl. split; [|by right].
    intros Em. destruct (Hs Em) as [_ Hreb]. congruence.
  - by apply settled_on_receive_signature.
  - unfold on_receive_final_update.
    destruct (length signatures <? 100)%nat; [done|].
    destruct (get_selected_miners g state_hash _) as [[selected g1]|]; [|done].
    destruct (forallb _ signatures); simpl; [|done].
    by apply settled_apply_final_state.
  - done.
Qed.

End Timers.

(** X21.  A stopped miner stays stopped, and rebuilds do not stack.  On a
    node that starts with mining off and no timer armed, after any sequence
    of button presses, timer expiries and messages: whenever mining is off
    neither the signature timer nor the rebuild timer is armed (so nothing
    will call [mine_cycle] again until [start_mining]), and the two timers are
    never armed at the same time. *)
Theorem stopped_miner_has_no_timer `{H : Py.Hashing} `{R : Py.Random}
    (self : Gui.Main) (g : Py.rng) (events : list Wallet.Event) :
  Gui.is_mining self = false ->
  Gui.signature_timer self = None ->
  Gui.rebuild_timer self = None ->
  let self' := (fold_left Wallet.step events (self, g)).1 in
  (Gui.is_mining self' = false ->
   Gui.signature_timer self' = None /\ Gui.rebuild_timer self' = None) /\
  (Gui.signature_timer self' = None \/ Gui.rebuild_timer self' = None).
Proof.
  intros Hm Hs Hr.
  assert (Hstart : Views.settled (self, g).1) by (split; [done|by left]).
  generalize dependent (self, g). clear. intros s Hs.
  revert s Hs. induction events as [|e events IH]; intros s Hs; [done|].
  simpl. apply IH. by apply settled_step.
Qed.

Lemma stopped_miner_has_no_timer_witness :
  let self' :=
    (fold_left (Wallet.step (H := Fixtures.keys_hashing) (R := rotating_random))
       [Wallet.StartMining 1700000000; Wallet.SignatureTimer; Wallet.StopMining]
       (Wallet.stop_mining Fixtures.node_idle, 0)).1 in
  (Gui.is_mining self' = false ->
   Gui.signature_timer self' = None /\ Gui.rebuild_timer self' = None) /\
  (Gui.signature_timer self' = None \/ Gui.rebuild_timer self' = None).
Proof.
  apply (stopped_miner_has_no_timer (H := Fixtures.keys_hashing)
           (R := rotating_random) (Wallet.stop_mining Fixtures.node_idle) 0
           [Wallet.StartMining 1700000000; Wallet.SignatureTimer; Wallet.StopMining]);
    reflexivity.
Defined.

(** ** The block files (libre_network_gui.py) *)

Section BlockFiles.
Import Py Data Gui Views.
Context `{H : Hashing}.

Lemma str_inj (a b : Z) : str a = str b -> a = b.
Proof.
  unfold str. intros Hs.
  assert (Hd : forall z, NilZero.int_of_string (NilZero.string_of_int (Z.to_int z))
                         = Some (Z.to_int z)).
  { intros z. apply NilZero.isi; destruct z; simpl; try done.
    - intros Hp. injection Hp as Hp.
      by apply DecimalPos.Unsigned.to_uint_nonnil in Hp.
    - intros Hp. injection Hp as Hp.
      by apply DecimalPos.Unsigned.to_uint_nonnil in Hp. }
  pose proof (Hd a) as Ha. rewrite Hs, Hd in Ha. injection Ha as Ha.
  by apply DecimalZ.to_int_inj.
Qed.

Lemma length_append_string (s t : string) :
  String.length (s ++ t) = (String.length s + String.length t)%nat.
Proof. induction s as [|c s IH]; simpl; [done|]. by rewrite IH. Qed.

Lemma app_inv_tail_string (s1 s2 t : string) : s1 ++ t = s2 ++ t -> s1 = s2.
Proof.
  intros Heq.
  assert (Hlen : String.length s1 = String.length s2).
  { apply (f_equal String.length) in Heq. rewrite !length_append_string in Heq. lia. }
  revert s2 Heq Hlen. induction s1 as [|c s1 IH]; intros [|c2 s2] Heq Hlen;
    simpl in *; try done.
  injection Heq as -> Heq. f_equal. apply IH; [done|lia].
Qed.

Lemma block_file_inj (a b : Z) : block_file a = block_file b -> a = b.
Proof.
  unfold block_file. intros Heq. apply String.app_inj in Heq.
  apply app_inv_tail_string in Heq. by apply str_inj.
Qed.

End BlockFiles.

(** X22.  Installed blocks are numbered without overwriting.  If the
    blocks directory holds exactly the files of the blocks [1 .. n], each
    with its own number, then [apply_final_state] adds the file of block
    [n + 1], holding that number, the hash of the installed state and the
    signatures, and leaves every older file as it was; the directory then
    holds exactly the files of [1 .. n + 1]. *)
Theorem installed_blocks_are_numbered `{H : Py.Hashing} (now : Z) (state : Data.State)
    (signatures : list Consensus.Signature) (self : Gui.Main) (n : nat) :
  Views.blocks_numbered n (Gui.BLOCKS_DIR (Gui.files self)) ->
  let dir' := Gui.BLOCKS_DIR (Gui.files (Gui.apply_final_state now state signatures self)) in
  Views.blocks_numbered (S n) dir' /\
  dir' !! Views.block_file (Z.of_nat n + 1)
  = Some {| Gui.file_block_number := Z.of_nat n + 1;
            Gui.file_state_hash := Gui.hash_state state;
            Gui.file_signatures := signatures;
            Gui.file_timestamp := now |} /\
  forall i : Z, 1 <= i <= Z.of_nat n ->
    dir' !! Views.block_file i
    = Gui.BLOCKS_DIR (Gui.files self) !! Views.block_file i.
Proof.
  intros [Hsize Hfiles] dir'. subst dir'. rewrite apply_final_state_files.
  cbn [Gui.BLOCKS_DIR]. rewrite Hsize.
  fold (Views.block_file (Z.of_nat n + 1)).
  set (dir := Gui.BLOCKS_DIR (Gui.files self)) in *.
  assert (Hold : forall i : Z, 1 <= i <= Z.of_nat n ->
            Views.block_file (Z.of_nat n + 1) <> Views.block_file i).
  { intros i Hi Heq. apply block_file_inj in Heq. lia. }
  assert (Hfresh : dir !! Views.block_file (Z.of_nat n + 1) = None).
  { destruct (dir !! Views.block_file (Z.of_nat n + 1)) as [b|] eqn:Eb; [|done].
    exfalso.
    set (names := (fun i : nat => Views.block_file (Z.of_nat i)) <$> seq 1 (S n)).
    assert (Hnd : NoDup names).
    { apply NoDup_fmap_2; [|apply NoDup_seq].
      intros i j Hij. apply block_file_inj in Hij. lia. }
    assert (Hsub : names ⊆ (map_to_list dir).*1).
    { intros name Hname. apply list_elem_of_fmap in Hname as (i & -> & Hi).
      apply elem_of_seq in Hi.
      assert (His : is_Some (dir !! Views.block_file (Z.of_nat i))).
      { destruct (decide (i = S n)) as [->|Hne].
        - replace (Z.of_nat (S n)) with (Z.of_nat n + 1) by lia. by eexists.
        - destruct (Hfiles (Z.of_nat i)) as (b' & Hb' & _); [lia|]. by eexists. }
      destruct His as [b' Hb'].
      apply list_elem_of_fmap. exists (Views.block_file (Z.of_nat i), b').
      split; [done|]. by apply elem_of_map_to_list. }
    pose proof (NoDup_submseteq _ _ Hnd Hsub) as Hle.
    apply submseteq_length in Hle.
    rewrite length_fmap, length_map_to_list in Hle.
    unfold names in Hle. rewrite length_fmap, length_seq in Hle. lia. }
  split; [|split].
  - split.
    + by rewrite map_size_insert_None, Hsize.
    + intros i Hi. destruct (decide (i = Z.of_nat n + 1)) as [->|Hne].
      * rewrite lookup_insert_eq. by eexists.
      * rewrite lookup_insert_ne by (intros Heq; apply block_file_inj in Heq; lia).
        apply Hfiles. lia.
  - by rewrite lookup_insert_eq.
  - intros i Hi. rewrite lookup_insert_ne; [done|]. by apply Hold.
Qed.

Lemma installed_blocks_are_numbered_witness :
  Views.blocks_numbered 1
    (Gui.BLOCKS_DIR
       (Gui.files
          (Gui.apply_final_state (H := Fixtures.keys_hashing) 0
             (Gui.stored_state Fixtures.files_one_miner) [] Fixtures.node_idle))).
Proof.
  apply (installed_blocks_are_numbered (H := Fixtures.keys_hashing) 0
           (Gui.stored_state Fixtures.files_one_miner) [] Fixtures.node_idle 0).
  split; [reflexivity|]. intros i Hi. simpl in Hi. lia.
Defined.

(** ** Lives (libre_network_gui.py) *)

Section Lives.
Import Py Data Gui Views.

Lemma lookup_decrease_life_all (fs : Files) (a : string) :
  USERS_FILE (decrease_life fs) !! a
  = match USERS_FILE fs !! a with
    | Some u => if decide (1 < life u) then Some (age u) else None
    | None => None
    end.
Proof.
  unfold decrease_life. simpl. apply option_eq. intros v.
  rewrite map_lookup_filter_Some, lookup_fmap. simpl.
  destruct (USERS_FILE fs !! a) as [u|]; simpl.
  - case_decide.
    + split; [by intros [[= <-] _]|]. intros [= <-]. split; [done|simpl; lia].
    + split; [|done]. intros [[= <-] Hl]. simpl in Hl. lia.
  - split; [by intros [? _]|done].
Qed.

End Lives.

(** X23.  A life is one call of [decrease_life].  A stored user with a
    positive life [L] is still stored after [n] calls when [n < L], with
    balance and nonce untouched and life [L - n], and is gone after [L] calls
    or more, balance included. *)
Theorem life_counts_calls (fs : Gui.Files) (a : string) (u : Data.User) (n : nat) :
  Gui.USERS_FILE fs !! a = Some u -> 0 < Data.life u ->
  Gui.USERS_FILE (Nat.iter n Gui.decrease_life fs) !! a
  = if decide (Z.of_nat n < Data.life u) then Some (Views.aged n u) else None.
Proof.
  intros Hu Hl. induction n as [|n IH].
  - simpl. rewrite decide_True by lia. rewrite Hu. f_equal.
    destruct u. unfold Views.aged. simpl. f_equal. lia.
  - change (Nat.iter (S n) Gui.decrease_life fs)
      with (Gui.decrease_life (Nat.iter n Gui.decrease_life fs)).
    rewrite lookup_decrease_life_all, IH.
    destruct (decide (Z.of_nat n < Data.life u)) as [Hn|Hn].
    + unfold Views.aged at 1. simpl.
      destruct (decide (1 < Data.life u - Z.of_nat n)) as [H1|H1].
      * rewrite decide_True by lia. f_equal. unfold Gui.age, Views.aged. simpl.
        f_equal. lia.
      * by rewrite decide_False by lia.
    + by rewrite decide_False by lia.
Qed.

Lemma life_counts_calls_witness :
  Gui.USERS_FILE (Nat.iter 3 Gui.decrease_life Fixtures.files_one_miner) !! "M"
  = if decide (Z.of_nat 3 < 1000)
    then Some (Views.aged 3 (Fixtures.user "M" 0 1000).2) else None.
Proof.
  apply (life_counts_calls Fixtures.files_one_miner "M" (Fixtures.user "M" 0 1000).2 3).
  - reflexivity.
  - reflexivity.
Defined.

(** ** What the executor does not look at *)

Section Unchecked.
Import Py Data Gui Views.

Lemma keys_put_same {V W} (k : string) (v : V) (w : W) (d : odict V) (e : odict W) :
  keys d = keys e -> keys (put k v d) = keys (put k w e).
Proof.
  revert e. induction d as [|[k1 v1] d IH]; intros [|[k2 w2] e] Hk;
    simpl in *; try done.
  injection Hk as -> Hk. destruct (String.eqb k k2); simpl; [by rewrite Hk|].
  f_equal. by apply IH.
Qed.

Lemma execute_one_same_request (now : Z) (us : gmap string User) (mp : odict Z)
    (ex ex' : odict Executed) (txid : string) (tx tx' : Tx) :
  same_request tx' tx -> keys ex = keys ex' ->
  let r := execute_one now (us, mp, ex) (txid, tx) in
  let r' := execute_one now (us, mp, ex') (txid, tx') in
  r.1 = r'.1 /\ keys r.2 = keys r'.2.
Proof.
  intros (Hty & Hfrom & Hto & Hamt & Hfee) Hk. unfold execute_one.
  rewrite Hty, Hfrom, Hto, Hamt, Hfee.
  destruct (us !! tx_from tx) as [s|]; [|done].
  repeat case_match; simplify_eq/=; try done; split; try done;
    by apply keys_put_same.
Qed.

Lemma execute_pool_same_request (now : Z) (forge : Tx -> Tx) (pool : odict Tx)
    (us : gmap string User) (mp : odict Z) (ex ex' : odict Executed) :
  (forall tx, same_request (forge tx) tx) -> keys ex = keys ex' ->
  let r := fold_left (execute_one now) pool (us, mp, ex) in
  let r' := fold_left (execute_one now) (map (fun kv => (kv.1, forge kv.2)) pool)
              (us, mp, ex') in
  r.1 = r'.1 /\ keys r.2 = keys r'.2.
Proof.
  intros Hforge. revert us mp ex ex'.
  induction pool as [|[txid tx] pool IH]; intros us mp ex ex' Hk; [done|].
  cbn [fold_left map fst snd]. cbv zeta.
  destruct (execute_one_same_request now us mp ex ex' txid tx (forge tx)
              (Hforge tx) Hk) as [H1 H2].
  destruct (execute_one now (us, mp, ex) (txid, tx)) as [[us1 mp1] ex1].
  destruct (execute_one now (us, mp, ex') (txid, forge tx)) as [[us2 mp2] ex2].
  simpl in *. injection H1 as <- <-. exact (IH us1 mp1 ex1 ex2 H2).
Qed.

End Unchecked.

(** X24.  The executor does not look at nonces, timestamps or signatures.
    If every pooled transaction is replaced by one that asks for the same
    thing (same type, sender, recipient, amount and fee) under the same id,
    whatever its nonce, timestamp and signature, the executor returns a
    proposal in the same cases, with the same users, miner pool and group, and
    records the same ids in the same order. *)
Theorem executor_ignores_nonce_and_signature (now : Z) (miner : string)
    (fs : Gui.Files) (forge : Data.Tx -> Data.Tx) :
  (forall tx, Views.same_request (forge tx) tx) ->
  Views.same_outcome
    (Gui.execute_transactions now miner fs).1
    (Gui.execute_transactions now miner
       (Gui.write_tx_pool (map (fun kv => (kv.1, forge kv.2)) (Gui.TX_POOL_FILE fs))
          fs)).1.
Proof.
  intros Hforge. unfold Gui.execute_transactions. simpl.
  destruct (negb (Gui.has_user miner (Gui.USERS_FILE fs))); [constructor|].
  unfold Gui.get_group. simpl.
  destruct (negb (Py.contains miner (Data.miners (Gui.CURRENT_GROUP_FILE fs))));
    [constructor|].
  destruct (negb (Gui.has_user miner _)); [constructor|].
  destruct (execute_pool_same_request now forge (Gui.TX_POOL_FILE fs)
              (Gui.USERS_FILE (Gui.decrease_life fs)) (Gui.MINER_POOL_FILE fs) [] []
              Hforge eq_refl) as [H1 H2].
  change (Gui.MINER_POOL_FILE (Gui.decrease_life fs)) with (Gui.MINER_POOL_FILE fs).
  change (Gui.TX_POOL_FILE (Gui.decrease_life fs)) with (Gui.TX_POOL_FILE fs).
  destruct (fold_left (Gui.execute_one now) (Gui.TX_POOL_FILE fs) _)
    as [[us1 mp1] ex1].
  destruct (fold_left (Gui.execute_one now) (map _ (Gui.TX_POOL_FILE fs)) _)
    as [[us2 mp2] ex2].
  simpl in *. injection H1 as <- <-.
  constructor. simpl. repeat split; try done. by apply keys_put_same.
Qed.

Lemma executor_ignores_nonce_and_signature_witness :
  Views.same_outcome
    (Gui.execute_transactions 1700000000 "M" Views.files_transfer).1
    (Gui.execute_transactions 1700000000 "M"
       (Gui.write_tx_pool
          (map (fun kv => (kv.1, Views.forged kv.2))
             (Gui.TX_POOL_FILE Views.files_transfer))
          Views.files_transfer)).1.
Proof.
  apply (executor_ignores_nonce_and_signature 1700000000 "M" Views.files_transfer
           Views.forged).
  intros tx. by repeat split.
Defined.

(** ** The supply *)

Section Supply.
Import Py Data Gui Wallet Views.
Open Scope Q_scope.

Lemma fold_left_Qplus {A} (f : A -> Q) (l : list A) (a : Q) :
  fold_left (fun acc x => acc + f x) l a == a + foldr Qplus 0 (map f l).
Proof.
  revert a. induction l as [|x l IH]; intros a; simpl; [lra|].
  rewrite IH. lra.
Qed.

Lemma sum_permutation (l l' : list Q) :
  l ≡ₚ l' -> foldr Qplus 0 l == foldr Qplus 0 l'.
Proof.
  induction 1 as [|x l l' _ IH|x y l|l l' l'' _ IH1 _ IH2]; simpl.
  - reflexivity.
  - by rewrite IH.
  - lra.
  - by rewrite IH1.
Qed.

Lemma total_coins_insert (k : string) (v : User) (us : gmap string User) :
  us !! k = None -> total_coins (<[k := v]> us) == balance v + total_coins us.
Proof.
  intros Hk. unfold total_coins. rewrite !fold_left_Qplus.
  rewrite (sum_permutation
             (map balance (map_to_list (<[k := v]> us)).*2)
             (map balance ((k, v) :: map_to_list us).*2)).
  - rewrite fmap_cons. cbn [map foldr snd].
    generalize (foldr Qplus 0 (map balance (map_to_list us).*2)). intros x.
    generalize (balance v). intros y. lra.
  - apply Permutation_map, fmap_Permutation. by apply map_to_list_insert.
Qed.

Lemma total_coins_alter (f : User -> User) (k : string) (u : User)
    (us : gmap string User) :
  us !! k = Some u ->
  total_coins (alter f k us) == total_coins us - balance u + balance (f u).
Proof.
  intros Hk.
  assert (Ha : alter f k us = <[k := f u]> (delete k us)).
  { apply map_eq. intros i. destruct (decide (i = k)) as [->|Hne].
    - by rewrite lookup_alter_eq, lookup_insert_eq, Hk.
    - by rewrite lookup_alter_ne, lookup_insert_ne, lookup_delete_ne. }
  assert (Hu : us = <[k := u]> (delete k us)).
  { apply map_eq. intros i. destruct (decide (i = k)) as [->|Hne].
    - by rewrite lookup_insert_eq.
    - by rewrite lookup_insert_ne, lookup_delete_ne. }
  rewrite Ha. rewrite Hu at 2.
  rewrite !total_coins_insert by apply lookup_delete_eq. lra.
Qed.

Lemma total_coins_alter_same (f : User -> User) (k : string) (us : gmap string User) :
  (forall u, balance (f u) = balance u) ->
  total_coins (alter f k us) == total_coins us.
Proof.
  intros Hf. destruct (us !! k) as [u|] eqn:Hk.
  - rewrite (total_coins_alter f k u us Hk), Hf. lra.
  - assert (alter f k us = us) as ->; [|reflexivity].
    apply map_eq. intros i. destruct (decide (i = k)) as [->|Hne].
    + by rewrite lookup_alter_eq, Hk.
    + by rewrite lookup_alter_ne.
Qed.

Lemma put_append {V} (k : string) (v : V) (d : odict V) :
  k ∉ keys d -> put k v d = (d ++ [(k, v)])%list.
Proof.
  induction d as [|[k' v'] d IH]; simpl; [done|].
  intros Hk. apply not_elem_of_cons in Hk as [Hne Hk].
  destruct (String.eqb_spec k k'); [done|]. by rewrite IH.
Qed.

Lemma fees_of_put (k : string) (e : Executed) (ex : odict Executed) :
  k ∉ keys ex ->
  fees_of (put k e ex)
  == fees_of ex + match e with Pooled tx => fee tx | Reward _ _ _ => 0 end.
Proof.
  intros Hk. rewrite put_append by done. unfold fees_of.
  rewrite fold_left_app. simpl. reflexivity.
Qed.

Lemma keys_put_append {V} (k : string) (v : V) (d : odict V) :
  k ∉ keys d -> keys (put k v d) = (keys d ++ [k])%list.
Proof.
  intros Hk. rewrite put_append by done. unfold keys. by rewrite map_app.
Qed.

(** One pool entry moves coins between users and takes its fee out of the
    total when it is recorded; otherwise it changes nothing. *)
Lemma execute_one_supply (now : Z) (us : gmap string User) (mp : odict Z)
    (ex : odict Executed) (txid : string) (tx : Tx) :
  txid ∉ keys ex ->
  let r := execute_one now (us, mp, ex) (txid, tx) in
  total_coins r.1.1 + fees_of r.2 == total_coins us + fees_of ex /\
  (keys r.2 = keys ex \/ keys r.2 = (keys ex ++ [txid])%list).
Proof.
  intros Hfresh. unfold execute_one.
  destruct (us !! tx_from tx) as [s|] eqn:Hs; [|by split; [|left]].
  destruct (String.eqb (tx_type tx) "transfer").
  { destruct (has_user (tx_to tx) us && Qle_bool (amount tx + fee tx) (balance s))
      eqn:Ec; [|by split; [|left]].
    apply andb_true_iff in Ec as [Eto _].
    apply bool_decide_eq_true in Eto as [r Hr].
    cbn [fst snd]. split; [|right; by apply keys_put_append].
    rewrite fees_of_put by done.
    rewrite total_coins_alter_same by done.
    assert (Hto : exists r', alter (debit (amount tx + fee tx)) (tx_from tx) us
                             !! tx_to tx = Some r' /\
                             (balance r' == balance r - (if decide (tx_to tx = tx_from tx)
                                                         then amount tx + fee tx else 0))).
    { destruct (decide (tx_to tx = tx_from tx)) as [Heq|Hne].
      - rewrite Heq, lookup_alter_eq, Hs. eexists. split; [done|].
        rewrite Heq, Hs in Hr. injection Hr as <-. simpl. lra.
      - rewrite lookup_alter_ne by done. exists r. split; [done|lra]. }
    destruct Hto as (r' & Hr' & Hbal).
    rewrite (total_coins_alter _ _ r' _ Hr').
    rewrite (total_coins_alter _ _ s _ Hs). simpl. rewrite Hbal.
    destruct (decide (tx_to tx = tx_from tx)) as [Heq|Hne].
    - rewrite Heq, Hs in Hr. injection Hr as <-. lra.
    - lra. }
  destruct (String.eqb (tx_type tx) "new_account").
  { destruct (negb (has_user (tx_to tx) us) && Qle_bool (fee tx) (balance s))
      eqn:Ec; [|by split; [|left]].
    apply andb_true_iff in Ec as [Eto _].
    apply negb_true_iff, bool_decide_eq_false in Eto.
    cbn [fst snd]. split; [|right; by apply keys_put_append].
    rewrite fees_of_put by done.
    rewrite total_coins_alter_same by done.
    rewrite total_coins_insert.
    - rewrite (total_coins_alter _ _ s _ Hs). simpl. lra.
    - destruct (decide (tx_to tx = tx_from tx)) as [Heq|Hne].
      + exfalso. apply Eto. rewrite Heq, Hs. by eexists.
      + rewrite lookup_alter_ne by done.
        apply eq_None_not_Some. intros Hsome. by apply Eto. }
  destruct (String.eqb (tx_type tx) "join_pool"); [|by split; [|left]].
  destruct (Qle_bool (fee tx) (balance s)); [|by split; [|left]].
  cbn [fst snd]. split; [|right; by apply keys_put_append].
  rewrite fees_of_put by done.
  rewrite total_coins_alter_same by done.
  rewrite (total_coins_alter _ _ s _ Hs). simpl. lra.
Qed.

Lemma execute_pool_supply (now : Z) (pool : odict Tx) (us : gmap string User)
    (mp : odict Z) (ex : odict Executed) :
  NoDup (keys pool) -> (forall k, k ∈ keys ex -> k ∉ keys pool) ->
  let r := fold_left (execute_one now) pool (us, mp, ex) in
  total_coins r.1.1 + fees_of r.2 == total_coins us + fees_of ex /\
  (forall k, k ∈ keys r.2 -> k ∈ keys ex \/ k ∈ keys pool).
Proof.
  revert us mp ex. induction pool as [|[txid tx] pool IH]; intros us mp ex Hnd Hex.
  - simpl. split; [reflexivity|auto].
  - cbn [fold_left]. cbv zeta. simpl in Hnd. apply NoDup_cons in Hnd as [Hid Hnd].
    assert (Hfresh : txid ∉ keys ex).
    { intros Hin. apply (Hex txid Hin). by left. }
    destruct (execute_one_supply now us mp ex txid tx Hfresh) as [Hsum Hkeys].
    destruct (execute_one now (us, mp, ex) (txid, tx)) as [[us1 mp1] ex1].
    cbn [fst snd] in *.
    destruct (IH us1 mp1 ex1 Hnd) as [Hsum' Hkeys'].
    { intros k Hk Hin. destruct Hkeys as [Hkeys|Hkeys]; rewrite Hkeys in Hk.
      - apply (Hex k Hk). by right.
      - apply elem_of_app in Hk as [Hk|Hk].
        + apply (Hex k Hk). by right.
        + apply list_elem_of_singleton in Hk. by subst. }
    split.
    + by rewrite Hsum', Hsum.
    + intros k Hk. destruct (Hkeys' k Hk) as [Hk1|Hk1].
      * destruct Hkeys as [Hkeys|Hkeys]; rewrite Hkeys in Hk1.
        -- by left.
        -- apply elem_of_app in Hk1 as [Hk1|Hk1]; [by left|].
           apply list_elem_of_singleton in Hk1. subst. right. by left.
      * right. by right.
Qed.

End Supply.



(** ** What [verify_chain] accepts *)

Section Accepted.
Import Py Data Storage Blockchain Ledger Views.
Context `{H : Hashing}.

Lemma verify_link_blocks (db : Db) (i : nat) :
  verify_link db i = Some true ->
  is_Some (blocks_table db !! (Z.of_nat i - 1)) /\
  is_Some (blocks_table db !! Z.of_nat i).
Proof.
  unfold verify_link, get_block.
  destruct (blocks_table db !! Z.of_nat i) as [curr|]; simpl; [|done].
  destruct (blocks_table db !! (Z.of_nat i - 1)) as [prev|]; simpl; [|done].
  intros _. split; by eexists.
Qed.

(** A table of [count] rows that has a row at each of [0 .. count - 1] has
    no other row. *)
Lemma rows_in_range {V} (t : gmap Z V) (count : nat) :
  size t = count ->
  (forall i : nat, (i < count)%nat -> is_Some (t !! Z.of_nat i)) ->
  forall k : Z, is_Some (t !! k) -> 0 <= k < Z.of_nat count.
Proof.
  intros Hsize Hrows k Hk.
  set (range := list_to_set (Z.of_nat <$> seq 0 count) : gset Z).
  assert (Hnd : NoDup (Z.of_nat <$> seq 0 count)).
  { apply NoDup_fmap_2; [|apply NoDup_seq]. intros i j Hij. lia. }
  assert (Hsub : range ⊆ dom t).
  { intros x Hx. apply elem_of_list_to_set, list_elem_of_fmap in Hx as (i & -> & Hi).
    apply elem_of_seq in Hi. apply elem_of_dom, Hrows. lia. }
  assert (Heq : range = dom t).
  { apply set_subseteq_size_eq; [done|].
    rewrite size_dom, Hsize. unfold range.
    rewrite size_list_to_set by done. by rewrite length_fmap, length_seq. }
  apply elem_of_dom in Hk. rewrite <- Heq in Hk.
  apply elem_of_list_to_set, list_elem_of_fmap in Hk as (i & -> & Hi).
  apply elem_of_seq in Hi. lia.
Qed.

End Accepted.

(** X26.  [verify_chain] says [True] for linked chains only.  On a table
    of two blocks or more, [verify_chain] returns [True] exactly when the
    blocks are numbered [0 .. count - 1] without a gap and each block from 1
    on names the state hash of the block before it as its previous hash and
    carries the combined hash of its own header.  (With fewer than two blocks
    it returns [True] without looking at anything; otherwise it returns
    [False] or raises.) *)
Theorem verify_chain_accepts_linked_chains_only `{H : Py.Hashing} (db : Storage.Db) :
  (2 <= Storage.get_block_count db)%nat ->
  Ledger.verify_chain db = Some true
  <-> Views.chain_upto (Storage.get_block_count db - 1) db.
Proof.
  intros Hcount. split.
  - unfold Ledger.verify_chain.
    replace (Storage.get_block_count db <=? 1)%nat with false
      by (symmetry; apply Nat.leb_gt; lia).
    intros Hv. apply verify_links_true in Hv. rewrite Forall_forall in Hv.
    assert (Hlinks : forall i : nat,
              (1 <= i <= Storage.get_block_count db - 1)%nat ->
              Ledger.verify_link db i = Some true).
    { intros i Hi. apply Hv, elem_of_seq. lia. }
    assert (Hrows : forall i : nat, (i < Storage.get_block_count db)%nat ->
              is_Some (Storage.blocks_table db !! Z.of_nat i)).
    { intros i Hi. destruct (decide (i = 0%nat)) as [->|Hne].
      - destruct (verify_link_blocks db 1) as [H0 _]; [apply Hlinks; lia|]. done.
      - destruct (verify_link_blocks db i) as [_ Hi']; [apply Hlinks; lia|]. done. }
    unfold Views.chain_upto. split; [unfold Storage.get_block_count in *; lia|].
    split; [|done]. intros k. split.
    + intros Hk.
      pose proof (rows_in_range (Storage.blocks_table db)
                    (Storage.get_block_count db) eq_refl Hrows k Hk). lia.
    + intros Hk. replace k with (Z.of_nat (Z.to_nat k)) by lia. apply Hrows. lia.
  - intros Hchain. by destruct (chain_verifies _ _ Hchain).
Qed.

Lemma verify_chain_accepts_linked_chains_only_witness :
  Ledger.verify_chain (H := Fixtures.keys_hashing)
    (Storage.save_block Fixtures.stray_block Fixtures.db_genesis) = Some true
  <-> Views.chain_upto (H := Fixtures.keys_hashing) 1
        (Storage.save_block Fixtures.stray_block Fixtures.db_genesis).
Proof.
  apply (verify_chain_accepts_linked_chains_only (H := Fixtures.keys_hashing)
           (Storage.save_block Fixtures.stray_block Fixtures.db_genesis)).
  vm_compute. lia.
Defined.

(** ** Copying the state of a peer (main.py) *)

(** X27.  What [send_state] sends, [on_receive_state_update] stores.  Let
    a node answer a [STATE_REQUEST] while its latest block is above the
    latest block of the node that asked.  When the answer is handled, the
    asking node has the sender's latest block as its own latest block, the
    sender's latest group under its id, and every user of the sender with the
    sender's balance, nonce and life. *)
Theorem requested_state_is_copied (sender receiver : Node.LibreNode)
    (ip : string) (port : Z) (theirs mine : Storage.Block) (gid : Z)
    (row : Storage.GroupRow) :
  Storage.get_latest_block (Node.storage sender) = Some theirs ->
  Storage.get_latest_group (Node.storage sender) = Some (gid, row) ->
  Storage.get_latest_block (Node.storage receiver) = Some mine ->
  Storage.block_number mine < Storage.block_number theirs ->
  exists users,
    Node.sent (Node.send_state ip port sender)
    = (Node.sent sender
       ++ [(ip, port, Node.STATE_UPDATE (Node.node_id sender) (Some theirs)
                        (Some (gid, row)) users)])%list /\
    let receiver' :=
      Node.state_after
        (Node.on_receive_state_update (Some theirs) (Some (gid, row)) users receiver) in
    Storage.get_latest_block (Node.storage receiver') = Some theirs /\
    Storage.groups_table (Node.storage receiver') !! gid = Some row /\
    forall a u, Tables.get_user a (Node.storage sender) = Some u ->
      exists u', Tables.get_user a (Node.storage receiver') = Some u' /\
                 Data.u_address u' = a /\ Data.balance u' = Data.balance u /\
                 Data.nonce u' = Data.nonce u /\ Data.life u' = Data.life u.
Proof.
  intros Htheirs Hgroup Hmine Hlt.
  exists (Node.to_remote <$> Storage.get_all_users (Node.storage sender)).
  split; [unfold Node.send_state, Node.send; simpl; by rewrite Htheirs, Hgroup|].
  intros receiver'.
  destruct (state_update_installs_higher_block_aux theirs mine gid row
              (Node.to_remote <$> Storage.get_all_users (Node.storage sender))
              receiver Hmine) as [_ Hhigher].
  destruct (Hhigher Hlt) as (Hlatest & _ & Hstored & _).
  split; [exact Hlatest|]. split.
  - subst receiver'. unfold Node.on_receive_state_update. rewrite Hmine.
    apply Z.ltb_lt in Hlt. rewrite Hlt. rewrite apply_remote_state_storage.
    simpl. destruct (blocks_map_fold_upsert
                       (Node.to_remote <$> Storage.get_all_users (Node.storage sender))
                       (Node.storage receiver)) as (_ & Hg & _).
    rewrite lookup_insert_eq. by destruct row.
  - intros a u Hu. unfold Tables.get_user in Hu.
    eexists. split.
    + apply Hstored. unfold Storage.get_all_users. by rewrite lookup_fmap, Hu.
    + done.
Qed.

Lemma requested_state_is_copied_witness :
  exists users,
    Node.sent
      (Node.send_state "10.0.0.7" 5001
         (Node.__init__ 0 (Config.load_config "a" Config.NoConfigFile) "a" 5000
            (Storage.save_block Fixtures.stray_block Fixtures.db_genesis)))
    = ([] ++ [("10.0.0.7", 5001,
               Node.STATE_UPDATE "a" (Some Fixtures.stray_block)
                 (Some (0, {| Storage.row_miners := []; Storage.row_created_at := 0 |}))
                 users)])%list /\
    let receiver' :=
      Node.state_after
        (Node.on_receive_state_update (Some Fixtures.stray_block)
           (Some (0, {| Storage.row_miners := []; Storage.row_created_at := 0 |}))
           users
           (Node.__init__ 0 (Config.load_config "b" Config.NoConfigFile) "b" 5001
              Fixtures.db_empty)) in
    Storage.get_latest_block (Node.storage receiver') = Some Fixtures.stray_block /\
    Storage.groups_table (Node.storage receiver') !! 0
    = Some {| Storage.row_miners := []; Storage.row_created_at := 0 |} /\
    forall a u,
      Tables.get_user a
        (Node.storage
           (Node.__init__ 0 (Config.load_config "a" Config.NoConfigFile) "a" 5000
              (Storage.save_block Fixtures.stray_block Fixtures.db_genesis)))
      = Some u ->
      exists u', Tables.get_user a (Node.storage receiver') = Some u' /\
                 Data.u_address u' = a /\ Data.balance u' = Data.balance u /\
                 Data.nonce u' = Data.nonce u /\ Data.life u' = Data.life u.
Proof.
  apply (requested_state_is_copied
           (Node.__init__ 0 (Config.load_config "a" Config.NoConfigFile) "a" 5000
              (Storage.save_block Fixtures.stray_block Fixtures.db_genesis))
           (Node.__init__ 0 (Config.load_config "b" Config.NoConfigFile) "b" 5001
              Fixtures.db_empty)
           "10.0.0.7" 5001 Fixtures.stray_block (Blockchain.ensure_genesis_block 0)).
  - reflexivity.
  - reflexivity.
  - reflexivity.
  - simpl. lia.
Defined.

(** ** Gossiped transactions (libre_network_gui.py) *)

Section Gossiped.
Import Py Data Gui Wallet.

Lemma get_put_other {V} (k k' : string) (v v' : V) (d : odict V) :
  contains k' d = false -> get k d = Some v -> get k (put k' v' d) = Some v.
Proof.
  intros Hc Hg. destruct (decide (k = k')) as [->|Hne].
  - rewrite odict_contains_get, Hg in Hc. done.
  - by rewrite odict_get_put_ne.
Qed.

Lemma contains_not_in_keys {V} (k : string) (d : odict V) :
  contains k d = false -> k ∉ keys d.
Proof.
  unfold contains. intros Hc Hin. apply existsb_eqb_elem_of in Hin. congruence.
Qed.

End Gossiped.

(** X28.  A gossiped transaction never replaces a pooled one.  Whatever
    the transaction says (it is not validated), [on_receive_transaction]
    leaves the files as they are when its id is already pooled, and otherwise
    adds it at the end of the pool: every transaction pooled before is still
    there, unchanged and in its place, and receiving the same transaction
    again changes nothing. *)
Theorem gossiped_transaction_never_replaces (tx : Data.Tx) (fs : Gui.Files) :
  let fs' := Wallet.on_receive_transaction (Some tx) fs in
  (Py.contains (Data.tx_id tx) (Gui.TX_POOL_FILE fs) = true -> fs' = fs) /\
  (Py.contains (Data.tx_id tx) (Gui.TX_POOL_FILE fs) = false ->
   fs' = Gui.write_tx_pool (Gui.TX_POOL_FILE fs ++ [(Data.tx_id tx, tx)])%list fs) /\
  (forall k v, Py.get k (Gui.TX_POOL_FILE fs) = Some v ->
               Py.get k (Gui.TX_POOL_FILE fs') = Some v) /\
  Wallet.on_receive_transaction (Some tx) fs' = fs'.
Proof.
  intros fs'. subst fs'. unfold Wallet.on_receive_transaction.
  destruct (Py.contains (Data.tx_id tx) (Gui.TX_POOL_FILE fs)) eqn:Ec; cbn [negb].
  - rewrite Ec. by repeat split.
  - pose proof (contains_not_in_keys _ _ Ec) as Hfresh.
    split; [done|]. split; [intros _; by rewrite put_append|]. split.
    + intros k v Hk. simpl. by apply get_put_other.
    + simpl. rewrite odict_contains_get, odict_get_put. done.
Qed.

(** ** What is recorded *)

Section FromPool.
Import Py Data Gui Views.

Lemma elem_of_put {V} (x : string * V) (k : string) (v : V) (d : odict V) :
  x ∈ put k v d -> x = (k, v) \/ x ∈ d.
Proof.
  induction d as [|[k' v'] d IH]; simpl.
  - intros Hx. apply list_elem_of_singleton in Hx. by left.
  - destruct (String.eqb k k').
    + intros [->|Hx]%elem_of_cons; [by left|]. right. by right.
    + intros [->|Hx]%elem_of_cons; [right; by left|].
      destruct (IH Hx) as [->|Hd]; [by left|]. right. by right.
Qed.

Lemma execute_one_from_pool (now : Z) (pool : odict Tx) (us : gmap string User)
    (mp : odict Z) (ex : odict Executed) (entry : string * Tx) :
  entry ∈ pool -> Forall (pooled_in pool) ex ->
  Forall (pooled_in pool) (execute_one now (us, mp, ex) entry).2.
Proof.
  intros Hin Hex. unfold execute_one. destruct entry as [txid tx].
  destruct (us !! tx_from tx) as [s|]; [|done].
  assert (Hput : tx_type tx = "transfer" \/ tx_type tx = "new_account" \/
                 tx_type tx = "join_pool" ->
                 Forall (pooled_in pool) (put txid (Pooled tx) ex)).
  { intros Hty. apply Forall_forall. intros x Hx.
    apply elem_of_put in Hx as [->|Hx].
    - by exists tx.
    - rewrite Forall_forall in Hex. by apply Hex. }
  destruct (String.eqb (tx_type tx) "transfer") eqn:Et.
  { apply String.eqb_eq in Et. destruct (_ && _); [|done]. apply Hput. by left. }
  destruct (String.eqb (tx_type tx) "new_account") eqn:En.
  { apply String.eqb_eq in En. destruct (_ && _); [|done]. apply Hput. right. by left. }
  destruct (String.eqb (tx_type tx) "join_pool") eqn:Ej; [|done].
  apply String.eqb_eq in Ej. destruct (Qle_bool _ _); [|done].
  apply Hput. right. by right.
Qed.

Lemma execute_pool_from_pool (now : Z) (pool rest : odict Tx)
    (acc : gmap string User * odict Z * odict Executed) :
  rest ⊆ pool -> Forall (pooled_in pool) acc.2 ->
  Forall (pooled_in pool) (fold_left (execute_one now) rest acc).2.
Proof.
  revert acc. induction rest as [|entry rest IH]; intros [[us mp] ex] Hsub Hex; [done|].
  simpl. apply IH.
  - intros x Hx. apply Hsub. by right.
  - apply execute_one_from_pool; [|done]. apply Hsub. by left.
Qed.

End FromPool.

(** X29.  The executor records what was pooled, and the reward.  Every
    entry of [tx_executed] in a proposal is either the reward of 100 to the
    miner under the round's reward id, or a transaction of the pool of type
    transfer, new_account or join_pool, recorded unchanged under the id it was
    pooled with. *)
Theorem recorded_transactions_come_from_pool (now : Z) (miner : string)
    (fs : Gui.Files) (st : Data.State) (k : string) (e : Data.Executed) :
  (Gui.execute_transactions now miner fs).1 = Some st ->
  (k, e) ∈ Data.tx_executed st ->
  k = "reward_" ++ Py.str now /\ e = Data.Reward ("reward_" ++ Py.str now) miner 100 \/
  exists tx,
    e = Data.Pooled tx /\ (k, tx) ∈ Gui.TX_POOL_FILE fs /\
    (Data.tx_type tx = "transfer" \/ Data.tx_type tx = "new_account" \/
     Data.tx_type tx = "join_pool").
Proof.
  unfold Gui.execute_transactions.
  destruct (negb (Gui.has_user miner (Gui.USERS_FILE fs))); [done|].
  destruct (negb (Py.contains miner (Data.miners (Gui.get_group fs)))); [done|].
  cbv zeta.
  destruct (negb (Gui.has_user miner (Gui.USERS_FILE (Gui.decrease_life fs))));
    [done|].
  pose proof (execute_pool_from_pool now (Gui.TX_POOL_FILE fs)
                (Gui.TX_POOL_FILE (Gui.decrease_life fs))
                (Gui.USERS_FILE (Gui.decrease_life fs),
                 Gui.MINER_POOL_FILE (Gui.decrease_life fs), [])) as Hk.
  destruct (fold_left _ _ _) as [[us1 mp1] ex1].
  cbn [fst snd] in *. intros [= <-]. cbn [Data.tx_executed].
  intros Hin. apply elem_of_put in Hin as [[= -> ->]|Hin]; [by left|].
  right. specialize (Hk ltac:(done) ltac:(constructor)).
  rewrite Forall_forall in Hk. destruct (Hk _ Hin) as (tx & He & Htx & Hty).
  simpl in *. subst e. by exists tx.
Qed.

Lemma recorded_transactions_come_from_pool_witness :
  "t1" = "reward_" ++ Py.str 1700000000 /\
  Data.Pooled (Fixtures.transfer "t1" "M" "B" 5 (1 # 2000)).2
  = Data.Reward ("reward_" ++ Py.str 1700000000) "M" 100 \/
  exists tx,
    Data.Pooled (Fixtures.transfer "t1" "M" "B" 5 (1 # 2000)).2 = Data.Pooled tx /\
    ("t1", tx) ∈ Gui.TX_POOL_FILE Views.files_transfer /\
    (Data.tx_type tx = "transfer" \/ Data.tx_type tx = "new_account" \/
     Data.tx_type tx = "join_pool").
Proof.
  eapply (recorded_transactions_come_from_pool 1700000000 "M" Views.files_transfer).
  - reflexivity.
  - vm_compute. apply list_elem_of_here.
Defined.

(** ** The memory of seen messages (p2p_network.py) *)

Section Memory.
Import Py P2P.

Lemma lookup_foldr_delete_keys {V} (m : gmap string V) (l : list string) (i : string) :
  foldr delete m l !! i = if decide (i ∈ l) then None else m !! i.
Proof.
  induction l as [|k l IH]; cbn [foldr].
  - destruct (decide (i ∈ [])) as [Hin|_]; [|reflexivity].
    by apply elem_of_nil in Hin.
  - destruct (decide (i = k)) as [->|Hne].
    + rewrite lookup_delete_eq.
      destruct (decide (k ∈ k :: l)) as [_|Hni]; [reflexivity|].
      exfalso. apply Hni. by left.
    + rewrite lookup_delete_ne by done. rewrite IH.
      destruct (decide (i ∈ l)) as [Hin|Hni];
        destruct (decide (i ∈ k :: l)) as [Hin'|Hni']; try reflexivity.
      * exfalso. apply Hni'. by right.
      * apply elem_of_cons in Hin' as [?|?]; done.
Qed.

Lemma seen_remove_peers (nids : list string) (self : P2PNode) :
  seen_messages (foldr remove_peer self nids) = seen_messages self.
Proof. induction nids as [|nid nids IH]; [done|]. simpl. exact IH. Qed.

(** A clean-up pass forgets the ids seen more than 600 seconds before. *)
Lemma seen_periodic_cleanup (now : Q) (self : P2PNode) (id : string) :
  seen_messages (_periodic_cleanup now self) !! id
  = match seen_messages self !! id with
    | Some ts => if older 600 now ts then None else Some ts
    | None => None
    end.
Proof.
  unfold _periodic_cleanup. cbv zeta. rewrite seen_remove_peers. simpl.
  rewrite lookup_foldr_delete_keys.
  destruct (seen_messages self !! id) as [ts|] eqn:Hs.
  - destruct (older 600 now ts) eqn:Ho.
    + rewrite decide_True; [done|].
      apply list_elem_of_fmap. exists (id, ts). split; [done|].
      apply elem_of_map_to_list, map_lookup_filter_Some. by split.
    + rewrite decide_False; [done|].
      intros Hin. apply list_elem_of_fmap in Hin as ([id' ts'] & -> & Hin).
      apply elem_of_map_to_list, map_lookup_filter_Some in Hin as [Hl Ho'].
      simpl in *. congruence.
  - by destruct (decide _).
Qed.

End Memory.

(** X30.  The memory of seen messages lasts ten minutes.  After a clean-up
    pass at time [now], a copy of a message that was seen at most 600 seconds
    before is still dropped, while a copy of a message seen earlier than that
    is taken for a new one: it is marked seen again and handed to the handler
    once more. *)
Theorem seen_messages_are_forgotten_after_600s {P App : Type}
    (message_handler : option (P2P.Envelope P -> string * Z -> App -> App * bool))
    (now clock ts : Q) (addr : string * Z) (message_env : P2P.Envelope P)
    (self : P2P.P2PNode) (app : App) (c : ascii) (id : string) :
  P2P.msg_id message_env = Some (String c id) ->
  P2P.seen_messages self !! String c id = Some ts ->
  let self1 := P2P._periodic_cleanup now self in
  let result := P2P.deliver message_handler clock addr message_env self1 app in
  ((now - ts <= 600)%Q -> result = (self1, app, [])) /\
  ((600 < now - ts)%Q ->
   P2P.seen_messages result.1.1 !! String c id = Some clock /\
   result.1.2 = match message_handler with
                | Some handler => (handler message_env addr app).1
                | None => app
                end).
Proof.
  intros Hid Hseen self1 result.
  pose proof (seen_periodic_cleanup now self (String c id)) as Hclean.
  fold self1 in Hclean. rewrite Hseen in Hclean. unfold P2P.older in Hclean.
  split.
  - intros Hle. apply Qle_bool_iff in Hle. rewrite Hle in Hclean. simpl in Hclean.
    subst result. unfold P2P.deliver. rewrite Hid.
    by rewrite bool_decide_eq_true_2 by (rewrite Hclean; by eexists).
  - intros Hlt.
    assert (Hb : Qle_bool (now - ts) 600 = false).
    { apply not_true_iff_false. rewrite Qle_bool_iff. by apply Qlt_not_le. }
    rewrite Hb in Hclean. simpl in Hclean.
    subst result. unfold P2P.deliver. rewrite Hid.
    rewrite bool_decide_eq_false_2 by (rewrite Hclean; by intros [? ?]).
    match goal with
    | |- context [P2P.add_peer _ _ _ _ ?s1] => set (s1' := s1)
    end.
    match goal with
    | |- context [if ?b then P2P.add_peer ?t ?n ?i ?p s1' else s1'] =>
        set (s2 := if b then P2P.add_peer t n i p s1' else s1')
    end.
    assert (H2 : P2P.seen_messages s2 !! String c id = Some clock).
    { assert (H1 : P2P.seen_messages s1' !! String c id = Some clock)
        by (simpl; apply lookup_insert_eq).
      unfold s2. destruct (_ && _); [|done].
      by destruct (add_peer_seen clock (default "" (P2P.sender message_env)) addr.1
                     (default 0 (P2P.sender_port message_env)) s1') as [-> _]. }
    destruct message_handler as [handler|].
    + destruct (handler message_env addr app) as [app1 returned].
      destruct returned; cbn [negb]; [|done].
      destruct (P2P.broadcast_flag message_env); [|done].
      assert (H3 : P2P.seen_messages
                     (P2P.broadcast clock message_env (P2P.sender message_env) s2).1
                   !! String c id = Some clock).
      { unfold P2P.broadcast. simpl. rewrite Hid.
        by rewrite bool_decide_eq_true_2 by (rewrite H2; by eexists). }
      by destruct (P2P.broadcast clock message_env (P2P.sender message_env) s2).
    + cbn [negb]. destruct (P2P.broadcast_flag message_env); [|done].
      assert (H3 : P2P.seen_messages
                     (P2P.broadcast clock message_env (P2P.sender message_env) s2).1
                   !! String c id = Some clock).
      { unfold P2P.broadcast. simpl. rewrite Hid.
        by rewrite bool_decide_eq_true_2 by (rewrite H2; by eexists). }
      by destruct (P2P.broadcast clock message_env (P2P.sender message_env) s2).
Qed.

Lemma seen_messages_are_forgotten_after_600s_witness :
  ((1000 - 100 <= 600)%Q ->
   P2P.deliver (App := unit) None 1001%Q ("10.0.0.2", 40000) Views.repeated_message
     (P2P._periodic_cleanup 1000%Q Views.node_with_memory) tt
   = (P2P._periodic_cleanup 1000%Q Views.node_with_memory, tt, [])) /\
  ((600 < 1000 - 100)%Q ->
   P2P.seen_messages
     (P2P.deliver (App := unit) None 1001%Q ("10.0.0.2", 40000) Views.repeated_message
        (P2P._periodic_cleanup 1000%Q Views.node_with_memory) tt).1.1 !! "m"
   = Some 1001%Q /\
   (P2P.deliver (App := unit) None 1001%Q ("10.0.0.2", 40000) Views.repeated_message
      (P2P._periodic_cleanup 1000%Q Views.node_with_memory) tt).1.2 = tt).
Proof.
  apply (seen_messages_are_forgotten_after_600s (App := unit) None 1000%Q 1001%Q
           100%Q ("10.0.0.2", 40000) Views.repeated_message Views.node_with_memory
           tt "m"%char ""%string).
  - reflexivity.
  - apply lookup_insert_eq.
Defined.
